(** * Quiz-solving engine: error policy, answer submission, task parser,
      answer coercion, quiz orchestration, downloads, metrics and the
      endpoint

    A shallow embedding of the Python sources

    - [src/error_handler.py]      (module [ErrorHandling])
    - [src/answer_submitter.py]   (module [Submitter])
    - [src/llm_agent.py]          (modules [LLMRetry], [Coercion],
                                   [Conversation] and [Vision])
    - [src/browser_manager.py]    (module [Browser])
    - [src/task_parser.py]        (module [Parser])
    - [src/quiz_orchestrator.py]  (module [Orchestrator])
    - [src/models.py]             (module [Models])
    - [src/web_scraper.py]        (module [WebScraper])
    - [src/monitoring.py]         (module [Monitoring])
    - [src/api.py]                (module [Api])

    and of the parts of the Python library these sources rely on: [str]
    methods ([PyStr]), the regular expressions of [re] ([Re]), [json.loads]
    ([Json]), [base64] ([Base64]), the UTF-8 codec ([Utf8]) and the
    document tree of the HTML parser ([Html]).

    Conventions of the embedding.

    - A Python [int] is a [Z]; a Python [float] holding a duration is a
      rational [Q]: sums, products and powers are exact, the rounding and
      the range limit of binary64 are not represented.
    - A Python [str] is a [string]: the bytes of its UTF-8 encoding.
      [lower], the whitespace test and the regular-expression classes act
      on the ASCII range and leave every byte above 127 alone.
    - Code that can raise returns an [outcome]; code that reads or changes
      the outside world threads an explicit state.
    - Logging and metrics calls have no influence on results and are left
      out. *)

From stdpp Require Import base strings gmap.
From Stdlib Require Import ZArith QArith Qpower Qminmax Lia Bool List Ascii String
  DecimalString DecimalPos.
Import ListNotations.

Local Open Scope string_scope.
Local Open Scope Z_scope.

(** ** Python strings *)

Module PyStr.

Definition lower_char (c : ascii) : ascii :=
  let n := nat_of_ascii c in
  if ((65 <=? n) && (n <=? 90))%nat then ascii_of_nat (n + 32) else c.

(** [str.lower()] *)
Fixpoint lower (s : string) : string :=
  match s with
  | EmptyString => EmptyString
  | String c t => String (lower_char c) (lower t)
  end.

(** [needle in hay] *)
Fixpoint contains (needle hay : string) : bool :=
  String.prefix needle hay ||
  match hay with
  | EmptyString => false
  | String _ t => contains needle t
  end.

(** [str(n)] for an [int] *)
Definition str_of_int (n : Z) : string := NilZero.string_of_int (Z.to_int n).

(** [any(keyword in hay for keyword in keywords)] *)
Definition contains_any (keywords : list string) (hay : string) : bool :=
  existsb (fun k => contains k hay) keywords.


(** ASCII whitespace as [str.isspace] and the class [\s] know it: the
    characters 9 to 13, 28 to 32. *)
Definition is_space (c : ascii) : bool :=
  let n := nat_of_ascii c in
  (((9 <=? n) && (n <=? 13)) || ((28 <=? n) && (n <=? 32)))%nat.

Definition is_digit (c : ascii) : bool :=
  let n := nat_of_ascii c in ((48 <=? n) && (n <=? 57))%nat.

Definition is_alpha (c : ascii) : bool :=
  let n := nat_of_ascii c in
  (((65 <=? n) && (n <=? 90)) || ((97 <=? n) && (n <=? 122)))%nat.

(** The class [\w] on the ASCII range. *)
Definition is_word (c : ascii) : bool :=
  is_alpha c || is_digit c || Ascii.eqb c "_".

(** [c in chars] for a string used as a set of characters *)
Fixpoint char_in (c : ascii) (chars : string) : bool :=
  match chars with
  | EmptyString => false
  | String d t => Ascii.eqb c d || char_in c t
  end.

(** [s.lstrip(chars)], with the characters to drop given as a test *)
Fixpoint lstrip_by (drop : ascii -> bool) (s : string) : string :=
  match s with
  | EmptyString => EmptyString
  | String c t => if drop c then lstrip_by drop t else s
  end.

(** [s.rstrip(chars)] *)
Fixpoint rstrip_by (drop : ascii -> bool) (s : string) : string :=
  match s with
  | EmptyString => EmptyString
  | String c t =>
      match rstrip_by drop t with
      | EmptyString => if drop c then EmptyString else String c EmptyString
      | t' => String c t'
      end
  end.

Definition strip_by (drop : ascii -> bool) (s : string) : string :=
  rstrip_by drop (lstrip_by drop s).

(** [s.strip()] *)
Definition strip (s : string) : string := strip_by is_space s.

(** [s.startswith(p)] *)
Definition startswith (p s : string) : bool := String.prefix p s.

(** All 256 bytes. *)
Definition all_ascii : list ascii := map ascii_of_nat (seq 0 256).

(** The first [length s - length rest] characters of [s]: what was read
    when reading [s] left [rest]. *)
Definition consumed (s rest : string) : string :=
  String.substring 0 (String.length s - String.length rest) s.

End PyStr.

(** ** Regular expressions

    The fragment of Python's [re] the program uses, with its backtracking
    semantics: alternatives are tried in order, a greedy repetition takes
    as much as it can and gives back one character at a time, a lazy one
    starts with as little as it can.  Repetition applies to a character
    class, which is all the patterns of the program need, and a pattern
    has at most one capturing group. *)

Module Re.

Inductive regex :=
| Eps
| Cls (p : ascii -> bool)
| Seq (r1 r2 : regex)
| Alt (r1 r2 : regex)
| Rep (greedy : bool) (p : ascii -> bool) (lo : nat) (hi : option nat)
| Group (r : regex)
| Bol
| Eol
| WordB.

(** What a match found: the text matched, the text of the capturing
    group if the pattern has one and it took part, and the text left. *)
Record found := Found {
  matched : string;
  group1 : option string;
  rest : string
}.

Section matcher.
Context {A : Type}.

(** A continuation receives the character before the current position,
    the text from the current position on, and the group. *)
Definition cont := option ascii -> string -> option string -> option A.

(** [p{lo,hi}] and [p{lo,hi}?] *)
Fixpoint rep_match (greedy : bool) (p : ascii -> bool) (lo : nat) (hi : option nat)
    (prev : option ascii) (s : string) (cap : option string) (k : cont) : option A :=
  let more :=
    match s with
    | String c t =>
        if p c then
          match hi with
          | Some O => None
          | Some (S h) => rep_match greedy p (pred lo) (Some h) (Some c) t cap k
          | None => rep_match greedy p (pred lo) None (Some c) t cap k
          end
        else None
    | EmptyString => None
    end in
  match lo with
  | S _ => more
  | O =>
      if greedy then
        match more with
        | Some x => Some x
        | None => k prev s cap
        end
      else
        match k prev s cap with
        | Some x => Some x
        | None => more
        end
  end.

Definition at_word_boundary (prev : option ascii) (s : string) : bool :=
  let before := match prev with Some c => PyStr.is_word c | None => false end in
  let after := match s with String c _ => PyStr.is_word c | EmptyString => false end in
  xorb before after.

Fixpoint run (r : regex) (prev : option ascii) (s : string) (cap : option string)
    (k : cont) : option A :=
  match r with
  | Eps => k prev s cap
  | Cls p =>
      match s with
      | String c t => if p c then k (Some c) t cap else None
      | EmptyString => None
      end
  | Seq r1 r2 => run r1 prev s cap (fun prev' s' cap' => run r2 prev' s' cap' k)
  | Alt r1 r2 =>
      match run r1 prev s cap k with
      | Some x => Some x
      | None => run r2 prev s cap k
      end
  | Rep greedy p lo hi => rep_match greedy p lo hi prev s cap k
  | Group r1 =>
      run r1 prev s cap (fun prev' s' _ => k prev' s' (Some (PyStr.consumed s s')))
  | Bol => match prev with None => k prev s cap | Some _ => None end
  | Eol =>
      match s with
      | EmptyString | String "010" EmptyString => k prev s cap
      | _ => None
      end
  | WordB => if at_word_boundary prev s then k prev s cap else None
  end.

End matcher.

(** A match that starts at the current position. *)
Definition match_here (r : regex) (prev : option ascii) (s : string) : option found :=
  run r prev s None (fun _ s' cap => Some (Found (PyStr.consumed s s') cap s')).

(** [re.match(r, s)] *)
Definition re_match (r : regex) (s : string) : option found := match_here r None s.

(** The leftmost match at or after the current position. *)
Fixpoint search_from (r : regex) (prev : option ascii) (s : string) : option found :=
  match match_here r prev s with
  | Some f => Some f
  | None =>
      match s with
      | String c t => search_from r (Some c) t
      | EmptyString => None
      end
  end.

(** [re.search(r, s)] *)
Definition re_search (r : regex) (s : string) : option found := search_from r None s.

(** The character a match ended on. *)
Definition last_char (prev : option ascii) (m : string) : option ascii :=
  match String.get (String.length m - 1) m with
  | Some c => Some c
  | None => prev
  end.

(** The successive matches, none overlapping an earlier one.  The
    patterns of the program never match the empty text; after an empty
    match the scan moves on by one character. *)
Fixpoint findall_from (fuel : nat) (r : regex) (prev : option ascii) (s : string)
    : list found :=
  match fuel with
  | O => []
  | S fuel' =>
      match search_from r prev s with
      | None => []
      | Some f =>
          match matched f, rest f with
          | EmptyString, String c t => f :: findall_from fuel' r (Some c) t
          | EmptyString, EmptyString => [f]
          | m, s' => f :: findall_from fuel' r (last_char prev m) s'
          end
      end
  end.

(** [re.findall(r, s)]: for a pattern with a group the texts of the
    group, otherwise the texts matched. *)
Definition re_findall (r : regex) (s : string) : list string :=
  map (fun f => match group1 f with Some g => g | None => matched f end)
      (findall_from (S (String.length s)) r None s).

(** Building patterns. *)
Definition chr (c : ascii) : regex := Cls (Ascii.eqb c).
(** a character, in either case ([re.IGNORECASE]) *)
Definition ichr (c : ascii) : regex :=
  Cls (fun d => Ascii.eqb (PyStr.lower_char d) (PyStr.lower_char c)).
Fixpoint lit (s : string) : regex :=
  match s with
  | EmptyString => Eps
  | String c t => Seq (chr c) (lit t)
  end.
Fixpoint ilit (s : string) : regex :=
  match s with
  | EmptyString => Eps
  | String c t => Seq (ichr c) (ilit t)
  end.
Fixpoint seqs (rs : list regex) : regex :=
  match rs with
  | [] => Eps
  | [r] => r
  | r :: rs' => Seq r (seqs rs')
  end.
Fixpoint alts (rs : list regex) : regex :=
  match rs with
  | [] => Cls (fun _ => false)
  | [r] => r
  | r :: rs' => Alt r (alts rs')
  end.
Definition star (p : ascii -> bool) : regex := Rep true p 0 None.
Definition plus (p : ascii -> bool) : regex := Rep true p 1 None.
Definition opt (r : regex) : regex := Alt r Eps.
Definition any_char (c : ascii) : bool := true.

End Re.

(** [a < b] on durations *)
Definition Qlt_bool (a b : Q) : bool := negb (Qle_bool b a).

(** ** Raised exceptions and results *)

(** The categories of [ErrorCategory]. *)
Inductive ErrorCategory :=
| AUTHENTICATION | VALIDATION | TIMEOUT | BROWSER | NETWORK
| LLM_API | DATA_PROCESSING | TASK_EXECUTION | UNKNOWN.

Definition ErrorCategory_eqb (a b : ErrorCategory) : bool :=
  match a, b with
  | AUTHENTICATION, AUTHENTICATION | VALIDATION, VALIDATION
  | TIMEOUT, TIMEOUT | BROWSER, BROWSER | NETWORK, NETWORK
  | LLM_API, LLM_API | DATA_PROCESSING, DATA_PROCESSING
  | TASK_EXECUTION, TASK_EXECUTION | UNKNOWN, UNKNOWN => true
  | _, _ => false
  end.

(** A raised exception, as far as the program looks at it:
    [type(e).__name__]; the qualified names of its class and of the
    classes that one inherits from (what [isinstance] and the [except]
    clauses ask for); [str(e)]; and the [category] attribute, which the
    instances of [QuizSystemError] and of its subclasses carry and no
    other exception does. *)
Record exn := Exn {
  type_name : string;
  mro : list string;
  message : string;
  category : option ErrorCategory
}.

(** [isinstance(e, cls)] *)
Definition isinstance (e : exn) (cls : string) : bool :=
  existsb (String.eqb cls) (mro e).

Inductive outcome (T : Type) :=
| Ok (v : T)
| Raise (e : exn).
Arguments Ok {T} v.
Arguments Raise {T} e.

(** The constructors of the [QuizSystemError] subclasses fix the category. *)
Definition quiz_error (name : string) (c : ErrorCategory) (msg : string) : exn :=
  Exn name ["src.error_handler." ++ name; "src.error_handler.QuizSystemError"; "Exception"]
      msg (Some c).

Definition AuthenticationError := quiz_error "AuthenticationError" AUTHENTICATION.
Definition ValidationError := quiz_error "ValidationError" VALIDATION.
Definition TimeoutError := quiz_error "TimeoutError" TIMEOUT.
Definition BrowserError := quiz_error "BrowserError" BROWSER.
Definition NetworkError := quiz_error "NetworkError" NETWORK.
Definition LLMAPIError := quiz_error "LLMAPIError" LLM_API.
Definition DataProcessingError := quiz_error "DataProcessingError" DATA_PROCESSING.
Definition TaskExecutionError := quiz_error "TaskExecutionError" TASK_EXECUTION.

(** A plain exception of the standard library or of a third-party
    package. *)
Definition plain_error (name : string) (msg : string) : exn :=
  Exn name [name; "Exception"] msg None.

(** What a call that retries did: its result, the state it left, the
    delays it slept for (oldest first) and how often it called the
    operation it retries. *)
Record run (T W : Type) := Run {
  result : outcome T;
  final : W;
  sleeps : list Q;
  calls : nat
}.
Arguments Run {T W}.
Arguments result {T W}.
Arguments final {T W}.
Arguments sleeps {T W}.
Arguments calls {T W}.

Definition slept {T W} (d : Q) (r : run T W) : run T W :=
  Run (result r) (final r) (d :: sleeps r) (calls r).

Definition called {T W} (r : run T W) : run T W :=
  Run (result r) (final r) (sleeps r) (S (calls r)).

(** ** [src/error_handler.py] *)

Module ErrorHandling.

Record ErrorHandler := {
  max_retries : Z;
  base_delay : Q;
  max_delay : Q;
  exponential_base : Q
}.

(** [ErrorHandler()]: the defaults of [__init__], the global
    [error_handler]. *)
Definition error_handler : ErrorHandler :=
  {| max_retries := 3; base_delay := 1; max_delay := 30;
     exponential_base := 2 |}.

(** [ErrorHandler(exponential_base=0.5)] *)
Definition halving_handler : ErrorHandler :=
  {| max_retries := 3; base_delay := 1; max_delay := 30;
     exponential_base := 1 # 2 |}.

(** [calculate_delay]: [min(base_delay * exponential_base ** attempt,
    max_delay)]. *)
Definition calculate_delay (h : ErrorHandler) (attempt : Z) : Q :=
  let delay := (base_delay h * (exponential_base h) ^ attempt)%Q in
  Qmin delay (max_delay h).

(** [classify_error]: an instance of [QuizSystemError] answers with its
    own category; any other exception is classified by keywords. *)
Definition classify_error (e : exn) : ErrorCategory :=
  match category e with
  | Some c => c
  | None =>
      let error_type := PyStr.lower (type_name e) in
      let error_msg := PyStr.lower (message e) in
      if PyStr.contains "403" error_msg || PyStr.contains "forbidden" error_msg
         || PyStr.contains "unauthorized" error_msg then AUTHENTICATION
      else if PyStr.contains "400" error_msg || PyStr.contains "validation" error_msg
         || PyStr.contains "invalid" error_msg then VALIDATION
      else if PyStr.contains "timeout" error_type || PyStr.contains "timeout" error_msg
      then TIMEOUT
      else if PyStr.contains "playwright" error_type || PyStr.contains "browser" error_msg
      then BROWSER
      else if PyStr.contains_any ["http"; "connection"; "network"] error_type
      then NETWORK
      else if PyStr.contains_any ["openai"; "ratelimit"; "api"] error_type
      then LLM_API
      else if PyStr.contains_any ["parse"; "decode"; "json"; "csv"; "pdf"] error_type
      then DATA_PROCESSING
      else UNKNOWN
  end.

Definition non_retryable : list ErrorCategory := [AUTHENTICATION; VALIDATION].

Definition retryable : list ErrorCategory :=
  [TIMEOUT; BROWSER; NETWORK; LLM_API; DATA_PROCESSING; TASK_EXECUTION].

Definition category_in (c : ErrorCategory) (l : list ErrorCategory) : bool :=
  existsb (ErrorCategory_eqb c) l.

(** [is_retryable(error, category=None)] *)
Definition is_retryable (e : exn) (cat : option ErrorCategory) : bool :=
  let c := match cat with Some c => c | None => classify_error e end in
  if category_in c non_retryable then false else category_in c retryable.

(** The backoff written as the design states it: [min(base * mult^n, cap)]
    with the power taken as an [n]-fold product. *)
Fixpoint repeated_product (mult : Q) (n : nat) : Q :=
  match n with
  | O => 1
  | S n' => (mult * repeated_product mult n')%Q
  end.

Definition backoff_formula (base mult cap : Q) (n : nat) : Q :=
  Qmin (base * repeated_product mult n) cap.

(** [isinstance(e, retry_on)] for a tuple of exception classes. *)
Definition isinstance_any (e : exn) (classes : list string) : bool :=
  existsb (isinstance e) classes.

Section with_retry.
Context {T W : Type}.
Variable h : ErrorHandler.
(** The wrapped operation: it may read and change the state and
    returns or raises. *)
Variable func : W -> outcome T * W.
(** The effective [max_retries] and [retry_on] ([None] is the
    missing argument; like the empty tuple it is falsy). *)
Variable limit : Z.
Variable retry_on : option (list string).

Definition retry_on_excludes (e : exn) : bool :=
  match retry_on with
  | None | Some [] => false
  | Some classes => negb (isinstance_any e classes)
  end.

(** The body of [for attempt in range(max_retries + 1)], with the
    iterations that are left as the structural argument. *)
Fixpoint with_retry_loop (left : nat) (attempt : Z) (last_error : option exn)
    (s : W) : run T W :=
  match left with
  | O =>
      match last_error with
      | Some e => Run (Raise e) s [] O
      | None =>
          Run (Raise (plain_error "RuntimeError" "Unexpected error in retry logic"))
              s [] O
      end
  | S left' =>
      called
        match func s with
        | (Ok v, s') => Run (Ok v) s' [] O
        | (Raise e, s') =>
            let cat := classify_error e in
            if retry_on_excludes e then Run (Raise e) s' [] O
            else if negb (is_retryable e (Some cat)) then Run (Raise e) s' [] O
            else if attempt >=? limit then Run (Raise e) s' [] O
            else
              slept (calculate_delay h attempt)
                    (with_retry_loop left' (attempt + 1) (Some e) s')
        end
  end.

End with_retry.

(** [max_retries if max_retries is not None else self.max_retries] *)
Definition effective_max_retries (h : ErrorHandler) (max_retries_arg : option Z) : Z :=
  match max_retries_arg with
  | Some m => m
  | None => max_retries h
  end.

(** [with_retry(func, max_retries=..., retry_on=...)] *)
Definition with_retry {T W} (h : ErrorHandler) (func : W -> outcome T * W)
    (max_retries_arg : option Z) (retry_on : option (list string)) (s : W)
    : run T W :=
  let limit := effective_max_retries h max_retries_arg in
  with_retry_loop h func limit retry_on (Z.to_nat (limit + 1)) 0 None s.

(** The operation fails on every call with an error of a retryable
    category that the allow-list does not exclude. *)
Definition always_fails_retryably {T W} (func : W -> outcome T * W)
    (retry_on : option (list string)) : Prop :=
  forall s, exists e s',
    func s = (Raise e, s')
    /\ In (classify_error e) retryable
    /\ retry_on_excludes retry_on e = false.

(** The delays slept after the attempts [from, from+1, ..., from+n-1]. *)
Definition delays (h : ErrorHandler) (from : Z) (n : nat) : list Q :=
  map (fun k => calculate_delay h (from + Z.of_nat k)) (seq 0 n).

(** An operation without state that raises the same exception on every
    call. *)
Definition always_raise (e : exn) (s : unit) : outcome unit * unit := (Raise e, s).

End ErrorHandling.

(** ** [src/models.py] *)

Inductive AnswerFormat := BOOLEAN | NUMBER | STRING | BASE64 | JSON.

(** [SubmitResponse]; [url] holds [str(response.url)], the text of the
    validated URL. *)
Record SubmitResponse := {
  correct : bool;
  reason : option string;
  url : option string
}.

(** [QuizResult] *)
Record QuizResult := {
  success : bool;
  total_time : Q;
  quizzes_solved : Z;
  final_status : string;
  error : option string
}.

(** [QuizResult(...)]: the model validates [total_time >= 0] and
    [quizzes_solved >= 0] and raises otherwise. *)
Definition QuizResult_new (success : bool) (total_time : Q) (quizzes_solved : Z)
    (final_status : string) (error : option string) : outcome QuizResult :=
  if Qle_bool 0 total_time && (0 <=? quizzes_solved)
  then Ok {| success := success; total_time := total_time;
             quizzes_solved := quizzes_solved; final_status := final_status;
             error := error |}
  else Raise (Exn "ValidationError" ["pydantic.ValidationError"; "ValueError"; "Exception"]
                  "validation error for QuizResult" None).

(** The values an answer can be: what [json.loads] returns, and what the
    tools leave in the execution context. *)
#[warnings="-register-all"]
Inductive value :=
| VNone
| VBool (b : bool)
| VInt (n : Z)
| VFloat (x : Q)
| VStr (s : string)
| VList (items : list value)
| VDict (items : list (string * value)).

(** [TaskDefinition]; the URLs are kept as the text [str(...)] gives, and
    [additional_context], which only ever holds the flag [is_demo], maps
    keys to booleans. *)
Record TaskDefinition := {
  instructions : string;
  submit_url : string;
  answer_format : AnswerFormat;
  file_urls : list string;
  additional_context : gmap string bool
}.

(** ** [src/answer_submitter.py] *)

Module Submitter.

(** What one [client.post] and the reading of its response come to:
    [post] itself raised, or a response arrived with a status code and a
    body; the body stands for the result of [response.json()] followed by
    the construction of the [SubmitResponse], a response or the exception
    one of the two raised. *)
Inductive post_result :=
| Raised (e : exn)
| Response (status_code : Z) (body : outcome SubmitResponse).

(** [response.raise_for_status()] raises [httpx.HTTPStatusError] unless
    the status is a 2xx one. *)
Definition is_success (status_code : Z) : bool :=
  (200 <=? status_code) && (status_code <=? 299).

(** [NetworkError(f"HTTP error during submission: {status_code}")] *)
Definition http_error (status_code : Z) : exn :=
  NetworkError ("HTTP error during submission: " ++ PyStr.str_of_int status_code).

Section submit_answer.
Context {W : Type}.
(** [self.max_retries] *)
Variable max_retries : Z.
(** [SubmitPayload(...)] raises a [pydantic.ValidationError] for a
    malformed e-mail address, secret or quiz URL, and does so on every
    attempt. *)
Variable payload_error : option exn.
(** The HTTP exchange of one attempt. *)
Variable post : W -> post_result * W.

(** [_retry_submission]: the delay slept before the retry numbered
    [retry_count + 1]. *)
Definition retry_delay (retry_count : Z) : Q :=
  let retry_count := retry_count + 1 in
  Qmin (2 ^ retry_count) 10.

(** [submit_answer] and [_retry_submission], which call each other; the
    fuel bounds the depth of that recursion. *)
Fixpoint submit_answer (fuel : nat) (retry_count : Z) (w : W)
    : option (run SubmitResponse W) :=
  match fuel with
  | O => None
  | S fuel' =>
      let _retry_submission (w' : W) :=
        option_map (slept (retry_delay retry_count))
                   (submit_answer fuel' (retry_count + 1) w') in
      let raise (e : exn) (w' : W) := Some (Run (Raise e) w' [] O) in
      (* the [except] clauses, in their order, for an exception other than
         the [HTTPStatusError] of [raise_for_status] *)
      let handle (e : exn) (w' : W) :=
        if isinstance e "httpx.RequestError" then
          if retry_count <? max_retries
          then _retry_submission w'
          else raise (NetworkError ("Network error during submission: " ++ message e)) w'
        else if isinstance e "pydantic.ValidationError" then
          raise (ValidationError "Failed to parse submission response") w'
        else raise e w' in
      match payload_error with
      | Some e => handle e w
      | None =>
          option_map called
            match post w with
            | (Raised e, w') => handle e w'
            | (Response status_code body, w') =>
                if is_success status_code then
                  match body with
                  | Ok r => Some (Run (Ok r) w' [] O)
                  | Raise e => handle e w'
                  end
                else if (status_code >=? 500) && (retry_count <? max_retries)
                then _retry_submission w'
                else raise (http_error status_code) w'
            end
      end
  end.

End submit_answer.

(** The delays slept before the retries numbered [from+1 .. from+n]. *)
Definition retry_delays (from : Z) (n : nat) : list Q :=
  map (fun k => retry_delay (from + Z.of_nat k)) (seq 0 n).

(** The two ways a call of [submit_answer] ends after the exchange of the
    current attempt: by the retry of [_retry_submission], or by raising. *)
Definition then_retry {W} (max_retries : Z) (post : W -> post_result * W)
    (fuel : nat) (retry_count : Z) (w' : W) : option (run SubmitResponse W) :=
  option_map called
    (option_map (slept (retry_delay retry_count))
       (submit_answer max_retries None post fuel (retry_count + 1) w')).

Definition raises {W} (e : exn) (w' : W) : option (run SubmitResponse W) :=
  Some (Run (Raise e) w' [] 1%nat).

(** What [response.json()] raises for a body that is not JSON. *)
Definition json_decode_error : exn :=
  Exn "JSONDecodeError" ["json.JSONDecodeError"; "ValueError"; "Exception"]
      "Expecting value: line 1 column 1 (char 0)" None.

(** A server that answers every request with the same response. *)
Definition always_respond (status_code : Z) (body : outcome SubmitResponse)
    (w : unit) : post_result * unit :=
  (Response status_code body, w).

(** Every exchange ends in a 5xx response. *)
Definition server_always_failing {W} (post : W -> post_result * W) : Prop :=
  forall w, exists status body w',
    post w = (Response status body, w') /\ 500 <= status.

End Submitter.

(** ** [src/llm_agent.py]: the call of the completion service *)

Module LLMRetry.

Section call_llm.
Context {Resp W : Type}.
(** [self.client.chat.completions.create(...)] *)
Variable create : W -> outcome Resp * W.
Variable max_retries : Z.

(** [wait_time = 2 ** attempt] *)
Definition wait_time (attempt : Z) : Q := 2 ^ attempt.

(** The body of [for attempt in range(max_retries)].  Leaving the loop
    without a [return] makes the coroutine return [None]. *)
Fixpoint call_llm_loop (left : nat) (attempt : Z) (w : W) : run (option Resp) W :=
  match left with
  | O => Run (Ok None) w [] O
  | S left' =>
      called
        match create w with
        | (Ok response, w') => Run (Ok (Some response)) w' [] O
        | (Raise e, w') =>
            if isinstance e "openai.RateLimitError" || isinstance e "openai.APIError" then
              if attempt <? max_retries - 1
              then slept (wait_time attempt) (call_llm_loop left' (attempt + 1) w')
              else Run (Raise e) w' [] O
            else Run (Raise e) w' [] O
        end
  end.

Definition _call_llm_with_retry (w : W) : run (option Resp) W :=
  call_llm_loop (Z.to_nat max_retries) 0 w.

(** Every call of the service ends in a rate-limit or API error. *)
Definition service_always_failing : Prop :=
  forall w, exists e w',
    create w = (Raise e, w')
    /\ isinstance e "openai.RateLimitError" || isinstance e "openai.APIError" = true.

End call_llm.

(** The waits after the attempts [0 .. n-1]. *)
Definition wait_times (n : nat) : list Q :=
  map (fun k => wait_time (Z.of_nat k)) (seq 0 n).

End LLMRetry.

(** ** [src/browser_manager.py] *)

Module Browser.

Section fetch_and_render.
Context {W : Type}.
(** One pass through the [try] block: launch the browser if needed, open
    a page, navigate, wait, read the content, close the page. *)
Variable render : string -> W -> outcome string * W.
(** [self.cleanup()] *)
Variable cleanup : W -> W.
Variable max_retries : Z.
Variable url : string.

Fixpoint fetch_loop (left : nat) (attempt : Z) (w : W) : run string W :=
  match left with
  | O => Run (Raise (plain_error "Exception" ("Failed to fetch page: " ++ url))) w [] O
  | S left' =>
      called
        match render url w with
        | (Ok html_content, w') => Run (Ok html_content) w' [] O
        | (Raise e, w') =>
            if isinstance e "playwright.async_api.TimeoutError" then
              if attempt =? max_retries - 1
              then Run (Raise (TimeoutError ("Page load timeout for " ++ url))) w' [] O
              else slept 1 (fetch_loop left' (attempt + 1) w')
            else
              if attempt =? max_retries - 1
              then Run (Raise (BrowserError
                          ("Browser error while fetching " ++ url ++ ": " ++ message e)))
                       w' [] O
              else slept 1 (fetch_loop left' (attempt + 1) (cleanup w'))
        end
  end.

Definition fetch_and_render (w : W) : run string W :=
  fetch_loop (Z.to_nat max_retries) 0 w.

(** Every rendering attempt raises. *)
Definition render_always_failing : Prop :=
  forall w, exists e w', render url w = (Raise e, w').

End fetch_and_render.

End Browser.

(** ** [src/quiz_orchestrator.py] *)

Module Orchestrator.

(** An awaited call returns, raises, or is cancelled because the deadline
    of the sequence fired while it was suspended. *)
Inductive reply (T : Type) :=
| Done (v : T)
| Failed (e : exn)
| Cancelled.
Arguments Done {T} v.
Arguments Failed {T} e.
Arguments Cancelled {T}.

(** [str(x)] for an optional text: [None] prints as ["None"]. *)
Definition str_of_optional (s : option string) : string :=
  match s with Some s => s | None => "None" end.

(** [_should_skip_to_next] *)
Definition _should_skip_to_next (retry_count : Z) (remaining_time : Q) : bool :=
  if Qlt_bool remaining_time 30 && (retry_count >=? 1) then true
  else if Qlt_bool remaining_time 60 && (retry_count >=? 2) then true
  else false.

(** How one pass through the body of the [while] loop of
    [_solve_single_quiz] ends. *)
Inductive attempt_end :=
| Return (next_url : option string)
| Throw (e : exn)
| Cancel
| Again (retry_count : Z) (last_error : option string).

Section orchestrator.
Context {W : Type}.
(** [self.timeout] and [self.max_retries_per_quiz] *)
Variable default_timeout : Z.
Variable max_retries_per_quiz : Z.
(** [time.time()] *)
Variable clock : W -> Q.
(** The components the orchestrator holds. *)
Variable fetch_and_render : string -> W -> reply string * W.
Variable parse_quiz_page : string -> string -> outcome TaskDefinition.
Variable solve_task : TaskDefinition -> W -> reply value * W.
Variable submit_answer :
  string -> string -> string -> string -> value -> W -> reply SubmitResponse * W.
(** [asyncio.sleep] and [self.browser_manager.cleanup()] *)
Variable sleep : Q -> W -> reply unit * W.
Variable cleanup : W -> W.

Variables email secret : string.

(** The [except Exception] clause of the loop of [_solve_single_quiz]. *)
Definition on_error (quiz_url : string) (retry_count : Z) (e : exn) (w : W)
    : attempt_end * W :=
  let retry_count := retry_count + 1 in
  let last_error := message e in
  if retry_count >? max_retries_per_quiz then
    (Throw (TaskExecutionError
              ("Failed to solve quiz after " ++ PyStr.str_of_int max_retries_per_quiz
               ++ " retries: " ++ last_error)), w)
  else
    match sleep 1 w with
    | (Done _, w') => (Again retry_count (Some last_error), w')
    | (Failed e', w') => (Throw e', w')
    | (Cancelled, w') => (Cancel, w')
    end.

(** The answer of an attempt: a fixed text for the demo page, the
    solver's answer otherwise. *)
Definition solve_step (task : TaskDefinition) (w : W) : reply value * W :=
  if decide (additional_context task !! "is_demo" = Some true)
  then (Done (VStr "Demo submission to proceed to actual quiz"), w)
  else solve_task task w.

(** One pass through the body of [while retry_count <= max_retries_per_quiz]. *)
Definition quiz_attempt (task : TaskDefinition) (quiz_url : string)
    (remaining_time : Q) (retry_count : Z) (w : W) : attempt_end * W :=
  match solve_step task w with
  | (Cancelled, w1) => (Cancel, w1)
  | (Failed e, w1) => on_error quiz_url retry_count e w1
  | (Done answer, w1) =>
      match submit_answer (submit_url task) email secret quiz_url answer w1 with
      | (Cancelled, w2) => (Cancel, w2)
      | (Failed e, w2) => on_error quiz_url retry_count e w2
      | (Done submit_response, w2) =>
          if correct submit_response then (Return (url submit_response), w2)
          else
            (* the final [else]: retry the current quiz *)
            let retry :=
              let retry_count := retry_count + 1 in
              if retry_count <=? max_retries_per_quiz
              then (Again retry_count (reason submit_response), w2)
              else
                (* raised inside the [try], so the [except] clause sees it *)
                on_error quiz_url retry_count
                  (plain_error "Exception"
                     ("Failed to solve quiz after "
                      ++ PyStr.str_of_int max_retries_per_quiz ++ " retries: "
                      ++ str_of_optional (reason submit_response))) w2 in
            match url submit_response with
            | Some next_url =>
                if retry_count >=? max_retries_per_quiz then (Return (Some next_url), w2)
                else if _should_skip_to_next retry_count remaining_time
                then (Return (Some next_url), w2)
                else retry
            | None => retry
            end
      end
  end.

(** The [while] loop of [_solve_single_quiz]. *)
Fixpoint quiz_loop (fuel : nat) (task : TaskDefinition) (quiz_url : string)
    (remaining_time : Q) (retry_count : Z) (last_error : option string) (w : W)
    : option (reply (option string) * W) :=
  match fuel with
  | O => None
  | S fuel' =>
      if retry_count <=? max_retries_per_quiz then
        match quiz_attempt task quiz_url remaining_time retry_count w with
        | (Return next_url, w') => Some (Done next_url, w')
        | (Throw e, w') => Some (Failed e, w')
        | (Cancel, w') => Some (Cancelled, w')
        | (Again retry_count' last_error', w') =>
            quiz_loop fuel' task quiz_url remaining_time retry_count' last_error' w'
        end
      else
        Some (Failed (plain_error "Exception"
                        ("Failed to solve quiz: " ++ str_of_optional last_error)), w)
  end.

(** [_solve_single_quiz]; the loop runs at most
    [max_retries_per_quiz + 1] times, and the fuel leaves room for the
    test that ends it. *)
Definition _solve_single_quiz (quiz_url : string) (remaining_time : Q) (w : W)
    : option (reply (option string) * W) :=
  match fetch_and_render quiz_url w with
  | (Cancelled, w1) => Some (Cancelled, w1)
  | (Failed e, w1) =>
      Some (Failed (BrowserError ("Failed to fetch quiz page: " ++ message e)), w1)
  | (Done html_content, w1) =>
      match parse_quiz_page html_content quiz_url with
      | Raise e =>
          Some (Failed (TaskExecutionError ("Failed to parse quiz page: " ++ message e)), w1)
      | Ok task_definition =>
          quiz_loop (S (Z.to_nat (max_retries_per_quiz + 1))) task_definition quiz_url
                    remaining_time 0 None w1
      end
  end.

(** [timeout or self.timeout] *)
Definition effective_timeout (timeout : option Z) : Z :=
  match timeout with
  | None | Some 0 => default_timeout
  | Some t => t
  end.

(** How the [while current_url] loop of [solve_quiz_sequence] ends:
    normally, by the deadline, or by an exception; with the count of
    quizzes solved. *)
Inductive sequence_end :=
| Finished (quizzes_solved : Z)
| TimedOut (quizzes_solved : Z)
| Errored (quizzes_solved : Z) (e : exn).

(** The [while current_url] loop; one unit of fuel per quiz and one for
    the test that ends the loop. *)
Fixpoint sequence_loop (fuel : nat) (timeout : Z) (start_time : Q)
    (quizzes_solved : Z) (current_url : option string) (visited_urls : list string)
    (w : W) : option (sequence_end * W) :=
  match fuel with
  | O => None
  | S fuel' =>
      match current_url with
      | None | Some "" => Some (Finished quizzes_solved, w)
      | Some current =>
          if existsb (String.eqb current) visited_urls
          then Some (Finished quizzes_solved, w)
          else
            let visited_urls := (visited_urls ++ [current])%list in
            let elapsed := (clock w - start_time)%Q in
            let remaining := (inject_Z timeout - elapsed)%Q in
            match _solve_single_quiz current remaining w with
            | None => None
            | Some (Cancelled, w') => Some (TimedOut quizzes_solved, w')
            | Some (Failed e, w') =>
                if isinstance e "TimeoutError"
                then Some (TimedOut quizzes_solved, w')
                else Some (Errored quizzes_solved e, w')
            | Some (Done next_url, w') =>
                sequence_loop fuel' timeout start_time (quizzes_solved + 1) next_url
                              visited_urls w'
            end
      end
  end.

(** [solve_quiz_sequence(email, secret, initial_url, timeout=None)] *)
Definition solve_quiz_sequence (fuel : nat) (initial_url : string)
    (timeout : option Z) (w : W) : option (outcome QuizResult * W) :=
  let timeout := effective_timeout timeout in
  let start_time := clock w in
  let exceeded :=
    "Exceeded " ++ PyStr.str_of_int timeout ++ " second time limit" in
  let failure (quizzes_solved : Z) (e : exn) (w' : W) :=
    QuizResult_new false (clock w' - start_time) quizzes_solved "error"
                   (Some (message e)) in
  match sequence_loop fuel timeout start_time 0 (Some initial_url) [] w with
  | None => None
  | Some (ended, w') =>
      let returned :=
        match ended with
        | Finished quizzes_solved =>
            match QuizResult_new true (clock w' - start_time) quizzes_solved
                                 "completed" None with
            | Ok r => Ok r
            | Raise e => failure quizzes_solved e w'
            end
        | TimedOut quizzes_solved =>
            QuizResult_new false (clock w' - start_time) quizzes_solved "timeout"
                           (Some exceeded)
        | Errored quizzes_solved e => failure quizzes_solved e w'
        end in
      Some (returned, cleanup w')
  end.

End orchestrator.

(** A scripted environment for examples, after the integration tests:
    the state counts the submissions made, each of which takes a second;
    every page renders and parses to the same task, the solver answers 42,
    and the verdict is a function of the quiz URL. *)
Definition example_task : TaskDefinition :=
  {| instructions := "Quiz content";
     submit_url := "https://example.com/submit";
     answer_format := NUMBER;
     file_urls := [];
     additional_context := ∅ |}.

Definition scripted_clock (w : nat) : Q := inject_Z (Z.of_nat w).
Definition scripted_fetch (quiz_url : string) (w : nat) : reply string * nat :=
  (Done "<html><body>Quiz content</body></html>", w).
Definition scripted_parse (html quiz_url : string) : outcome TaskDefinition :=
  Ok example_task.
Definition scripted_solve (task : TaskDefinition) (w : nat) : reply value * nat :=
  (Done (VInt 42), w).
Definition scripted_submit (verdict : string -> SubmitResponse)
    (submit_url email secret quiz_url : string) (answer : value) (w : nat)
    : reply SubmitResponse * nat :=
  (Done (verdict quiz_url), S w).
Definition scripted_sleep (d : Q) (w : nat) : reply unit * nat := (Done tt, w).

(** Verdicts that chain quiz1 to quiz2 and quiz2 back to quiz1. *)
Definition looping_verdict (quiz_url : string) : SubmitResponse :=
  if String.eqb quiz_url "https://example.com/quiz1"
  then {| correct := true; reason := Some ""; url := Some "https://example.com/quiz2" |}
  else {| correct := true; reason := Some ""; url := Some "https://example.com/quiz1" |}.

(** A verdict that is always wrong and always names a next quiz. *)
Definition wrong_verdict (quiz_url : string) : SubmitResponse :=
  {| correct := false; reason := Some "Wrong answer";
     url := Some "https://example.com/quiz2" |}.

End Orchestrator.

(** ** A JSON decoder

    [json.loads] belongs to Python's standard library; the coercion below
    takes the decoder as a parameter.  This decoder serves the examples.
    It follows the grammar of [json.loads] with these limits: the message
    of an error names its kind without the position, a number
    with a fraction or an exponent becomes the exact rational it denotes,
    the literals [NaN] and [Infinity] and the escapes of surrogate code
    points are rejected, and an object is a list of members in the order
    of their first occurrence. *)

Module Json.

Definition decode_error (msg : string) : exn :=
  Exn "JSONDecodeError" ["json.JSONDecodeError"; "ValueError"; "Exception"] msg None.

Definition is_json_space (c : ascii) : bool :=
  let n := nat_of_ascii c in
  ((n =? 32) || (n =? 9) || (n =? 10) || (n =? 13))%nat.

Definition digit_value (c : ascii) : Z := Z.of_nat (nat_of_ascii c) - 48.

(** The number a text of decimal digits denotes. *)
Fixpoint digits_value (acc : Z) (s : string) : Z :=
  match s with
  | EmptyString => acc
  | String c t => digits_value (10 * acc + digit_value c) t
  end.

(** The longest prefix of characters of a class, and what follows it. *)
Fixpoint span (p : ascii -> bool) (s : string) : string * string :=
  match s with
  | String c t =>
      if p c then let (a, b) := span p t in (String c a, b) else (EmptyString, s)
  | EmptyString => (EmptyString, EmptyString)
  end.

Definition hex_value (c : ascii) : option Z :=
  let n := Z.of_nat (nat_of_ascii c) in
  if (48 <=? n) && (n <=? 57) then Some (n - 48)
  else if (65 <=? n) && (n <=? 70) then Some (n - 55)
  else if (97 <=? n) && (n <=? 102) then Some (n - 87)
  else None.

Definition byte_of_Z (n : Z) : ascii := ascii_of_nat (Z.to_nat n).

(** The UTF-8 encoding of a code point below 65536 that is no surrogate. *)
Definition utf8_of_code_point (n : Z) : option string :=
  if n <? 128 then Some (String (byte_of_Z n) EmptyString)
  else if n <? 2048 then
    Some (String (byte_of_Z (192 + n / 64))
            (String (byte_of_Z (128 + n mod 64)) EmptyString))
  else if (55296 <=? n) && (n <=? 57343) then None
  else
    Some (String (byte_of_Z (224 + n / 4096))
            (String (byte_of_Z (128 + (n / 64) mod 64))
               (String (byte_of_Z (128 + n mod 64)) EmptyString))).

Definition simple_escape (c : ascii) : option ascii :=
  if Ascii.eqb c "034" then Some "034"%char
  else if Ascii.eqb c "\" then Some "\"%char
  else if Ascii.eqb c "/" then Some "/"%char
  else if Ascii.eqb c "b" then Some "008"%char
  else if Ascii.eqb c "f" then Some "012"%char
  else if Ascii.eqb c "n" then Some "010"%char
  else if Ascii.eqb c "r" then Some "013"%char
  else if Ascii.eqb c "t" then Some "009"%char
  else None.

(** The text of a string literal after its opening quote, and what
    follows the closing one. *)
Fixpoint string_body (fuel : nat) (s : string) (acc : string) : option (string * string) :=
  match fuel with
  | O => None
  | S fuel' =>
      match s with
      | EmptyString => None
      | String c t =>
          if Ascii.eqb c "034" then Some (acc, t)
          else if Ascii.eqb c "\" then
            match t with
            | String "u" (String h1 (String h2 (String h3 (String h4 t')))) =>
                match hex_value h1, hex_value h2, hex_value h3, hex_value h4 with
                | Some a, Some b, Some c', Some d' =>
                    match utf8_of_code_point (4096 * a + 256 * b + 16 * c' + d') with
                    | Some bytes => string_body fuel' t' (acc ++ bytes)
                    | None => None
                    end
                | _, _, _, _ => None
                end
            | String e t' =>
                match simple_escape e with
                | Some x => string_body fuel' t' (acc ++ String x EmptyString)
                | None => None
                end
            | EmptyString => None
            end
          else if (nat_of_ascii c <? 32)%nat then None
          else string_body fuel' t (acc ++ String c EmptyString)
      end
  end.

(** A number literal: its value, and what follows it.  An integer of
    more than 4300 digits makes [int] raise a [ValueError]. *)
Definition number (s : string) : option (outcome value * string) :=
  let (negative, s1) :=
    match s with
    | String "-" t => (true, t)
    | _ => (false, s)
    end in
  let sign (n : Z) := if negative then - n else n in
  let (int_digits, s2) :=
    match s1 with
    | String "0" t => ("0", t)
    | _ => span PyStr.is_digit s1
    end in
  match int_digits with
  | EmptyString => None
  | _ =>
      let (frac_digits, s3) :=
        match s2 with
        | String "." t =>
            match span PyStr.is_digit t with
            | (EmptyString, _) => (EmptyString, s2)
            | (f, t') => (f, t')
            end
        | _ => (EmptyString, s2)
        end in
      let '(exponent, s4) :=
        match s3 with
        | String e t =>
            if Ascii.eqb e "e" || Ascii.eqb e "E" then
              let (esign, t1) :=
                match t with
                | String "-" t' => (-1, t')
                | String "+" t' => (1, t')
                | _ => (1, t)
                end in
              match span PyStr.is_digit t1 with
              | (EmptyString, _) => (None, s3)
              | (ds, t2) => (Some (esign * digits_value 0 ds), t2)
              end
            else (None, s3)
        | EmptyString => (None, s3)
        end in
      match frac_digits, exponent with
      | EmptyString, None =>
          if (4300 <? String.length int_digits)%nat
          then Some (Raise (plain_error "ValueError"
                              "Exceeds the limit (4300 digits) for integer string conversion"),
                     s4)
          else Some (Ok (VInt (sign (digits_value 0 int_digits))), s4)
      | _, _ =>
          let mantissa := digits_value (digits_value 0 int_digits) frac_digits in
          let scale := (match exponent with Some e => e | None => 0 end)
                       - Z.of_nat (String.length frac_digits) in
          Some (Ok (VFloat (inject_Z (sign mantissa) * 10 ^ scale)%Q), s4)
      end
  end.

(** [d[key] = v] on a dictionary kept as a list of members. *)
Fixpoint dict_set (key : string) (v : value) (members : list (string * value))
    : list (string * value) :=
  match members with
  | [] => [(key, v)]
  | (k, x) :: rest =>
      if String.eqb k key then (k, v) :: rest else (k, x) :: dict_set key v rest
  end.

Definition drop (n : nat) (s : string) : string :=
  String.substring n (String.length s - n) s.

(** A value; then the elements of an array after its opening bracket
    and the members of an object after its opening brace. *)
Fixpoint parse_value (fuel : nat) (s : string) : option (outcome value * string) :=
  match fuel with
  | O => None
  | S fuel' =>
      match PyStr.lstrip_by is_json_space s with
      | String "n" _ as s' =>
          if String.prefix "null" s' then Some (Ok VNone, drop 4 s') else None
      | String "t" _ as s' =>
          if String.prefix "true" s' then Some (Ok (VBool true), drop 4 s') else None
      | String "f" _ as s' =>
          if String.prefix "false" s' then Some (Ok (VBool false), drop 5 s') else None
      | String "034" t =>
          match string_body (S (String.length t)) t EmptyString with
          | Some (text, rest) => Some (Ok (VStr text), rest)
          | None => None
          end
      | String "[" t =>
          match PyStr.lstrip_by is_json_space t with
          | String "]" rest => Some (Ok (VList []), rest)
          | t' => parse_elements fuel' t' []
          end
      | String "{" t =>
          match PyStr.lstrip_by is_json_space t with
          | String "}" rest => Some (Ok (VDict []), rest)
          | t' => parse_members fuel' t' []
          end
      | s' => number s'
      end
  end
with parse_elements (fuel : nat) (s : string) (acc : list value)
    : option (outcome value * string) :=
  match fuel with
  | O => None
  | S fuel' =>
      match parse_value fuel' s with
      | Some (Ok v, rest) =>
          match PyStr.lstrip_by is_json_space rest with
          | String "," rest' => parse_elements fuel' rest' (acc ++ [v])%list
          | String "]" rest' => Some (Ok (VList (acc ++ [v])%list), rest')
          | _ => None
          end
      | other => other
      end
  end
with parse_members (fuel : nat) (s : string) (acc : list (string * value))
    : option (outcome value * string) :=
  match fuel with
  | O => None
  | S fuel' =>
      match PyStr.lstrip_by is_json_space s with
      | String "034" t =>
          match string_body (S (String.length t)) t EmptyString with
          | Some (key, rest) =>
              match PyStr.lstrip_by is_json_space rest with
              | String ":" rest' =>
                  match parse_value fuel' rest' with
                  | Some (Ok v, rest'') =>
                      match PyStr.lstrip_by is_json_space rest'' with
                      | String "," r => parse_members fuel' r (dict_set key v acc)
                      | String "}" r => Some (Ok (VDict (dict_set key v acc)), r)
                      | _ => None
                      end
                  | other => other
                  end
              | _ => None
              end
          | None => None
          end
      | _ => None
      end
  end.

(** [json.loads(s)] *)
Definition loads (s : string) : outcome value :=
  match parse_value (S (String.length s)) s with
  | Some (Ok v, rest) =>
      match PyStr.lstrip_by is_json_space rest with
      | EmptyString => Ok v
      | _ => Raise (decode_error "Extra data")
      end
  | Some (Raise e, _) => Raise e
  | None => Raise (decode_error "Expecting value")
  end.

End Json.

(** ** [src/llm_agent.py]: the coercion of the final answer *)

Module Coercion.

(** [-?\d+\.?\d*] *)
Definition number_pattern : Re.regex :=
  Re.seqs [Re.opt (Re.chr "-"); Re.plus PyStr.is_digit; Re.opt (Re.chr ".");
           Re.star PyStr.is_digit].

(** The pattern for a fenced block holding a braced text, with
    [re.DOTALL]: three backquotes, an optional [json], white space, the
    group [\{.*?\}], white space, three backquotes. *)
Definition fenced_pattern : Re.regex :=
  Re.seqs [Re.lit "```"; Re.opt (Re.lit "json"); Re.star PyStr.is_space;
           Re.Group (Re.seqs [Re.chr "{"; Re.Rep false Re.any_char 0 None; Re.chr "}"]);
           Re.star PyStr.is_space; Re.lit "```"].

(** [\{.*\}] with [re.DOTALL] *)
Definition braces_pattern : Re.regex :=
  Re.seqs [Re.chr "{"; Re.star Re.any_char; Re.chr "}"].

(** [int(num_str)] for a text of the shape [-?\d+]; more than 4300
    digits raise a [ValueError]. *)
Definition int_of_str (num_str : string) : outcome value :=
  let (negative, digits) :=
    match num_str with
    | String "-" t => (true, t)
    | _ => (false, num_str)
    end in
  if (4300 <? String.length digits)%nat
  then Raise (plain_error "ValueError"
                "Exceeds the limit (4300 digits) for integer string conversion")
  else
    let n := Json.digits_value 0 digits in
    Ok (VInt (if negative then - n else n)).

(** [float(num_str)] for a text of the shape [-?\d+\.\d*] *)
Definition float_of_str (num_str : string) : value :=
  let (negative, s) :=
    match num_str with
    | String "-" t => (true, t)
    | _ => (false, num_str)
    end in
  let (int_digits, s') := Json.span PyStr.is_digit s in
  let frac_digits :=
    match s' with
    | String "." t => fst (Json.span PyStr.is_digit t)
    | _ => EmptyString
    end in
  let mantissa := Json.digits_value (Json.digits_value 0 int_digits) frac_digits in
  let x := (inject_Z mantissa * 10 ^ (- Z.of_nat (String.length frac_digits)))%Q in
  VFloat (if negative then - x else x)%Q.

(** [bool(v)] *)
Definition truthy (v : value) : bool :=
  match v with
  | VNone => false
  | VBool b => b
  | VInt n => negb (n =? 0)
  | VFloat x => negb (Qeq_bool x 0)
  | VStr s => negb (String.eqb s "")
  | VList items => match items with [] => false | _ => true end
  | VDict items => match items with [] => false | _ => true end
  end.

Section parse_answer.
(** [json.loads] *)
Variable json_loads : string -> outcome value.
(** [self.context['results']] *)
Variable results : gmap string value.

(** The [try] block of [_parse_answer], for the stripped content. *)
Definition coerce (content : string) (answer_format : AnswerFormat) : outcome value :=
  match answer_format with
  | BOOLEAN =>
      let lower := PyStr.lower content in
      if PyStr.contains "true" lower || PyStr.contains "yes" lower then Ok (VBool true)
      else if PyStr.contains "false" lower || PyStr.contains "no" lower
      then Ok (VBool false)
      else
        match json_loads content with
        | Ok v => Ok (VBool (truthy v))
        | Raise e => Raise e
        end
  | NUMBER =>
      match Re.re_findall number_pattern content with
      | num_str :: _ =>
          if PyStr.contains "." num_str then Ok (float_of_str num_str)
          else int_of_str num_str
      | [] => json_loads content
      end
  | STRING =>
      match json_loads content with
      | Ok (VStr parsed) => Ok (VStr parsed)
      | _ => Ok (VStr content)
      end
  | BASE64 =>
      match results !! content with
      | Some stored => Ok stored
      | None => Ok (VStr content)
      end
  | JSON =>
      match json_loads content with
      | Ok v => Ok v
      | Raise e =>
          if isinstance e "json.JSONDecodeError" then
            match Re.re_search fenced_pattern content with
            | Some found =>
                json_loads (match Re.group1 found with Some g => g | None => "" end)
            | None =>
                match Re.re_search braces_pattern content with
                | Some found => json_loads (Re.matched found)
                | None => Raise e
                end
            end
          else Raise e
      end
  end.

(** [_parse_answer(content, answer_format)]: the [try] block, and the
    [except Exception] clause that answers with the content. *)
Definition _parse_answer (content : string) (answer_format : AnswerFormat)
    : outcome value :=
  let content := PyStr.strip content in
  match coerce content answer_format with
  | Ok v => Ok v
  | Raise _ => Ok (VStr content)
  end.

End parse_answer.

End Coercion.

(** ** Base64 and UTF-8

    [base64.b64encode] and [base64.b64decode] belong to Python's standard
    library; the decoder follows [binascii.a2b_base64] of CPython 3.11,
    which [b64decode] calls with [strict_mode=validate].  A byte is an
    [ascii], its number an [N]. *)

Module Base64.

Definition alphabet : string :=
  "ABCDEFGHIJKLMNOPQRSTUVWXYZabcdefghijklmnopqrstuvwxyz0123456789+/".

(** [table_b2a_base64] *)
Definition b2a (sextet : N) : ascii :=
  match String.get (N.to_nat sextet) alphabet with
  | Some c => c
  | None => "="%char
  end.

(** [table_a2b_base64]: the number of a character of the alphabet *)
Definition a2b (c : ascii) : option N :=
  let n := N_of_ascii c in
  (if (65 <=? n) && (n <=? 90) then Some (n - 65)
   else if (97 <=? n) && (n <=? 122) then Some (n - 71)
   else if (48 <=? n) && (n <=? 57) then Some (n + 4)
   else if n =? 43 then Some 62
   else if n =? 47 then Some 63
   else None)%N.

(** [[A-Za-z0-9+/]] *)
Definition is_b64 (c : ascii) : bool :=
  match a2b c with Some _ => true | None => false end.

Definition is_pad (c : ascii) : bool := Ascii.eqb c "=".

(** The four sextets of three bytes. *)
Definition sextet0 (x : ascii) : N := N.shiftr (N_of_ascii x) 2.
Definition sextet1 (x y : ascii) : N :=
  N.lor (N.shiftl (N.land (N_of_ascii x) 3) 4) (N.shiftr (N_of_ascii y) 4).
Definition sextet2 (y z : ascii) : N :=
  N.lor (N.shiftl (N.land (N_of_ascii y) 15) 2) (N.shiftr (N_of_ascii z) 6).
Definition sextet3 (z : ascii) : N := N.land (N_of_ascii z) 63.

(** The padding of the encoding of [n] bytes. *)
Definition padding (n : nat) : string :=
  match (n mod 3)%nat with
  | O => ""
  | 1%nat => "=="
  | _ => "="
  end.

(** The four characters of three bytes, the padded ones of two and of
    one byte: what [binascii.b2a_base64] writes without the newline. *)
Fixpoint b64encode (data : string) : string :=
  match data with
  | EmptyString => EmptyString
  | String x EmptyString =>
      String (b2a (sextet0 x))
        (String (b2a (N.shiftl (N.land (N_of_ascii x) 3) 4)) "==")
  | String x (String y EmptyString) =>
      String (b2a (sextet0 x))
        (String (b2a (sextet1 x y))
           (String (b2a (N.shiftl (N.land (N_of_ascii y) 15) 2)) "="))
  | String x (String y (String z rest)) =>
      String (b2a (sextet0 x))
        (String (b2a (sextet1 x y))
           (String (b2a (sextet2 y z))
              (String (b2a (sextet3 z)) (b64encode rest))))
  end.

Definition binascii_error (msg : string) : exn :=
  Exn "Error" ["binascii.Error"; "ValueError"; "Exception"] msg None.

(** A decoded byte put in front of what the rest of the input decodes to. *)
Definition emit (byte : N) (r : outcome string) : outcome string :=
  match r with
  | Ok s => Ok (String (ascii_of_N byte) s)
  | Raise e => Raise e
  end.

(** The loop of [binascii.a2b_base64] over the characters. *)
Fixpoint a2b_loop (strict_mode : bool) (s : string) (quad_pos : nat) (leftchar : N)
    (pads : nat) (padding_started : bool) : outcome string :=
  match s with
  | EmptyString =>
      match quad_pos with
      | O => Ok EmptyString
      | 1%nat =>
          Raise (binascii_error
                   "Invalid base64-encoded string: number of data characters cannot be 1 more than a multiple of 4")
      | _ => Raise (binascii_error "Incorrect padding")
      end
  | String ch rest =>
      if is_pad ch then
        if (2 <=? quad_pos)%nat && (4 <=? quad_pos + S pads)%nat then
          match strict_mode, rest with
          | true, String _ _ => Raise (binascii_error "Excess data after padding")
          | _, _ => Ok EmptyString
          end
        else
          a2b_loop strict_mode rest quad_pos leftchar
                   (if (2 <=? quad_pos)%nat then S pads else pads) true
      else
        match a2b ch with
        | None =>
            if strict_mode then Raise (binascii_error "Only base64 data is allowed")
            else a2b_loop strict_mode rest quad_pos leftchar pads padding_started
        | Some this_ch =>
            if strict_mode && padding_started
            then Raise (binascii_error "Discontinuous padding not allowed")
            else
              match quad_pos with
              | O => a2b_loop strict_mode rest 1 this_ch 0 padding_started
              | 1%nat =>
                  emit (N.lor (N.shiftl leftchar 2) (N.shiftr this_ch 4))
                       (a2b_loop strict_mode rest 2 (N.land this_ch 15) 0 padding_started)
              | 2%nat =>
                  emit (N.lor (N.shiftl leftchar 4) (N.shiftr this_ch 2))
                       (a2b_loop strict_mode rest 3 (N.land this_ch 3) 0 padding_started)
              | _ =>
                  emit (N.lor (N.shiftl leftchar 6) this_ch)
                       (a2b_loop strict_mode rest 0 0 0 padding_started)
              end
        end
  end.

Definition is_ascii (c : ascii) : bool := (N_of_ascii c <? 128)%N.

Fixpoint all_chars (p : ascii -> bool) (s : string) : bool :=
  match s with
  | EmptyString => true
  | String c t => p c && all_chars p t
  end.

(** The character [c] stands for the sextet [v]. *)
Definition decodes_to (c : ascii) (v : N) : bool :=
  match a2b c with Some w => N.eqb w v | None => false end.

(** What decoding relies on, as a test on a pair of bytes: the
    characters of their sextets stand for these sextets, and the shifts of
    the decoder put the bytes together again. *)
Definition pair_check (x y : ascii) : bool :=
  decodes_to (b2a (sextet0 x)) (sextet0 x)
  && decodes_to (b2a (sextet1 x y)) (sextet1 x y)
  && decodes_to (b2a (sextet2 x y)) (sextet2 x y)
  && decodes_to (b2a (sextet3 x)) (sextet3 x)
  && Ascii.eqb (ascii_of_N (N.lor (N.shiftl (sextet0 x) 2) (N.shiftr (sextet1 x y) 4))) x
  && N.eqb (N.land (sextet1 x y) 15) (N.shiftr (N_of_ascii y) 4)
  && Ascii.eqb (ascii_of_N (N.lor (N.shiftl (N.shiftr (N_of_ascii x) 4) 4)
                                  (N.shiftr (sextet2 x y) 2))) x
  && N.eqb (N.land (sextet2 x y) 3) (N.shiftr (N_of_ascii y) 6)
  && Ascii.eqb (ascii_of_N (N.lor (N.shiftl (N.shiftr (N_of_ascii x) 6) 6) (sextet3 x))) x.

(** [binascii.a2b_base64(s, strict_mode=...)] *)
Definition a2b_base64 (strict_mode : bool) (s : string) : outcome string :=
  match s with
  | String c _ =>
      if strict_mode && is_pad c
      then Raise (binascii_error "Leading padding not allowed")
      else a2b_loop strict_mode s 0 0 0 false
  | EmptyString => a2b_loop strict_mode s 0 0 0 false
  end.

(** [base64.b64decode(s, validate=...)] for a text [s] *)
Definition b64decode (s : string) (validate : bool) : outcome string :=
  if all_chars is_ascii s then a2b_base64 validate s
  else Raise (plain_error "ValueError"
                "string argument should contain only ASCII characters").

End Base64.

Module Utf8.

Definition in_range (lo hi : N) (c : ascii) : bool :=
  let n := N_of_ascii c in ((lo <=? n) && (n <=? hi))%N.

(** The byte sequences that are UTF-8: what [bytes.decode('utf-8')]
    accepts. *)
Fixpoint valid (s : string) : bool :=
  match s with
  | EmptyString => true
  | String a t =>
      if in_range 0 127 a then valid t
      else
        match t with
        | String b t1 =>
            if in_range 194 223 a then in_range 128 191 b && valid t1
            else
              match t1 with
              | String c t2 =>
                  if in_range 224 239 a then
                    (if in_range 224 224 a then in_range 160 191 b
                     else if in_range 237 237 a then in_range 128 159 b
                     else in_range 128 191 b)
                    && in_range 128 191 c && valid t2
                  else
                    match t2 with
                    | String d t3 =>
                        in_range 240 244 a
                        && (if in_range 240 240 a then in_range 144 191 b
                            else if in_range 244 244 a then in_range 128 143 b
                            else in_range 128 191 b)
                        && in_range 128 191 c && in_range 128 191 d
                        && valid t3
                    | EmptyString => false
                    end
              | EmptyString => false
              end
        | EmptyString => false
        end
  end.

(** [data.decode('utf-8')]: a text is kept as its UTF-8 bytes, so
    decoding checks and returns them. *)
Definition decode (data : string) : outcome string :=
  if valid data then Ok data
  else Raise (Exn "UnicodeDecodeError" ["UnicodeDecodeError"; "ValueError"; "Exception"]
                  "'utf-8' codec can't decode bytes" None).

End Utf8.

(** ** The parsed page

    [BeautifulSoup(html, 'html.parser')] belongs to a third-party
    package.  A page is given as its markup together with the tree the
    package builds from it; [render] writes the markup of a tree whose
    texts and attribute values need no escaping. *)

Module Html.

#[warnings="-register-all"]
Inductive node :=
| Text (s : string)
| Comment (s : string)
| Element (name : string) (attrs : list (string * string)) (children : list node).

Record page := {
  html : string;
  soup : list node
}.

(** The elements whose texts get a class of their own
    ([string_containers]): the texts in a [script] are no plain text. *)
Definition is_container (name : string) : bool :=
  existsb (String.eqb name) ["rt"; "rp"; "style"; "script"; "template"].

(** The texts below a node, each with the container it lies in. *)
Fixpoint strings_in (container : option string) (n : node)
    : list (option string * string) :=
  match n with
  | Text s => [(container, s)]
  | Comment _ => []
  | Element name _ children =>
      let inner := if is_container name then Some name else container in
      flat_map (strings_in inner) children
  end.

(** The elements at and below a node in document order, each with the
    container around it. *)
Fixpoint elements_in (container : option string) (n : node)
    : list (option string * node) :=
  match n with
  | Text _ | Comment _ => []
  | Element name _ children =>
      let inner := if is_container name then Some name else container in
      (container, n) :: flat_map (elements_in inner) children
  end.

Definition option_string_eqb (a b : option string) : bool :=
  match a, b with
  | Some x, Some y => String.eqb x y
  | None, None => true
  | _, _ => false
  end.

(** [tag.get_text()]: the texts below the tag that are of the class the
    tag is interested in: its own for a container, plain text otherwise. *)
Definition get_text (around : option string) (tag : node) : string :=
  match tag with
  | Element name _ children =>
      let own := if is_container name then Some name else None in
      let inner := if is_container name then Some name else around in
      String.concat ""
        (map snd
           (filter (fun cs => option_string_eqb (fst cs) own)
                   (flat_map (strings_in inner) children)))
  | Text s => s
  | Comment _ => ""
  end.

Definition tag_name (tag : node) : string :=
  match tag with Element name _ _ => name | _ => "" end.

(** [tag.get(key)] *)
Fixpoint lookup_attr (key : string) (attrs : list (string * string)) : option string :=
  match attrs with
  | [] => None
  | (k, v) :: rest => if String.eqb k key then Some v else lookup_attr key rest
  end.

Definition get_attr (key : string) (tag : node) : option string :=
  match tag with Element _ attrs _ => lookup_attr key attrs | _ => None end.

(** [soup.find_all(...)] for a test on the tag *)
Definition find_all (keep : node -> bool) (doc : list node) : list (option string * node) :=
  filter (fun ct => keep (snd ct)) (flat_map (elements_in None) doc).

Definition dquote : string := String "034" EmptyString.

Definition render_attr (kv : string * string) : string :=
  " " ++ fst kv ++ "=" ++ dquote ++ snd kv ++ dquote.

Fixpoint render (n : node) : string :=
  match n with
  | Text s => s
  | Comment s => "<!--" ++ s ++ "-->"
  | Element name attrs children =>
      "<" ++ name ++ String.concat "" (map render_attr attrs) ++ ">"
      ++ String.concat "" (map render children)
      ++ "</" ++ name ++ ">"
  end.

(** The page of a tree. *)
Definition page_of (doc : list node) : page :=
  {| html := String.concat "" (map render doc); soup := doc |}.

End Html.

(** ** [src/task_parser.py] *)

Module Parser.

Definition is_quote (c : ascii) : bool := Ascii.eqb c "034" || Ascii.eqb c "'".

(** [^[A-Za-z0-9+/]*={0,2}$] *)
Definition base64_shape : Re.regex :=
  Re.seqs [Re.Bol; Re.star Base64.is_b64; Re.Rep true Base64.is_pad 0 (Some 2%nat); Re.Eol].

(** A quote, the group [[A-Za-z0-9+/]{20,}={0,2}], a quote. *)
Definition script_pattern : Re.regex :=
  Re.seqs [Re.Cls is_quote;
           Re.Group (Re.Seq (Re.Rep true Base64.is_b64 20 None)
                            (Re.Rep true Base64.is_pad 0 (Some 2%nat)));
           Re.Cls is_quote].

(** [\b([A-Za-z0-9+/]{40,}={0,2})\b] *)
Definition base64_pattern : Re.regex :=
  Re.seqs [Re.WordB;
           Re.Group (Re.Seq (Re.Rep true Base64.is_b64 40 None)
                            (Re.Rep true Base64.is_pad 0 (Some 2%nat)));
           Re.WordB].

(** The class of the characters of a URL: whatever is no white space
    and none of the characters that end a URL in running text: angle
    brackets, double quote, braces, bar, backslash, caret, backquote,
    square brackets. *)
Definition is_url_char (c : ascii) : bool :=
  negb (PyStr.is_space c || Ascii.eqb c "034" || PyStr.char_in c "<>{}|\^`[]").

(** [https?://] followed by one or more characters of a URL *)
Definition url_pattern : Re.regex :=
  Re.seqs [Re.lit "http"; Re.opt (Re.chr "s"); Re.lit "://"; Re.plus is_url_char].

Definition not_space (c : ascii) : bool := negb (PyStr.is_space c).
Definition colon_or_space (c : ascii) : bool := Ascii.eqb c ":" || PyStr.is_space c.

(** The group [(https?://[^\s\n]+)] under [re.IGNORECASE] *)
Definition loose_url_group : Re.regex :=
  Re.Group (Re.seqs [Re.ilit "http"; Re.opt (Re.ichr "s"); Re.lit "://"; Re.plus not_space]).

(** The three phrase patterns of [_parse_submit_url], under
    [re.IGNORECASE]: [submit\s+(?:to|at|endpoint)[:\s]+(...)],
    [endpoint[:\s]+(...)] and [POST\s+(?:to|at)[:\s]+(...)]. *)
Definition url_patterns : list Re.regex :=
  [ Re.seqs [Re.ilit "submit"; Re.plus PyStr.is_space;
             Re.alts [Re.ilit "to"; Re.ilit "at"; Re.ilit "endpoint"];
             Re.plus colon_or_space; loose_url_group];
    Re.seqs [Re.ilit "endpoint"; Re.plus colon_or_space; loose_url_group];
    Re.seqs [Re.ilit "post"; Re.plus PyStr.is_space;
             Re.alts [Re.ilit "to"; Re.ilit "at"];
             Re.plus colon_or_space; loose_url_group] ].

(** [\.(pdf|csv|json|xlsx|xls|txt|png|jpg|jpeg|gif|mp3|wav|mp4)] under
    [re.IGNORECASE] *)
Definition file_extensions : Re.regex :=
  Re.Seq (Re.chr ".")
    (Re.Group (Re.alts (map Re.ilit
       ["pdf"; "csv"; "json"; "xlsx"; "xls"; "txt"; "png"; "jpg"; "jpeg"; "gif";
        "mp3"; "wav"; "mp4"]))).

(** [download[:\s]+([^\s\n]+)] under [re.IGNORECASE] *)
Definition download_pattern : Re.regex :=
  Re.seqs [Re.ilit "download"; Re.plus colon_or_space; Re.Group (Re.plus not_space)].

Definition value_error (msg : string) : exn :=
  Exn "ValueError" ["ValueError"; "Exception"] msg None.

(** [_is_base64] *)
Definition _is_base64 (s : string) : bool :=
  if String.eqb s "" || (String.length s <? 20)%nat then false
  else
    match Re.re_match base64_shape s with
    | None => false
    | Some _ =>
        match Base64.b64decode s true with
        | Ok decoded => (0 <? String.length decoded)%nat
        | Raise _ => false
        end
    end.

(** The first element of a list that passes a test after a change. *)
Fixpoint first_base64 {A} (candidate : A -> option string) (l : list A) : option string :=
  match l with
  | [] => None
  | x :: rest =>
      match candidate x with
      | Some s => if _is_base64 s then Some s else first_base64 candidate rest
      | None => first_base64 candidate rest
      end
  end.

Definition in_names (names : list string) (tag : Html.node) : bool :=
  existsb (String.eqb (Html.tag_name tag)) names.

Definition has_attr (key : string) (tag : Html.node) : bool :=
  match Html.get_attr key tag with Some _ => true | None => false end.

(** [_extract_base64_content] *)
Definition _extract_base64_content (page : Html.page) : outcome string :=
  let soup := Html.soup page in
  (* Pattern 1 *)
  match first_base64
          (fun ct => Some (PyStr.strip (Html.get_text (fst ct) (snd ct))))
          (Html.find_all (in_names ["pre"; "code"; "div"; "span"]) soup) with
  | Some text => Ok text
  | None =>
  (* Pattern 2 *)
  match first_base64
          (fun ct => Html.get_attr "data-task" (snd ct))
          (Html.find_all (has_attr "data-task") soup) with
  | Some content => Ok content
  | None =>
  (* Pattern 3 *)
  match first_base64
          (fun ct =>
             match Re.re_search script_pattern (Html.get_text (fst ct) (snd ct)) with
             | Some found => Re.group1 found
             | None => None
             end)
          (Html.find_all (in_names ["script"]) soup) with
  | Some potential_base64 => Ok potential_base64
  | None =>
  (* Pattern 4 *)
  match first_base64 Some (Re.re_findall base64_pattern (Html.html page)) with
  | Some found => Ok found
  | None => Raise (value_error "Could not find base64-encoded content in HTML")
  end end end end.

(** [_decode_base64] *)
Definition _decode_base64 (base64_content : string) : outcome string :=
  let decoded :=
    match Base64.b64decode base64_content false with
    | Ok decoded_bytes => Utf8.decode decoded_bytes
    | Raise e => Raise e
    end in
  match decoded with
  | Ok decoded_text => Ok decoded_text
  | Raise e => Raise (value_error ("Failed to decode base64 content: " ++ message e))
  end.

(** [_clean_url] *)
Definition _clean_url (url : string) : string :=
  let url := PyStr.rstrip_by (fun c => PyStr.char_in c ".,;:!?)") url in
  PyStr.strip_by is_quote url.

(** [_detect_answer_format] *)
Definition _detect_answer_format (instructions : string) : AnswerFormat :=
  let instructions_lower := PyStr.lower instructions in
  let mentions (w : string) := PyStr.contains w instructions_lower in
  if mentions "base64" || mentions "data:image" || mentions "chart"
     || mentions "visualization" || mentions "image" then BASE64
  else if mentions "json" || mentions "object" || PyStr.contains "{" instructions then JSON
  else if mentions "true" || mentions "false" || mentions "boolean" || mentions "yes/no"
  then BOOLEAN
  else if mentions "number" || mentions "count" || mentions "sum" || mentions "average"
          || mentions "total" then NUMBER
  else STRING.

(** Remove duplicates while preserving order. *)
Fixpoint unique (seen : list string) (urls : list string) : list string :=
  match urls with
  | [] => []
  | url :: rest =>
      if existsb (String.eqb url) seen then unique seen rest
      else url :: unique (url :: seen) rest
  end.

Section with_urllib.
(** [urlparse(url).scheme], which raises for a malformed address, and
    [urljoin], of Python's standard library. *)
Variable url_scheme : string -> outcome string.
Variable urljoin : string -> string -> string.
(** The validation of pydantic's [HttpUrl], with the text of the URL it
    keeps. *)
Variable HttpUrl : string -> outcome string.

(** [if base_url and not urlparse(url).scheme: url = urljoin(base_url, url)] *)
Definition resolve (base_url url : string) : outcome string :=
  if String.eqb base_url "" then Ok url
  else
    match url_scheme url with
    | Ok "" => Ok (urljoin base_url url)
    | Ok _ => Ok url
    | Raise e => Raise e
    end.

(** [_parse_submit_url] *)
Definition _parse_submit_url (instructions base_url : string) : outcome string :=
  let urls := Re.re_findall url_pattern instructions in
  match urls with
  | first :: _ =>
      match find (fun url => PyStr.contains "submit" (PyStr.lower url)) urls with
      | Some url => Ok (_clean_url url)
      | None => Ok (_clean_url first)
      end
  | [] =>
      let fix try_patterns (patterns : list Re.regex) : outcome string :=
        match patterns with
        | [] => Raise (value_error "Could not find submit URL in instructions")
        | pattern :: rest =>
            match Re.re_search pattern instructions with
            | Some found =>
                let url := match Re.group1 found with Some g => g | None => "" end in
                resolve base_url (_clean_url (PyStr.strip url))
            | None => try_patterns rest
            end
        end in
      try_patterns url_patterns
  end.

(** The loop over [all_urls] of [_extract_file_urls]. *)
Fixpoint urls_with_extension (base_url : string) (all_urls : list string)
    : outcome (list string) :=
  match all_urls with
  | [] => Ok []
  | url :: rest =>
      let url := _clean_url url in
      match Re.re_search file_extensions url with
      | Some _ =>
          match resolve base_url url with
          | Ok url' =>
              match urls_with_extension base_url rest with
              | Ok urls => Ok (url' :: urls)
              | Raise e => Raise e
              end
          | Raise e => Raise e
          end
      | None => urls_with_extension base_url rest
      end
  end.

(** [_extract_file_urls] *)
Definition _extract_file_urls (instructions base_url : string) : outcome (list string) :=
  match urls_with_extension base_url (Re.re_findall url_pattern instructions) with
  | Raise e => Raise e
  | Ok file_urls =>
      let downloads :=
        filter (PyStr.startswith "http")
               (map _clean_url (Re.re_findall download_pattern instructions)) in
      Ok (unique [] (file_urls ++ downloads)%list)
  end.

(** [TaskDefinition(...)]: the URLs are validated. *)
Fixpoint validate_urls (urls : list string) : outcome (list string) :=
  match urls with
  | [] => Ok []
  | url :: rest =>
      match HttpUrl url with
      | Raise e => Raise e
      | Ok u =>
          match validate_urls rest with
          | Ok us => Ok (u :: us)
          | Raise e => Raise e
          end
      end
  end.

Definition TaskDefinition_new (instructions submit_url : string)
    (answer_format : AnswerFormat) (file_urls : list string)
    (additional_context : gmap string bool) : outcome TaskDefinition :=
  match HttpUrl submit_url with
  | Raise e => Raise e
  | Ok submit_url =>
      match validate_urls file_urls with
      | Raise e => Raise e
      | Ok file_urls =>
          Ok {| instructions := instructions; submit_url := submit_url;
                answer_format := answer_format; file_urls := file_urls;
                additional_context := additional_context |}
      end
  end.

(** [parse_quiz_page(html, base_url)] *)
Definition parse_quiz_page (page : Html.page) (base_url : string)
    : outcome TaskDefinition :=
  if PyStr.contains "/demo" base_url && PyStr.contains "POST this JSON" (Html.html page)
  then
    TaskDefinition_new
      "Demo page: Submit any answer to proceed to the actual quiz."
      "https://tds-llm-analysis.s-anand.net/submit" STRING []
      {[ "is_demo" := true ]}
  else
    match _extract_base64_content page with
    | Raise e => Raise e
    | Ok base64_content =>
        match _decode_base64 base64_content with
        | Raise e => Raise e
        | Ok instructions =>
            match _parse_submit_url instructions base_url with
            | Raise e => Raise e
            | Ok submit_url =>
                let answer_format := _detect_answer_format instructions in
                match _extract_file_urls instructions base_url with
                | Raise e => Raise e
                | Ok file_urls =>
                    TaskDefinition_new instructions submit_url answer_format file_urls ∅
                end
            end
        end
    end.

End with_urllib.

(** The instructions a page decodes to: the first two steps of
    [parse_quiz_page]. *)
Definition decoded_instructions (page : Html.page) : outcome string :=
  match _extract_base64_content page with
  | Raise e => Raise e
  | Ok base64_content => _decode_base64 base64_content
  end.

(** The four places for the encoded instructions, in a page of their own:
    the text of a [pre], [code], [div] or [span]; the attribute
    [data-task]; a string literal of a script; the running text. *)
Definition in_tag_text (tag encoded : string) : Html.page :=
  Html.page_of [Html.Element tag [] [Html.Text encoded]].

Definition in_data_attribute (encoded : string) : Html.page :=
  Html.page_of [Html.Element "p" [("data-task", encoded)] []].

Definition in_script_literal (encoded : string) : Html.page :=
  Html.page_of
    [Html.Element "script" []
       [Html.Text ("var task = " ++ Html.dquote ++ encoded ++ Html.dquote ++ ";")]].

Definition in_running_text (encoded : string) : Html.page :=
  Html.page_of [Html.Element "p" [] [Html.Text encoded]].

(** The text ends in a letter, a digit or an underscore. *)
Definition ends_in_word (s : string) : bool :=
  match Re.last_char None s with Some c => PyStr.is_word c | None => false end.

(** Stand-ins for examples, where every address is an absolute http or
    https URL with a path: the scheme is the text before the first colon
    when that text is made of letters, [urljoin] is never reached, and the
    validation keeps such a URL as it is written. *)
Definition example_url_scheme (url : string) : outcome string :=
  let (head, tail) := Json.span PyStr.is_alpha url in
  match tail with
  | String ":" _ => Ok (PyStr.lower head)
  | _ => Ok ""
  end.

Definition example_urljoin (base_url url : string) : string := url.

Definition example_HttpUrl (url : string) : outcome string :=
  if PyStr.startswith "http://" url || PyStr.startswith "https://" url
  then Ok url
  else Raise (Exn "ValidationError" ["pydantic.ValidationError"; "ValueError"; "Exception"]
                  "URL scheme should be 'http' or 'https'" None).

(** The text of the end-to-end scenario. *)
Definition scenario_text : string :=
  "Submit to: https://x/submit. Return a number. Download https://x/data.csv".

End Parser.

(** ** Traces of retried operations *)

(** [sum(delays)]: the time a call spent asleep. *)
Definition total_sleep (l : list Q) : Q := fold_right Qplus 0%Q l.

Module Recovery.
Import ErrorHandling.

(** The operation raises an error that [with_retry] retries [n] times in
    a row, starting in state [s], and then returns [v], leaving the state
    [s_end]. *)
Fixpoint recovers_after {T W} (func : W -> outcome T * W)
    (retry_on : option (list string)) (n : nat) (s : W) (v : T) (s_end : W) : Prop :=
  match n with
  | O => func s = (Ok v, s_end)
  | S n' =>
      exists e s',
        func s = (Raise e, s')
        /\ In (classify_error e) retryable
        /\ retry_on_excludes retry_on e = false
        /\ recovers_after func retry_on n' s' v s_end
  end.

(** An operation on a counter that raises a network error until the
    counter reaches [n], and then returns it. *)
Definition flaky (n : nat) (s : nat) : outcome nat * nat :=
  if (s <? n)%nat then (Raise (NetworkError "Network operation failed"), S s)
  else (Ok s, S s).

End Recovery.

Module Resubmission.
Import Submitter.

(** The exchange fails [n] times in a row in a way that is retried, with
    a 5xx response or an error of the transport, and then brings a 2xx
    response whose body reads as [r]. *)
Fixpoint succeeds_after {W} (post : W -> post_result * W) (n : nat) (w : W)
    (r : SubmitResponse) (w_end : W) : Prop :=
  match n with
  | O => exists status, post w = (Response status (Ok r), w_end) /\ is_success status = true
  | S n' =>
      exists w',
        ((exists status body, post w = (Response status body, w') /\ 500 <= status)
         \/ (exists e, post w = (Raised e, w') /\ isinstance e "httpx.RequestError" = true))
        /\ succeeds_after post n' w' r w_end
  end.

(** A server that counts the requests: it answers 503 to the first [n]
    and then accepts the answer. *)
Definition warming_up (n : nat) (w : nat) : post_result * nat :=
  if (w <? n)%nat then (Response 503 (Raise json_decode_error), S w)
  else (Response 200 (Ok {| correct := true; reason := None; url := None |}), S w).

(** What pydantic raises for a payload with a malformed e-mail address. *)
Definition invalid_email : exn :=
  Exn "ValidationError" ["pydantic.ValidationError"; "ValueError"; "Exception"]
      "1 validation error for SubmitPayload" None.

End Resubmission.

Module Outages.

(** What the client raises for a 429 response. *)
Definition rate_limit_error : exn :=
  Exn "RateLimitError"
      ["openai.RateLimitError"; "openai.APIStatusError"; "openai.APIError";
       "openai.OpenAIError"; "Exception"]
      "Rate limit reached" None.

(** A completion service that counts the calls, answers the first [n]
    with a rate-limit error and the next with the text ["42"]. *)
Definition throttled (n : nat) (w : nat) : outcome string * nat :=
  if (w <? n)%nat then (Raise rate_limit_error, S w) else (Ok "42", S w).

(** What Playwright raises when the navigation takes too long. *)
Definition navigation_timeout : exn :=
  Exn "TimeoutError"
      ["playwright.async_api.TimeoutError"; "playwright.async_api.Error"; "Exception"]
      "Timeout 30000ms exceeded." None.

(** A renderer that counts the attempts and times out on each. *)
Definition never_loads (url : string) (w : nat) : outcome string * nat :=
  (Raise navigation_timeout, S w).

End Outages.

Module Sequences.
Import Orchestrator.

(** The count of quizzes solved that the loop of [solve_quiz_sequence]
    ended with. *)
Definition solved_count (ended : sequence_end) : Z :=
  match ended with
  | Finished n | TimedOut n | Errored n _ => n
  end.

(** A verdict that is always wrong and names no next quiz. *)
Definition hopeless_verdict (quiz_url : string) : SubmitResponse :=
  {| correct := false; reason := Some "Wrong answer"; url := None |}.

End Sequences.

Module Trimming.

(** The characters that [_clean_url] removes from the end of a URL:
    the punctuation [.,;:!?)] and the two quotes. *)
Definition is_trailing (c : ascii) : bool :=
  PyStr.char_in c ".,;:!?)" || Parser.is_quote c.

(** The first character of a text. *)
Definition first_char (s : string) : option ascii := String.get 0 s.

End Trimming.

(** ** [src/llm_agent.py]: the loop of the conversation with the tools *)

Module Conversation.

(** A tool call of the assistant: [tc.id], [tc.type],
    [tc.function.name], [tc.function.arguments]. *)
Record tool_call := {
  call_id : string;
  call_type : string;
  function_name : string;
  arguments : string
}.

(** [response.choices[0].message]: its content and its tool calls, the
    empty list standing for [None] as well. *)
Record reply_message := {
  content : option string;
  tool_calls : list tool_call
}.

(** The entries of [messages]. *)
Inductive chat_message :=
| System (text : string)
| User (text : string)
| Assistant (text : option string) (calls : list tool_call)
| Tool (tool_call_id : string) (text : string).

(** The attempts of [_call_llm_with_retry], by default. *)
Definition llm_max_retries : Z := 3.

(** [max_iterations], by default. *)
Definition max_iterations : nat := 10.

Definition attribute_error (msg : string) : exn :=
  Exn "AttributeError" ["AttributeError"; "Exception"] msg None.

(** One run followed by another: the delays and the calls add up. *)
Definition following {T U X Y : Type} (first : run T X) (second : run U Y) : run U Y :=
  Run (result second) (final second) (sleeps first ++ sleeps second)%list
      (calls first + calls second).

Section execute_llm_loop.
Context {W : Type}.
(** [self.client.chat.completions.create], for the model and the tools
    of the call, as a function of the messages sent. *)
Variable create : list chat_message -> W -> outcome reply_message * W.
(** [json.loads] and [json.dumps(..., default=str)] *)
Variable json_loads : string -> outcome value.
Variable json_dumps : value -> outcome string.
(** [_execute_tool(function_name, function_args)], which catches every
    exception and returns a dictionary. *)
Variable execute_tool : string -> value -> W -> value * W.
(** [self.context['results']] *)
Variable results : W -> gmap string value.

(** The body of [for tool_call in message.tool_calls]; the messages are
    returned in every case, since the list is changed in place. *)
Fixpoint run_tool_calls (calls : list tool_call) (messages : list chat_message) (w : W)
    : outcome unit * (list chat_message * W) :=
  match calls with
  | [] => (Ok tt, (messages, w))
  | tool_call :: rest =>
      match json_loads (arguments tool_call) with
      | Raise e => (Raise e, (messages, w))
      | Ok function_args =>
          let (result, w') := execute_tool (function_name tool_call) function_args w in
          let result_str :=
            match json_dumps result with
            | Ok s => Ok s
            | Raise e => json_dumps (VDict [("error", VStr (message e))])
            end in
          match result_str with
          | Raise e => (Raise e, (messages, w'))
          | Ok s =>
              run_tool_calls rest (messages ++ [Tool (call_id tool_call) s])%list w'
          end
      end
  end.

(** [self._parse_answer(final_content, answer_format)], where the content
    of the message may be [None]. *)
Definition parse_final (final_content : option string) (answer_format : AnswerFormat)
    (w : W) : outcome value :=
  match final_content with
  | None => Raise (attribute_error "'NoneType' object has no attribute 'strip'")
  | Some text => Coercion._parse_answer json_loads (results w) text answer_format
  end.

(** The body of [for iteration in range(max_iterations)]. *)
Fixpoint llm_loop (iterations : nat) (answer_format : AnswerFormat)
    (messages : list chat_message) (w : W) : run value (list chat_message * W) :=
  match iterations with
  | O =>
      Run (Raise (plain_error "RuntimeError"
                    "LLM did not provide final answer within iteration limit"))
          (messages, w) [] O
  | S iterations' =>
      let response := LLMRetry._call_llm_with_retry (create messages) llm_max_retries w in
      let w1 := final response in
      following response
        match result response with
        | Raise e => Run (Raise e) (messages, w1) [] O
        | Ok None =>
            Run (Raise (attribute_error "'NoneType' object has no attribute 'choices'"))
                (messages, w1) [] O
        | Ok (Some message) =>
            match tool_calls message with
            | [] => Run (parse_final (content message) answer_format w1) (messages, w1) [] O
            | calls =>
                match run_tool_calls calls
                        (messages ++ [Assistant (content message) calls])%list w1 with
                | (Raise e, state) => Run (Raise e) state [] O
                | (Ok _, (messages', w2)) => llm_loop iterations' answer_format messages' w2
                end
            end
        end
  end.

(** Every reply asks for tools, every request can be read and every
    result can be written. *)
Definition keeps_calling_tools : Prop :=
  (forall messages w, exists message w',
      create messages w = (Ok message, w') /\ tool_calls message <> [])
  /\ (forall arguments, exists args, json_loads arguments = Ok args)
  /\ (forall result, exists text, json_dumps result = Ok text).

(** [_execute_llm_loop(messages, answer_format)] *)
Definition _execute_llm_loop (messages : list chat_message) (answer_format : AnswerFormat)
    (w : W) : run value (list chat_message * W) :=
  llm_loop max_iterations answer_format messages w.

End execute_llm_loop.

(** The messages one round of tool calls adds: the assistant's message,
    then one tool message per call, in the order of the calls and with
    their ids. *)
Definition round_messages (text : option string) (calls : list tool_call)
    (outputs : list string) : list chat_message :=
  Assistant text calls :: map (fun io => Tool (call_id (fst io)) (snd io))
                             (combine calls outputs).

Definition round := (option string * list tool_call * list string)%type.

Definition rounds_messages (rounds : list round) : list chat_message :=
  flat_map (fun r => round_messages (fst (fst r)) (snd (fst r)) (snd r)) rounds.

(** A round answers every call it holds, and holds one at least. *)
Definition complete (r : round) : Prop :=
  snd (fst r) <> [] /\ List.length (snd r) = List.length (snd (fst r)).

(** A scripted service for examples: it asks for one tool call as long
    as the conversation holds fewer than [n] tool messages, and then
    answers ["42"]. *)
Definition is_tool_message (m : chat_message) : bool :=
  match m with Tool _ _ => true | _ => false end.

Definition asks_then_answers (n : nat) (messages : list chat_message) (w : nat)
    : outcome reply_message * nat :=
  if (List.length (filter is_tool_message messages) <? n)%nat
  then (Ok {| content := None;
              tool_calls := [{| call_id := "call_1"; call_type := "function";
                                function_name := "get_value";
                                arguments := "{}" |}] |}, S w)
  else (Ok {| content := Some "42"; tool_calls := [] |}, S w).

(** A service that asks for the same tool call in every reply. *)
Definition always_asks (messages : list chat_message) (w : nat)
    : outcome reply_message * nat :=
  (Ok {| content := None;
         tool_calls := [{| call_id := "call_1"; call_type := "function";
                           function_name := "get_value";
                           arguments := "{}" |}] |}, S w).

(** Stand-ins for the JSON codec where the texts do not matter. *)
Definition loads_stub (text : string) : outcome value := Ok (VDict []).

Definition echo_tool (name : string) (args : value) (w : nat) : value * nat :=
  (VDict [("success", VBool true)], w).

Definition dumps_stub (v : value) : outcome string := Ok "{}".

End Conversation.

(** ** [src/models.py]: the validator of the secret *)

Module Models.

(** [validate_secret], the field validator of [QuizRequest] and of
    [SubmitPayload]: an empty or blank secret is refused, any other is
    kept without the white space at its ends. *)
Definition validate_secret (v : string) : outcome string :=
  if String.eqb v "" || String.eqb (PyStr.strip v) ""
  then Raise (Parser.value_error "Secret cannot be empty or whitespace only")
  else Ok (PyStr.strip v).

End Models.

(** ** [src/llm_agent.py]: the choice of the model *)

Module Vision.

Definition image_extensions : list string :=
  [".png"; ".jpg"; ".jpeg"; ".gif"; ".bmp"; ".webp"].
Definition vision_keywords : list string :=
  ["image"; "picture"; "photo"; "visual"; "chart"; "diagram"].
Definition audio_extensions : list string := [".mp3"; ".wav"; ".m4a"; ".ogg"; ".flac"].
Definition audio_keywords : list string :=
  ["audio"; "sound"; "speech"; "transcribe"; "voice"].

(** [_requires_vision] *)
Definition _requires_vision (task : TaskDefinition) : bool :=
  existsb (fun url => PyStr.contains_any image_extensions (PyStr.lower url)) (file_urls task)
  || PyStr.contains_any vision_keywords (PyStr.lower (instructions task)).

(** [_requires_audio] *)
Definition _requires_audio (task : TaskDefinition) : bool :=
  existsb (fun url => PyStr.contains_any audio_extensions (PyStr.lower url)) (file_urls task)
  || PyStr.contains_any audio_keywords (PyStr.lower (instructions task)).

(** [_select_model], for the model [self.model] the agent was made with *)
Definition _select_model (self_model : string) (requires_vision requires_audio : bool)
    : string :=
  if requires_vision then
    if PyStr.contains "gpt-4" self_model then "gpt-4o" else self_model
  else if requires_audio then self_model
  else self_model.

End Vision.

(** ** [src/web_scraper.py] *)

Module WebScraper.

(** [s.split(c)[0]]: the text before the first [c]. *)
Fixpoint before (c : ascii) (s : string) : string :=
  match s with
  | EmptyString => EmptyString
  | String d t => if Ascii.eqb d c then EmptyString else String d (before c t)
  end.

(** [s.rsplit(c, 1)[-1]]: the text after the last [c], all of [s] when
    there is none. *)
Fixpoint after_last (c : ascii) (s : string) : string :=
  match s with
  | EmptyString => EmptyString
  | String d t =>
      if PyStr.char_in c t then after_last c t
      else if Ascii.eqb d c then t
      else s
  end.

(** [_extract_extension]; the length is that of an ASCII text. *)
Definition _extract_extension (url : string) : option string :=
  let url_path := before "#" (before "?" url) in
  let filename :=
    if PyStr.char_in "/" url_path then after_last "/" url_path else url_path in
  if PyStr.char_in "." filename then
    let extension := PyStr.lower (after_last "." filename) in
    if negb (PyStr.char_in "/" extension) && (String.length extension <=? 10)%nat
    then Some extension
    else None
  else None.

(** [MAX_FILE_SIZE] *)
Definition MAX_FILE_SIZE : nat := 50 * 1024 * 1024.

(** The loop [async for chunk in response.content.iter_chunked(8192)]
    with the content read so far. *)
Fixpoint read_chunks (max_file_size : nat) (content : string) (chunks : list string)
    : outcome string :=
  match chunks with
  | [] => Ok content
  | chunk :: rest =>
      let content := content ++ chunk in
      if (max_file_size <? String.length content)%nat
      then Raise (Parser.value_error
                    ("Downloaded content exceeds maximum allowed size ("
                     ++ PyStr.str_of_int (Z.of_nat max_file_size) ++ " bytes)"))
      else read_chunks max_file_size content rest
  end.

(** The chunks put together. *)
Definition concat_chunks (chunks : list string) : string :=
  fold_right String.append "" chunks.

(** The response to the request of [download_file]: the status, the
    header [Content-Length] when there is one, and the chunks of the
    body. *)
Record response := {
  status : Z;
  content_length : option string;
  chunks : list string
}.

Definition client_response_error (status : Z) : exn :=
  Exn "ClientResponseError"
      ["aiohttp.ClientResponseError"; "aiohttp.ClientError"; "Exception"]
      (PyStr.str_of_int status) None.

Section download_file.
(** [self.max_file_size] *)
Variable max_file_size : nat.
(** [session.get(url, headers=...)], which may raise, and [int]. *)
Variable get : string -> outcome response.
Variable int_of_text : string -> outcome Z.

(** [download_file(url)] *)
Definition download_file (url : string) : outcome string :=
  if String.eqb url ""
     || negb (PyStr.startswith "http://" url || PyStr.startswith "https://" url)
  then Raise (Parser.value_error ("Invalid URL: " ++ url))
  else
    match get url with
    | Raise e => Raise e
    | Ok r =>
        if 400 <=? status r then Raise (client_response_error (status r))
        else
          (* [int(content_length)] for a header that is there and not empty *)
          let declared : outcome (option Z) :=
            match content_length r with
            | None | Some "" => Ok None
            | Some text =>
                match int_of_text text with
                | Ok size => Ok (Some size)
                | Raise e => Raise e
                end
            end in
          let oversized (size : Z) := Z.of_nat max_file_size <? size in
          match declared with
          | Raise e => Raise e
          | Ok (Some size) =>
              if oversized size
              then Raise (Parser.value_error
                            ("File size (" ++ PyStr.str_of_int size
                             ++ " bytes) exceeds maximum allowed size ("
                             ++ PyStr.str_of_int (Z.of_nat max_file_size) ++ " bytes)"))
              else read_chunks max_file_size "" (chunks r)
          | Ok None => read_chunks max_file_size "" (chunks r)
          end
    end.

End download_file.

(** A server for examples that answers 200 with the given chunks. *)
Definition serves (body : list string) (url : string) : outcome response :=
  Ok {| status := 200; content_length := None; chunks := body |}.

Definition int_stub (text : string) : outcome Z := Ok 0.

End WebScraper.

(** ** [src/monitoring.py] *)

Module Monitoring.

(** [QuizMetrics], as far as [SystemMetrics] reads it. *)
Record QuizMetrics := {
  quiz_url : string;
  start_time : Q;
  end_time : option Q;
  success : bool;
  llm_calls : Z;
  llm_tokens_used : Z;
  llm_cost : Q;
  quizzes_in_sequence : Z
}.

(** [QuizMetrics.total_time()], at the time [now]; an end time of zero
    is falsy like a missing one. *)
Definition total_time (m : QuizMetrics) (now : Q) : Q :=
  match end_time m with
  | Some t => if Qeq_bool t 0 then (now - start_time m)%Q else (t - start_time m)%Q
  | None => (now - start_time m)%Q
  end.

(** [SystemMetrics]; the list holds the metrics whose dictionaries the
    program keeps. *)
Record SystemMetrics := {
  total_requests : Z;
  successful_requests : Z;
  failed_requests : Z;
  total_quizzes_solved : Z;
  total_time_spent : Q;
  total_llm_calls : Z;
  total_llm_tokens : Z;
  total_llm_cost : Q;
  quiz_metrics : list QuizMetrics
}.

(** [SystemMetrics()] *)
Definition empty : SystemMetrics :=
  {| total_requests := 0; successful_requests := 0; failed_requests := 0;
     total_quizzes_solved := 0; total_time_spent := 0; total_llm_calls := 0;
     total_llm_tokens := 0; total_llm_cost := 0; quiz_metrics := [] |}.

(** [add_quiz_metrics(metrics)], at the time [now] *)
Definition add_quiz_metrics (s : SystemMetrics) (m : QuizMetrics) (now : Q)
    : SystemMetrics :=
  {| total_requests := total_requests s + 1;
     successful_requests := if success m then successful_requests s + 1
                            else successful_requests s;
     failed_requests := if success m then failed_requests s else failed_requests s + 1;
     total_quizzes_solved := total_quizzes_solved s + quizzes_in_sequence m;
     total_time_spent := (total_time_spent s + total_time m now)%Q;
     total_llm_calls := total_llm_calls s + llm_calls m;
     total_llm_tokens := total_llm_tokens s + llm_tokens_used m;
     total_llm_cost := (total_llm_cost s + llm_cost m)%Q;
     quiz_metrics := (quiz_metrics s ++ [m])%list |}.

(** [get_success_rate()] *)
Definition get_success_rate (s : SystemMetrics) : Q :=
  if total_requests s =? 0 then 0
  else (inject_Z (successful_requests s) / inject_Z (total_requests s))%Q.

(** [self.quiz_metrics[-10:]] *)
Definition recent_quizzes (s : SystemMetrics) : list QuizMetrics :=
  skipn (List.length (quiz_metrics s) - 10) (quiz_metrics s).

(** The metrics after a series of quizzes, each recorded at its time. *)
Definition record_all (events : list (QuizMetrics * Q)) : SystemMetrics :=
  fold_left (fun s e => add_quiz_metrics s (fst e) (snd e)) events empty.

Definition finished (ok : bool) : QuizMetrics :=
  {| quiz_url := "https://example.com/quiz"; start_time := 0; end_time := Some 5%Q;
     success := ok; llm_calls := 1; llm_tokens_used := 100; llm_cost := 0;
     quizzes_in_sequence := 1 |}.

End Monitoring.

(** ** [src/api.py]: the endpoint that accepts a quiz *)

Module Api.

(** [QuizRequest] after validation. *)
Record QuizRequest := {
  email : string;
  secret : string;
  url : string
}.

(** [HTTPException(status_code=..., detail=...)]; the status code is the
    message of the model. *)
Definition HTTPException (status_code : Z) (detail : string) : exn :=
  Exn "HTTPException" ["fastapi.HTTPException"; "Exception"]
      (PyStr.str_of_int status_code ++ ": " ++ detail) None.

Definition validation_error (msg : string) : exn :=
  Exn "ValidationError" ["pydantic.ValidationError"; "ValueError"; "Exception"] msg None.

Definition type_error (msg : string) : exn :=
  Exn "TypeError" ["TypeError"; "Exception"] msg None.

(** [type(v).__name__] *)
Definition python_type (v : value) : string :=
  match v with
  | VNone => "NoneType"
  | VBool _ => "bool"
  | VInt _ => "int"
  | VFloat _ => "float"
  | VStr _ => "str"
  | VList _ => "list"
  | VDict _ => "dict"
  end.

Definition not_a_mapping (v : value) : exn :=
  type_error ("src.models.QuizRequest() argument after ** must be a mapping, not "
              ++ python_type v).

(** [body[key]] for the object a JSON text decodes to. *)
Fixpoint lookup (key : string) (items : list (string * value)) : option value :=
  match items with
  | [] => None
  | (k, v) :: rest => if String.eqb k key then Some v else lookup key rest
  end.

Section handle_quiz.
(** The validation of pydantic's [EmailStr] and [HttpUrl], with the text
    they keep, and [settings.student_secret]. *)
Variable EmailStr : string -> outcome string.
Variable HttpUrl : string -> outcome string.
Variable student_secret : string.

(** The field [secret]: a text of one character at least, then the
    validator. *)
Definition secret_field (v : option value) : outcome string :=
  match v with
  | Some (VStr s) =>
      if String.eqb s "" then Raise (validation_error "String should have at least 1 character")
      else
        match Models.validate_secret s with
        | Ok s' => Ok s'
        | Raise e => Raise (validation_error (message e))
        end
  | Some _ => Raise (validation_error "Input should be a valid string")
  | None => Raise (validation_error "Field required")
  end.

Definition text_field (check : string -> outcome string) (v : option value)
    : outcome string :=
  match v with
  | Some (VStr s) =>
      match check s with
      | Ok s' => Ok s'
      | Raise e => Raise (validation_error (message e))
      end
  | Some _ => Raise (validation_error "Input should be a valid string")
  | None => Raise (validation_error "Field required")
  end.

(** [QuizRequest( **body )]: a body that is no object cannot be unpacked
    into keyword arguments, which is a [TypeError] of the interpreter. *)
Definition QuizRequest_new (body : value) : outcome QuizRequest :=
  match body with
  | VDict items =>
      match text_field EmailStr (lookup "email" items),
            secret_field (lookup "secret" items),
            text_field HttpUrl (lookup "url" items) with
      | Ok e, Ok s, Ok u => Ok {| email := e; secret := s; url := u |}
      | Raise e, _, _ | _, Raise e, _ | _, _, Raise e => Raise e
      end
  | _ => Raise (not_a_mapping body)
  end.

(** [QuizResponse] *)
Record QuizResponse := {
  status : string;
  message : option string
}.

(** [validate_secret(secret)] of the endpoint *)
Definition validate_secret (secret : string) : bool := String.eqb secret student_secret.

(** [handle_quiz]: the body as [request.json()] gives it, or the
    exception it raises; the response, and the background tasks added,
    each the e-mail address, the secret and the URL of a quiz to solve. *)
Definition handle_quiz (body : outcome value)
    : outcome QuizResponse * list (string * string * string) :=
  match body with
  | Raise _ => (Raise (HTTPException 400 "Invalid JSON payload"), [])
  | Ok body =>
      match QuizRequest_new body with
      | Raise e =>
          if isinstance e "pydantic.ValidationError"
          then (Raise (HTTPException 400 "Invalid JSON payload"), [])
          else (Raise e, [])
      | Ok quiz_request =>
          if negb (validate_secret (secret quiz_request))
          then (Raise (HTTPException 403 "Invalid secret"), [])
          else
            (Ok {| status := "accepted";
                   message := Some "Quiz request received and is being processed" |},
             [(email quiz_request, secret quiz_request, url quiz_request)])
      end
  end.

End handle_quiz.

(** Stand-ins for examples: every text with an at sign is an address. *)
Definition example_EmailStr (s : string) : outcome string :=
  if PyStr.char_in "@" s then Ok s else Raise (validation_error "value is not a valid email address").

End Api.

(** * Properties *)

(** ** The retry policy *)

Section RetryPolicy.
Import ErrorHandling.

Lemma Qpower_repeated_product (q : Q) (n : nat) :
  (q ^ Z.of_nat n == repeated_product q n)%Q.
Proof.
  induction n as [|n IH].
  - reflexivity.
  - rewrite Nat2Z.inj_succ. unfold Z.succ.
    rewrite Qpower_plus' by lia. cbn [repeated_product].
    rewrite IH, Qpower_1_r. ring.
Qed.

Lemma Qmin_mono_l (a b c : Q) : (a <= b -> Qmin a c <= Qmin b c)%Q.
Proof.
  intros Hab. apply Q.min_glb.
  - eapply Qle_trans; [apply Q.le_min_l | exact Hab].
  - apply Q.le_min_r.
Qed.

Lemma scaled_power_mono (base mult : Q) (m n : Z) :
  (0 <= base)%Q -> (1 <= mult)%Q -> m <= n ->
  (base * mult ^ m <= base * mult ^ n)%Q.
Proof.
  intros Hb Hm Hmn.
  rewrite !(Qmult_comm base).
  apply Qmult_le_compat_r; [|exact Hb].
  apply Qpower_le_compat_l; assumption.
Qed.




(** *** The wrapper [with_retry] *)

Lemma is_retryable_non_retryable (e : exn) (c : ErrorCategory) :
  In c non_retryable -> is_retryable e (Some c) = false.
Proof.
  unfold is_retryable. simpl. intros [<-|[<-|[]]]; reflexivity.
Qed.

Lemma is_retryable_retryable (e : exn) (c : ErrorCategory) :
  In c retryable -> is_retryable e (Some c) = true.
Proof.
  unfold is_retryable. simpl.
  intros [<-|[<-|[<-|[<-|[<-|[<-|[]]]]]]]; reflexivity.
Qed.

Lemma is_retryable_unknown (e : exn) : is_retryable e (Some UNKNOWN) = false.
Proof. reflexivity. Qed.

Section Wrapper.
Context {T W : Type}.
Variable h : ErrorHandler.
Variable func : W -> outcome T * W.
Variable limit : Z.
Variable retry_on : option (list string).

Local Abbreviation loop := (with_retry_loop h func limit retry_on).

(** An error that is not retried ends the call: one more invocation, no
    sleep, the same exception. *)
Lemma loop_reraise (left : nat) (attempt : Z) (last : option exn) (s s' : W) (e : exn) :
  func s = (Raise e, s') ->
  retry_on_excludes retry_on e = true
  \/ is_retryable e (Some (classify_error e)) = false
  \/ limit <= attempt ->
  loop (S left) attempt last s = Run (Raise e) s' [] 1.
Proof.
  intros Hf Hwhy. cbn [with_retry_loop]. rewrite Hf.
  destruct (retry_on_excludes retry_on e); [reflexivity|].
  destruct (is_retryable e (Some (classify_error e))); [|reflexivity].
  destruct Hwhy as [Hx|[Hx|Hx]]; try discriminate.
  replace (attempt >=? limit) with true by (symmetry; apply Z.geb_le; lia).
  reflexivity.
Qed.

(** A retried error: sleep for the computed delay, then go on with the
    next attempt. *)
Lemma loop_retry (left : nat) (attempt : Z) (last : option exn) (s s' : W) (e : exn) :
  func s = (Raise e, s') ->
  retry_on_excludes retry_on e = false ->
  is_retryable e (Some (classify_error e)) = true ->
  attempt < limit ->
  loop (S left) attempt last s =
    called (slept (calculate_delay h attempt) (loop left (attempt + 1) (Some e) s')).
Proof.
  intros Hf Hx Hr Hlt. cbn [with_retry_loop]. rewrite Hf, Hx, Hr. cbn [negb].
  replace (attempt >=? limit) with false; [reflexivity|].
  symmetry. rewrite Z.geb_leb. apply Z.leb_gt. exact Hlt.
Qed.

Lemma delays_succ (from : Z) (n : nat) :
  delays h from (S n) = calculate_delay h from :: delays h (from + 1) n.
Proof.
  unfold delays. cbn [seq map]. rewrite Z.add_0_r. f_equal.
  rewrite <- seq_shift, map_map. apply map_ext. intros k. f_equal. lia.
Qed.

Lemma loop_exhausts (left : nat) :
  always_fails_retryably func retry_on ->
  forall (attempt : Z) (last : option exn) (s : W),
    attempt + Z.of_nat left = limit ->
    let r := loop (S left) attempt last s in
    calls r = S left
    /\ sleeps r = delays h attempt left
    /\ exists e, result r = Raise e /\ In (classify_error e) retryable.
Proof.
  intros Hfail. induction left as [|left IH]; intros attempt last s Hsum r; subst r.
  - destruct (Hfail s) as (e & s' & Hf & Hc & Hx).
    rewrite (loop_reraise 0 attempt last s s' e Hf) by (right; right; lia).
    cbn. repeat split. exists e. split; [reflexivity | exact Hc].
  - destruct (Hfail s) as (e & s' & Hf & Hc & Hx).
    rewrite (loop_retry (S left) attempt last s s' e Hf Hx
               (is_retryable_retryable e _ Hc)) by lia.
    destruct (IH (attempt + 1) (Some e) s' ltac:(lia)) as (Hcalls & Hsleeps & Hres).
    cbn [called slept calls sleeps result]. rewrite Hcalls, Hsleeps, delays_succ.
    repeat split. exact Hres.
Qed.

End Wrapper.






End RetryPolicy.


(** ** Answer submission *)

Section Submission.
Import Submitter.
Context {W : Type}.
Variable max_retries : Z.
Variable post : W -> post_result * W.

Local Abbreviation submit := (submit_answer max_retries None post).
Local Abbreviation retried := (then_retry max_retries post).
Local Abbreviation raised := (@raises W).

Lemma submit_status_error fuel retry_count w w' status body :
  post w = (Response status body, w') ->
  is_success status = false ->
  submit (S fuel) retry_count w =
    if (status >=? 500) && (retry_count <? max_retries)
    then retried fuel retry_count w'
    else raised (http_error status) w'.
Proof.
  intros Hp Hs. cbn [submit_answer]. rewrite Hp, Hs.
  destruct ((status >=? 500) && (retry_count <? max_retries)); reflexivity.
Qed.

Lemma submit_request_error fuel retry_count w w' e :
  post w = (Raised e, w') ->
  isinstance e "httpx.RequestError" = true ->
  submit (S fuel) retry_count w =
    if retry_count <? max_retries
    then retried fuel retry_count w'
    else raised (NetworkError ("Network error during submission: " ++ message e)) w'.
Proof.
  intros Hp He. cbn [submit_answer]. rewrite Hp, He.
  destruct (retry_count <? max_retries); reflexivity.
Qed.

Lemma submit_body_error fuel retry_count w w' status e :
  post w = (Response status (Raise e), w') ->
  is_success status = true ->
  isinstance e "httpx.RequestError" = false ->
  submit (S fuel) retry_count w =
    if isinstance e "pydantic.ValidationError"
    then raised (ValidationError "Failed to parse submission response") w'
    else raised e w'.
Proof.
  intros Hp Hs He. cbn [submit_answer]. rewrite Hp, Hs, He.
  destruct (isinstance e "pydantic.ValidationError"); reflexivity.
Qed.

Lemma is_success_error status : 400 <= status -> is_success status = false.
Proof.
  intros H. unfold is_success. apply andb_false_iff. right. apply Z.leb_gt. lia.
Qed.

(** Enough fuel always produces a result. *)
Lemma submit_answer_returns fuel :
  forall retry_count w,
    max_retries - retry_count < Z.of_nat fuel ->
    (0 < fuel)%nat ->
    exists r, submit fuel retry_count w = Some r.
Proof.
  induction fuel as [|fuel IH]; intros retry_count w Hfuel Hpos; [lia|].
  assert (Hretry : retry_count < max_retries ->
                   forall w', exists r, retried fuel retry_count w' = Some r).
  { intros Hlt w'. destruct (IH (retry_count + 1) w') as [r Hr]; [lia | lia |].
    unfold then_retry. rewrite Hr. cbn. eauto. }
  cbn [submit_answer].
  destruct (post w) as [[e|status body] w']; cbn [option_map].
  - destruct (isinstance e "httpx.RequestError").
    + destruct (retry_count <? max_retries) eqn:Hlt.
      * apply Z.ltb_lt in Hlt. apply (Hretry Hlt w').
      * eauto.
    + destruct (isinstance e "pydantic.ValidationError"); eauto.
  - destruct (is_success status).
    + destruct body as [r|e]; [eauto|].
      destruct (isinstance e "httpx.RequestError").
      * destruct (retry_count <? max_retries) eqn:Hlt.
        -- apply Z.ltb_lt in Hlt. apply (Hretry Hlt w').
        -- eauto.
      * destruct (isinstance e "pydantic.ValidationError"); eauto.
    + destruct ((status >=? 500) && (retry_count <? max_retries)) eqn:Hc.
      * apply andb_prop in Hc as [_ Hlt]. apply Z.ltb_lt in Hlt.
        apply (Hretry Hlt w').
      * eauto.
Qed.

Lemma retry_delays_succ (from : Z) (n : nat) :
  retry_delays from (S n) = retry_delay from :: retry_delays (from + 1) n.
Proof.
  unfold retry_delays. cbn [seq map]. rewrite Z.add_0_r. f_equal.
  rewrite <- seq_shift, map_map. apply map_ext. intros k. f_equal. lia.
Qed.

Lemma submit_answer_exhausts (left : nat) :
  server_always_failing post ->
  forall retry_count w,
    retry_count + Z.of_nat left = max_retries ->
    exists r, submit (S left) retry_count w = Some r
      /\ calls r = S left
      /\ sleeps r = retry_delays retry_count left
      /\ exists status, 500 <= status /\ result r = Raise (http_error status).
Proof.
  intros Hdown. induction left as [|left IH]; intros retry_count w Hsum.
  - destruct (Hdown w) as (status & body & w' & Hp & Hst).
    rewrite (submit_status_error _ _ _ _ _ _ Hp) by (apply is_success_error; lia).
    replace (retry_count <? max_retries) with false by (symmetry; apply Z.ltb_ge; lia).
    rewrite andb_false_r. eexists. split; [reflexivity|]. cbn. eauto 6.
  - destruct (Hdown w) as (status & body & w' & Hp & Hst).
    rewrite (submit_status_error _ _ _ _ _ _ Hp) by (apply is_success_error; lia).
    replace (retry_count <? max_retries) with true by (symmetry; apply Z.ltb_lt; lia).
    replace (status >=? 500) with true by (symmetry; apply Z.geb_le; lia).
    destruct (IH (retry_count + 1) w' ltac:(lia)) as (r & Hr & Hcalls & Hsleeps & Hres).
    unfold then_retry. rewrite Hr. cbn [option_map]. eexists. split; [reflexivity|].
    cbn [called slept calls sleeps result].
    rewrite Hcalls, Hsleeps, retry_delays_succ. auto.
Qed.

End Submission.




(** ** The retry loops of the completion call and of the page rendering *)

Section ServiceCall.
Import LLMRetry.
Context {Resp W : Type}.
Variable create : W -> outcome Resp * W.
Variable max_retries : Z.

Lemma call_llm_loop_failure (left : nat) (attempt : Z) (w w' : W) (e : exn) :
  create w = (Raise e, w') ->
  isinstance e "openai.RateLimitError" || isinstance e "openai.APIError" = true ->
  call_llm_loop create max_retries (S left) attempt w =
    called (if attempt <? max_retries - 1
            then slept (wait_time attempt)
                       (call_llm_loop create max_retries left (attempt + 1) w')
            else Run (Raise e) w' [] O).
Proof. intros Hc He. cbn [call_llm_loop]. rewrite Hc, He. reflexivity. Qed.

Lemma call_llm_loop_exhausts (left : nat) :
  service_always_failing create ->
  forall attempt w,
    attempt + Z.of_nat left = max_retries - 1 ->
    let r := call_llm_loop create max_retries (S left) attempt w in
    calls r = S left
    /\ sleeps r = map (fun k => wait_time (attempt + Z.of_nat k)) (seq 0 left)
    /\ exists e, result r = Raise e.
Proof.
  intros Hfail. induction left as [|left IH]; intros attempt w Hsum r; subst r.
  - destruct (Hfail w) as (e & w' & Hc & He).
    rewrite (call_llm_loop_failure _ _ _ _ _ Hc He).
    replace (attempt <? max_retries - 1) with false by (symmetry; apply Z.ltb_ge; lia).
    cbn. eauto.
  - destruct (Hfail w) as (e & w' & Hc & He).
    rewrite (call_llm_loop_failure _ _ _ _ _ Hc He).
    replace (attempt <? max_retries - 1) with true by (symmetry; apply Z.ltb_lt; lia).
    destruct (IH (attempt + 1) w' ltac:(lia)) as (Hcalls & Hsleeps & Hres).
    cbn [called slept calls sleeps result]. rewrite Hcalls, Hsleeps.
    split; [reflexivity|]. split; [|exact Hres].
    cbn [seq map]. rewrite Z.add_0_r. f_equal.
    rewrite <- seq_shift, map_map. apply map_ext. intros k. f_equal. lia.
Qed.

End ServiceCall.

Section Rendering.
Import Browser.
Context {W : Type}.
Variable render : string -> W -> outcome string * W.
Variable cleanup : W -> W.
Variable max_retries : Z.
Variable url : string.

Lemma fetch_loop_failure (left : nat) (attempt : Z) (w w' : W) (e : exn) :
  render url w = (Raise e, w') ->
  attempt <> max_retries - 1 ->
  fetch_loop render cleanup max_retries url (S left) attempt w =
    called (slept 1
              (fetch_loop render cleanup max_retries url left (attempt + 1)
                 (if isinstance e "playwright.async_api.TimeoutError"
                  then w' else cleanup w'))).
Proof.
  intros Hr Ha. cbn [fetch_loop]. rewrite Hr.
  replace (attempt =? max_retries - 1) with false by (symmetry; apply Z.eqb_neq; lia).
  destruct (isinstance e "playwright.async_api.TimeoutError"); reflexivity.
Qed.

Lemma fetch_loop_exhausts (left : nat) :
  render_always_failing render url ->
  forall attempt w,
    attempt + Z.of_nat left = max_retries - 1 ->
    let r := fetch_loop render cleanup max_retries url (S left) attempt w in
    calls r = S left
    /\ sleeps r = repeat 1%Q left
    /\ exists e, result r = Raise e.
Proof.
  intros Hfail. induction left as [|left IH]; intros attempt w Hsum r; subst r.
  - destruct (Hfail w) as (e & w' & Hr). cbn [fetch_loop]. rewrite Hr.
    replace (attempt =? max_retries - 1) with true by (symmetry; apply Z.eqb_eq; lia).
    destruct (isinstance e "playwright.async_api.TimeoutError"); cbn; eauto.
  - destruct (Hfail w) as (e & w' & Hr).
    rewrite (fetch_loop_failure _ _ _ _ _ Hr) by lia.
    destruct (IH (attempt + 1)
                (if isinstance e "playwright.async_api.TimeoutError"
                 then w' else cleanup w') ltac:(lia)) as (Hcalls & Hsleeps & Hres).
    cbn [called slept calls sleeps result repeat]. rewrite Hcalls, Hsleeps. auto.
Qed.

End Rendering.

Lemma Qpower_2_repeated (a : Z) :
  0 <= a -> (2 ^ a == ErrorHandling.repeated_product 2 (Z.to_nat a))%Q.
Proof.
  intros Ha. rewrite <- Qpower_repeated_product, Z2Nat.id by exact Ha. reflexivity.
Qed.

(** C3 (amended). Submission, the completion call and page rendering each
    run a retry loop of their own.  Against lasting failure, submission
    sleeps [min(2 * 2^k, 10)] before retry [k + 1] (base 2, multiplier 2,
    cap 10), the completion call sleeps [2^attempt] without a cap and
    gives up at attempt [max_retries - 1], and page rendering sleeps one
    second between its [max_retries] attempts. *)
Theorem component_retry_delays :
  (forall (W : Type) (max_retries : Z) (exchange : W -> Submitter.post_result * W) (w : W),
      Submitter.server_always_failing exchange -> 0 <= max_retries ->
      exists r,
        Submitter.submit_answer max_retries None exchange (S (Z.to_nat max_retries)) 0 w
        = Some r
        /\ sleeps r = Submitter.retry_delays 0 (Z.to_nat max_retries))
  /\ (forall retry_count, 0 <= retry_count ->
      (Submitter.retry_delay retry_count
       == ErrorHandling.backoff_formula 2 2 10 (Z.to_nat retry_count))%Q)
  /\ (forall (Resp W : Type) (create : W -> outcome Resp * W) (max_retries : Z) (w : W),
      LLMRetry.service_always_failing create -> 1 <= max_retries ->
      let r := LLMRetry._call_llm_with_retry create max_retries w in
      calls r = Z.to_nat max_retries
      /\ sleeps r = LLMRetry.wait_times (Z.to_nat (max_retries - 1))
      /\ exists e, result r = Raise e)
  /\ (forall attempt, 0 <= attempt ->
      (LLMRetry.wait_time attempt == ErrorHandling.repeated_product 2 (Z.to_nat attempt))%Q)
  /\ (forall (W : Type) (render : string -> W -> outcome string * W) (cleanup : W -> W)
        (max_retries : Z) (url : string) (w : W),
      Browser.render_always_failing render url -> 1 <= max_retries ->
      let r := Browser.fetch_and_render render cleanup max_retries url w in
      calls r = Z.to_nat max_retries
      /\ sleeps r = repeat 1%Q (Z.to_nat (max_retries - 1))
      /\ exists e, result r = Raise e).
Proof.
  split; [|split; [|split; [|split]]].
  - intros W max_retries exchange w Hdown Hmax.
    destruct (submit_answer_exhausts max_retries exchange (Z.to_nat max_retries) Hdown 0 w
                ltac:(lia)) as (r & Hr & _ & Hsleeps & _).
    exists r. auto.
  - intros retry_count Hrc. unfold Submitter.retry_delay, ErrorHandling.backoff_formula.
    rewrite Qpower_plus' by lia. rewrite (Qpower_2_repeated retry_count Hrc).
    rewrite Qpower_1_r, Qmult_comm. reflexivity.
  - intros Resp W create max_retries w Hfail Hmax r. subst r.
    unfold LLMRetry._call_llm_with_retry.
    replace (Z.to_nat max_retries) with (S (Z.to_nat (max_retries - 1))) by lia.
    destruct (call_llm_loop_exhausts create max_retries (Z.to_nat (max_retries - 1))
                Hfail 0 w ltac:(lia)) as (Hcalls & Hsleeps & Hres).
    split; [exact Hcalls|]. split; [|exact Hres].
    rewrite Hsleeps. apply map_ext. intros k. reflexivity.
  - intros attempt Ha. apply Qpower_2_repeated, Ha.
  - intros W render cleanup max_retries url w Hfail Hmax r. subst r.
    unfold Browser.fetch_and_render.
    replace (Z.to_nat max_retries) with (S (Z.to_nat (max_retries - 1))) by lia.
    apply fetch_loop_exhausts; [exact Hfail | lia].
Qed.

Lemma component_retry_delays_witness :
  0 <= 2
  /\ Submitter.server_always_failing
       (Submitter.always_respond 503 (Raise Submitter.json_decode_error))
  /\ (exists r,
       Submitter.submit_answer 2 None
         (Submitter.always_respond 503 (Raise Submitter.json_decode_error)) 3 0 tt
       = Some r
       /\ sleeps r = Submitter.retry_delays 0 2)
  /\ (Submitter.retry_delay 2 == ErrorHandling.backoff_formula 2 2 10 2)%Q.
Proof.
  assert (Hdown : Submitter.server_always_failing
                    (Submitter.always_respond 503 (Raise Submitter.json_decode_error))).
  { intros []. exists 503, (Raise Submitter.json_decode_error), tt.
    split; [reflexivity | lia]. }
  destruct component_retry_delays as (Hsubmit & Hdelay & _).
  split; [lia|]. split; [exact Hdown|]. split.
  - exact (Hsubmit unit 2 _ tt Hdown ltac:(lia)).
  - exact (Hdelay 2 ltac:(lia)).
Defined.

(** C3 as stated fails: against a server that keeps answering 500,
    submission with four retries sleeps 2, 4, 8 and 10 seconds, where the
    shared policy gives 1, 2, 4 and 8 for four retries. *)
Lemma component_retry_delays_counterexample :
  Submitter.submit_answer 4 None
    (Submitter.always_respond 500 (Raise Submitter.json_decode_error)) 5 0 tt
  = Some (Run (Raise (Submitter.http_error 500)) tt [2; 4; 8; 10]%Q 5%nat)
  /\ sleeps (ErrorHandling.with_retry ErrorHandling.error_handler
              (ErrorHandling.always_raise (NetworkError "HTTP error during submission: 500"))
              (Some 4) None tt)
     = [1; 2; 4; 8]%Q.
Proof. split; vm_compute; reflexivity. Qed.

(** ** The quiz orchestrator *)

Lemma Qlt_bool_iff (a b : Q) : Qlt_bool a b = true <-> (a < b)%Q.
Proof.
  unfold Qlt_bool. rewrite negb_true_iff. split.
  - intros H. apply Qnot_le_lt. intros Hle. apply Qle_bool_iff in Hle. congruence.
  - intros H. destruct (Qle_bool b a) eqn:E; [|reflexivity].
    apply Qle_bool_iff in E. exfalso. exact (Qlt_not_le _ _ H E).
Qed.

Lemma should_skip_iff (retry_count : Z) (remaining_time : Q) :
  Orchestrator._should_skip_to_next retry_count remaining_time = true
  <-> ((remaining_time < 30)%Q /\ 1 <= retry_count)
      \/ ((remaining_time < 60)%Q /\ 2 <= retry_count).
Proof.
  unfold Orchestrator._should_skip_to_next.
  destruct (Qlt_bool remaining_time 30 && (retry_count >=? 1)) eqn:E1.
  - apply andb_prop in E1 as [Ht Hr]. apply Qlt_bool_iff in Ht. apply Z.geb_le in Hr.
    split; [auto | reflexivity].
  - destruct (Qlt_bool remaining_time 60 && (retry_count >=? 2)) eqn:E2.
    + apply andb_prop in E2 as [Ht Hr]. apply Qlt_bool_iff in Ht. apply Z.geb_le in Hr.
      split; [auto | reflexivity].
    + split; [discriminate|]. intros [[Ht Hr]|[Ht Hr]]; exfalso.
      * apply Qlt_bool_iff in Ht. apply Z.geb_le in Hr. rewrite Ht, Hr in E1. discriminate.
      * apply Qlt_bool_iff in Ht. apply Z.geb_le in Hr. rewrite Ht, Hr in E2. discriminate.
Qed.

Section Orchestration.
Import Orchestrator.
Context {W : Type}.
Variable default_timeout : Z.
Variable max_retries_per_quiz : Z.
Variable clock : W -> Q.
Variable fetch_and_render : string -> W -> reply string * W.
Variable parse_quiz_page : string -> string -> outcome TaskDefinition.
Variable solve_task : TaskDefinition -> W -> reply value * W.
Variable submit_answer :
  string -> string -> string -> string -> value -> W -> reply SubmitResponse * W.
Variable sleep : Q -> W -> reply unit * W.
Variable cleanup : W -> W.
Variables email secret : string.

Local Abbreviation attempt :=
  (quiz_attempt max_retries_per_quiz solve_task submit_answer sleep email secret).
Local Abbreviation loop :=
  (quiz_loop max_retries_per_quiz solve_task submit_answer sleep email secret).
Local Abbreviation solve_single :=
  (_solve_single_quiz max_retries_per_quiz fetch_and_render parse_quiz_page solve_task
     submit_answer sleep email secret).
Local Abbreviation seq_loop :=
  (sequence_loop max_retries_per_quiz clock fetch_and_render parse_quiz_page solve_task
     submit_answer sleep email secret).

Lemma on_error_again quiz_url retry_count e w rc' last w' :
  on_error max_retries_per_quiz sleep quiz_url retry_count e w = (Again rc' last, w') ->
  rc' = retry_count + 1 /\ rc' <= max_retries_per_quiz.
Proof.
  unfold on_error. destruct (retry_count + 1 >? max_retries_per_quiz) eqn:E; [discriminate|].
  destruct (sleep 1 w) as [[[]|e'|] w'']; intros H; inversion H; subst.
  split; [reflexivity|]. rewrite Z.gtb_ltb in E. apply Z.ltb_ge in E. exact E.
Qed.

(** A pass that asks for another one has advanced the counter by one and
    stays within the cap. *)
Lemma quiz_attempt_again task quiz_url remaining retry_count w rc' last w' :
  attempt task quiz_url remaining retry_count w = (Again rc' last, w') ->
  retry_count <= max_retries_per_quiz ->
  rc' = retry_count + 1 /\ rc' <= max_retries_per_quiz.
Proof.
  unfold quiz_attempt. intros H Hle.
  destruct (solve_step solve_task task w) as [[answer|e|] w1];
    [|apply on_error_again in H; exact H|discriminate].
  destruct (submit_answer _ _ _ _ _ w1) as [[resp|e|] w2];
    [|apply on_error_again in H; exact H|discriminate].
  destruct (correct resp); [discriminate|].
  assert (Hretry :
    (let retry_count0 := retry_count + 1 in
     if retry_count0 <=? max_retries_per_quiz
     then (Again retry_count0 (reason resp), w2)
     else on_error max_retries_per_quiz sleep quiz_url retry_count0
            (plain_error "Exception"
               ("Failed to solve quiz after " ++ PyStr.str_of_int max_retries_per_quiz
                ++ " retries: " ++ str_of_optional (reason resp))) w2)
    = (Again rc' last, w') -> rc' = retry_count + 1 /\ rc' <= max_retries_per_quiz).
  { cbv zeta. destruct (retry_count + 1 <=? max_retries_per_quiz) eqn:E.
    - intros H'. inversion H'; subst. apply Z.leb_le in E. auto.
    - intros H'. apply on_error_again in H'. lia. }
  destruct (url resp) as [next|]; [|exact (Hretry H)].
  destruct (retry_count >=? max_retries_per_quiz); [discriminate|].
  destruct (_should_skip_to_next retry_count remaining); [discriminate|].
  exact (Hretry H).
Qed.

(** The loop of [_solve_single_quiz] ends within its fuel. *)
Lemma quiz_loop_returns (fuel : nat) :
  forall task quiz_url remaining retry_count last w,
    max_retries_per_quiz + 1 - retry_count < Z.of_nat fuel ->
    (0 < fuel)%nat ->
    exists r, loop fuel task quiz_url remaining retry_count last w = Some r.
Proof.
  induction fuel as [|fuel IH]; intros task quiz_url remaining retry_count last w Hf Hpos;
    [lia|].
  cbn [quiz_loop]. destruct (retry_count <=? max_retries_per_quiz) eqn:E; [|eauto].
  apply Z.leb_le in E.
  destruct (attempt task quiz_url remaining retry_count w) as [[next|e| |rc' last'] w'] eqn:Ha;
    eauto.
  apply quiz_attempt_again in Ha as [-> Hle]; [|exact E].
  apply IH; lia.
Qed.

Lemma solve_single_quiz_returns quiz_url remaining w :
  exists r, solve_single quiz_url remaining w = Some r.
Proof.
  unfold _solve_single_quiz.
  destruct (fetch_and_render quiz_url w) as [[html|e|] w1]; eauto.
  destruct (parse_quiz_page html quiz_url) as [task|e]; eauto.
  apply quiz_loop_returns; lia.
Qed.

Lemma quiz_attempt_wrong_with_next task quiz_url remaining retry_count w answer w1 resp w2 next :
  solve_step solve_task task w = (Done answer, w1) ->
  submit_answer (submit_url task) email secret quiz_url answer w1 = (Done resp, w2) ->
  correct resp = false ->
  url resp = Some next ->
  attempt task quiz_url remaining retry_count w =
    if (retry_count >=? max_retries_per_quiz)
       || _should_skip_to_next retry_count remaining
    then (Return (Some next), w2)
    else if retry_count + 1 <=? max_retries_per_quiz
    then (Again (retry_count + 1) (reason resp), w2)
    else on_error max_retries_per_quiz sleep quiz_url (retry_count + 1)
           (plain_error "Exception"
              ("Failed to solve quiz after " ++ PyStr.str_of_int max_retries_per_quiz
               ++ " retries: " ++ str_of_optional (reason resp))) w2.
Proof.
  intros Hs Hsub Hc Hu. unfold quiz_attempt. rewrite Hs, Hsub, Hc, Hu.
  destruct (retry_count >=? max_retries_per_quiz); [reflexivity|].
  destruct (_should_skip_to_next retry_count remaining); reflexivity.
Qed.

Lemma sequence_loop_step fuel timeout start solved current visited w next w' :
  current <> "" ->
  existsb (String.eqb current) visited = false ->
  solve_single current (inject_Z timeout - (clock w - start))%Q w
    = Some (Done next, w') ->
  seq_loop (S fuel) timeout start solved (Some current) visited w
  = seq_loop fuel timeout start (solved + 1) next (visited ++ [current])%list w'.
Proof.
  intros Hne Hnew Hsolve. cbn [sequence_loop].
  destruct current as [|c s]; [congruence|].
  rewrite Hnew, Hsolve. reflexivity.
Qed.

Lemma sequence_loop_cycle fuel timeout start solved current visited w :
  existsb (String.eqb current) visited = true ->
  seq_loop (S fuel) timeout start solved (Some current) visited w
  = Some (Finished solved, w).
Proof.
  intros Hseen. cbn [sequence_loop].
  destruct current as [|c s]; [reflexivity|]. rewrite Hseen. reflexivity.
Qed.



End Orchestration.



(** ** The coercion of the final answer *)




Example parse_answer_number :
  Coercion._parse_answer Json.loads ∅ "The answer is 42" NUMBER = Ok (VInt 42).
Proof. reflexivity. Qed.

Example parse_answer_boolean :
  Coercion._parse_answer Json.loads ∅ "true" BOOLEAN = Ok (VBool true).
Proof. reflexivity. Qed.

Example parse_answer_fenced_json :
  Coercion._parse_answer Json.loads ∅ "Result: ```json {} ```" JSON = Ok (VDict []).
Proof. reflexivity. Qed.

(** ** Strings *)

#[local] Arguments String.append !_ _ / : simpl nomatch.

Lemma append_empty_r (s : string) : s ++ "" = s.
Proof. induction s as [|c s IH]; cbn; [reflexivity | rewrite IH; reflexivity]. Qed.

Lemma append_assoc (a b c : string) : (a ++ b) ++ c = a ++ (b ++ c).
Proof. induction a as [|x a IH]; cbn; [reflexivity | rewrite IH; reflexivity]. Qed.

Lemma length_append (a b : string) :
  String.length (a ++ b) = (String.length a + String.length b)%nat.
Proof. induction a as [|x a IH]; cbn; [reflexivity | rewrite IH; reflexivity]. Qed.

Lemma substring_prefix (a b : string) :
  String.substring 0 (String.length a) (a ++ b) = a.
Proof. induction a as [|x a IH]; cbn; [destruct b; reflexivity | rewrite IH; reflexivity]. Qed.

(** What was read when reading [a ++ b] left [b] is [a]. *)
Lemma consumed_append (a b : string) : PyStr.consumed (a ++ b) b = a.
Proof.
  unfold PyStr.consumed. rewrite length_append.
  replace (String.length a + String.length b - String.length b)%nat
    with (String.length a) by lia.
  apply substring_prefix.
Qed.

Lemma all_chars_append (p : ascii -> bool) (a b : string) :
  Base64.all_chars p (a ++ b) = Base64.all_chars p a && Base64.all_chars p b.
Proof.
  induction a as [|x a IH]; cbn; [reflexivity|]. rewrite IH, andb_assoc. reflexivity.
Qed.

Lemma all_chars_weaken (p q : ascii -> bool) (s : string) :
  (forall c, p c = true -> q c = true) ->
  Base64.all_chars p s = true -> Base64.all_chars q s = true.
Proof.
  intros Hpq. induction s as [|c s IH]; cbn; [reflexivity|].
  intros H. apply andb_prop in H as [Hc Hs]. rewrite (Hpq c Hc), (IH Hs). reflexivity.
Qed.

(** A text without white space at its ends is its own [strip]. *)
Lemma lstrip_by_head (drop : ascii -> bool) (c : ascii) (s : string) :
  drop c = false -> PyStr.lstrip_by drop (String c s) = String c s.
Proof. intros H. cbn. rewrite H. reflexivity. Qed.

Lemma rstrip_by_none (drop : ascii -> bool) (s : string) :
  Base64.all_chars (fun c => negb (drop c)) s = true -> PyStr.rstrip_by drop s = s.
Proof.
  induction s as [|c s IH]; cbn; [reflexivity|].
  intros H. apply andb_prop in H as [Hc Hs]. rewrite (IH Hs).
  apply negb_true_iff in Hc. destruct s; [rewrite Hc|]; reflexivity.
Qed.

Lemma strip_by_none (drop : ascii -> bool) (s : string) :
  Base64.all_chars (fun c => negb (drop c)) s = true -> PyStr.strip_by drop s = s.
Proof.
  intros H. unfold PyStr.strip_by.
  replace (PyStr.lstrip_by drop s) with s; [apply rstrip_by_none, H|].
  destruct s as [|c s]; [reflexivity|]. cbn in H. apply andb_prop in H as [Hc _].
  apply negb_true_iff in Hc. cbn. rewrite Hc. reflexivity.
Qed.

(** ** Checking a property of all bytes by enumeration *)

Lemma In_all_ascii (c : ascii) : In c PyStr.all_ascii.
Proof.
  rewrite <- (ascii_nat_embedding c). unfold PyStr.all_ascii.
  apply in_map, in_seq. pose proof (nat_ascii_bounded c). lia.
Qed.

Lemma forall_ascii (P : ascii -> bool) :
  forallb P PyStr.all_ascii = true -> forall c, P c = true.
Proof.
  intros H c. exact (proj1 (forallb_forall P PyStr.all_ascii) H c (In_all_ascii c)).
Qed.

Lemma forall_ascii2 (P : ascii -> ascii -> bool) :
  forallb (fun a => forallb (P a) PyStr.all_ascii) PyStr.all_ascii = true ->
  forall a b, P a b = true.
Proof.
  intros H a b. apply forall_ascii.
  exact (forall_ascii (fun a => forallb (P a) PyStr.all_ascii) H a).
Qed.

(** ** Base64 *)

Section Base64Facts.
Import Base64.

(** Induction over a byte string three bytes at a time. *)
Lemma triples_ind (P : string -> Prop) :
  P "" ->
  (forall x, P (String x "")) ->
  (forall x y, P (String x (String y ""))) ->
  (forall x y z rest, P rest -> P (String x (String y (String z rest)))) ->
  forall s, P s.
Proof.
  intros H0 H1 H2 H3 s.
  enough (H : P s /\ (forall x, P (String x s)) /\ (forall x y, P (String x (String y s))))
    by apply H.
  induction s as [|c s (IHs & IH1 & IH2)]; auto.
Qed.

Lemma decodes_to_spec (c : ascii) (v : N) :
  decodes_to c v = true -> a2b c = Some v /\ is_pad c = false /\ is_b64 c = true.
Proof.
  unfold decodes_to, is_b64. destruct (a2b c) as [w|] eqn:E; [|discriminate].
  intros H. apply N.eqb_eq in H. subst w. repeat split.
  destruct (is_pad c) eqn:Ep; [|reflexivity].
  apply Ascii.eqb_eq in Ep. subst c. discriminate.
Qed.

Lemma pair_check_all (x y : ascii) : pair_check x y = true.
Proof. apply forall_ascii2. vm_compute. reflexivity. Qed.

Lemma sextet_facts (x y : ascii) :
  (a2b (b2a (sextet0 x)) = Some (sextet0 x)
   /\ a2b (b2a (sextet1 x y)) = Some (sextet1 x y)
   /\ a2b (b2a (sextet2 x y)) = Some (sextet2 x y)
   /\ a2b (b2a (sextet3 x)) = Some (sextet3 x))
  /\ (is_pad (b2a (sextet0 x)) = false
      /\ is_pad (b2a (sextet1 x y)) = false
      /\ is_pad (b2a (sextet2 x y)) = false
      /\ is_pad (b2a (sextet3 x)) = false)
  /\ (is_b64 (b2a (sextet0 x)) = true
      /\ is_b64 (b2a (sextet1 x y)) = true
      /\ is_b64 (b2a (sextet2 x y)) = true
      /\ is_b64 (b2a (sextet3 x)) = true)
  /\ ascii_of_N (N.lor (N.shiftl (sextet0 x) 2) (N.shiftr (sextet1 x y) 4)) = x
  /\ N.land (sextet1 x y) 15 = N.shiftr (N_of_ascii y) 4
  /\ ascii_of_N (N.lor (N.shiftl (N.shiftr (N_of_ascii x) 4) 4)
                       (N.shiftr (sextet2 x y) 2)) = x
  /\ N.land (sextet2 x y) 3 = N.shiftr (N_of_ascii y) 6
  /\ ascii_of_N (N.lor (N.shiftl (N.shiftr (N_of_ascii x) 6) 6) (sextet3 x)) = x.
Proof.
  pose proof (pair_check_all x y) as H. unfold pair_check in H.
  repeat (apply andb_prop in H; destruct H as [H ?]).
  repeat match goal with
         | Hd : decodes_to _ _ = true |- _ => apply decodes_to_spec in Hd; destruct Hd as (? & ? & ?)
         | He : Ascii.eqb _ _ = true |- _ => apply Ascii.eqb_eq in He
         | He : N.eqb _ _ = true |- _ => apply N.eqb_eq in He
         end.
  repeat split; assumption.
Qed.

Lemma tail_sextet1 (x : ascii) :
  N.shiftl (N.land (N_of_ascii x) 3) 4 = sextet1 x zero.
Proof. unfold sextet1. cbn [N_of_ascii zero]. symmetry. apply N.lor_0_r. Qed.

Lemma tail_sextet2 (y : ascii) :
  N.shiftl (N.land (N_of_ascii y) 15) 2 = sextet2 y zero.
Proof. unfold sextet2. cbn [N_of_ascii zero]. symmetry. apply N.lor_0_r. Qed.

(** One character of the alphabet read by the decoder, for each
    position in the quad. *)
Lemma a2b_loop_sextet strict c v rest quad_pos leftchar pads :
  a2b c = Some v ->
  is_pad c = false ->
  a2b_loop strict (String c rest) quad_pos leftchar pads false =
    match quad_pos with
    | O => a2b_loop strict rest 1 v 0 false
    | 1%nat => emit (N.lor (N.shiftl leftchar 2) (N.shiftr v 4))
                    (a2b_loop strict rest 2 (N.land v 15) 0 false)
    | 2%nat => emit (N.lor (N.shiftl leftchar 4) (N.shiftr v 2))
                    (a2b_loop strict rest 3 (N.land v 3) 0 false)
    | _ => emit (N.lor (N.shiftl leftchar 6) v) (a2b_loop strict rest 0 0 0 false)
    end.
Proof.
  intros Hv Hp. cbn [a2b_loop]. rewrite Hp, Hv, andb_false_r. reflexivity.
Qed.

Lemma a2b_loop_two_pads strict leftchar :
  a2b_loop strict "==" 2 leftchar 0 false = Ok "".
Proof. destruct strict; reflexivity. Qed.

Lemma a2b_loop_one_pad strict leftchar :
  a2b_loop strict "=" 3 leftchar 0 false = Ok "".
Proof. destruct strict; reflexivity. Qed.

(** Decoding undoes encoding, in both modes of the decoder. *)
Lemma a2b_loop_b64encode (strict : bool) (data : string) :
  forall leftchar, a2b_loop strict (b64encode data) 0 leftchar 0 false = Ok data.
Proof.
  induction data as [|x|x y|x y z rest IH] using triples_ind; intros leftchar.
  - reflexivity.
  - cbn [b64encode]. rewrite tail_sextet1.
    destruct (sextet_facts x zero) as ((A0 & A1 & _) & (P0 & P1 & _) & _ & B1 & _).
    rewrite (a2b_loop_sextet _ _ _ _ _ _ _ A0 P0), (a2b_loop_sextet _ _ _ _ _ _ _ A1 P1).
    rewrite a2b_loop_two_pads. cbn [emit]. rewrite B1. reflexivity.
  - cbn [b64encode]. rewrite tail_sextet2.
    destruct (sextet_facts x y) as ((A0 & A1 & _) & (P0 & P1 & _) & _ & B1 & L1 & _).
    destruct (sextet_facts y zero) as ((_ & _ & A2 & _) & (_ & _ & P2 & _) & _ & _ & _ & B2 & _).
    rewrite (a2b_loop_sextet _ _ _ _ _ _ _ A0 P0), (a2b_loop_sextet _ _ _ _ _ _ _ A1 P1),
            (a2b_loop_sextet _ _ _ _ _ _ _ A2 P2).
    rewrite a2b_loop_one_pad. cbn [emit]. rewrite B1, L1, B2. reflexivity.
  - cbn [b64encode].
    destruct (sextet_facts x y) as ((A0 & A1 & _) & (P0 & P1 & _) & _ & B1 & L1 & _).
    destruct (sextet_facts y z)
      as ((_ & _ & A2 & _) & (_ & _ & P2 & _) & _ & _ & _ & B2 & L2 & _).
    destruct (sextet_facts z zero)
      as ((_ & _ & _ & A3) & (_ & _ & _ & P3) & _ & _ & _ & _ & _ & B3).
    rewrite (a2b_loop_sextet _ _ _ _ _ _ _ A0 P0), (a2b_loop_sextet _ _ _ _ _ _ _ A1 P1),
            (a2b_loop_sextet _ _ _ _ _ _ _ A2 P2), (a2b_loop_sextet _ _ _ _ _ _ _ A3 P3).
    rewrite IH. cbn [emit]. rewrite B1, L1, B2, L2, B3. reflexivity.
Qed.

(** The encoding is made of characters of the alphabet and ends in the
    padding that the length asks for. *)
Lemma b64encode_shape (data : string) :
  exists digits,
    b64encode data = digits ++ padding (String.length data)
    /\ all_chars is_b64 digits = true
    /\ (String.length digits + String.length (padding (String.length data))
        = 4 * ((String.length data + 2) / 3))%nat.
Proof.
  induction data as [|x|x y|x y z rest IH] using triples_ind.
  - exists "". repeat split.
  - cbn [b64encode]. rewrite tail_sextet1.
    destruct (sextet_facts x zero) as (_ & _ & (D0 & D1 & _) & _).
    exists (String (b2a (sextet0 x)) (String (b2a (sextet1 x zero)) "")).
    cbn [all_chars]. rewrite D0, D1. repeat split.
  - cbn [b64encode]. rewrite tail_sextet2.
    destruct (sextet_facts x y) as (_ & _ & (D0 & D1 & _) & _).
    destruct (sextet_facts y zero) as (_ & _ & (_ & _ & D2 & _) & _).
    exists (String (b2a (sextet0 x)) (String (b2a (sextet1 x y))
              (String (b2a (sextet2 y zero)) ""))).
    cbn [all_chars]. rewrite D0, D1, D2. repeat split.
  - destruct IH as (digits & Henc & Hall & Hlen).
    destruct (sextet_facts x y) as (_ & _ & (D0 & D1 & _) & _).
    destruct (sextet_facts y z) as (_ & _ & (_ & _ & D2 & _) & _).
    destruct (sextet_facts z zero) as (_ & _ & (_ & _ & _ & D3) & _).
    exists (String (b2a (sextet0 x)) (String (b2a (sextet1 x y))
              (String (b2a (sextet2 y z)) (String (b2a (sextet3 z)) digits)))).
    assert (Hpad : padding (String.length (String x (String y (String z rest))))
                   = padding (String.length rest)).
    { unfold padding. cbn [String.length].
      replace (S (S (S (String.length rest)))) with (String.length rest + 1 * 3)%nat by lia.
      rewrite Nat.Div0.mod_add. reflexivity. }
    rewrite Hpad. cbn [b64encode]. rewrite Henc. cbn [all_chars].
    rewrite D0, D1, D2, D3, Hall. repeat split.
    cbn [String.length].
    replace (S (S (S (String.length rest))) + 2)%nat
      with (String.length rest + 2 + 1 * 3)%nat by lia.
    rewrite Nat.div_add by lia. lia.
Qed.

Lemma padding_cases (n : nat) :
  padding n = "" \/ padding n = "=" \/ padding n = "==".
Proof.
  unfold padding. destruct (n mod 3)%nat as [|[|k]]; auto.
Qed.

End Base64Facts.

(** ** Regular expressions: a greedy repetition over a run *)

Lemma get_last (d : ascii) (s : string) :
  exists e, String.get (String.length s) (String d s) = Some e.
Proof.
  revert d. induction s as [|c s IH]; intros d; [exists d; reflexivity|].
  cbn [String.length String.get]. apply IH.
Qed.

Lemma last_char_cons (prev : option ascii) (c : ascii) (s : string) :
  Re.last_char prev (String c s) = Re.last_char (Some c) s.
Proof.
  unfold Re.last_char.
  replace (String.length (String c s) - 1)%nat with (String.length s)
    by (cbn [String.length]; lia).
  destruct s as [|d s]; [reflexivity|].
  replace (String.length (String d s) - 1)%nat with (String.length s)
    by (cbn [String.length]; lia).
  change (String.get (String.length (String d s)) (String c (String d s)))
    with (String.get (String.length s) (String d s)).
  destruct (get_last d s) as [e ->]. reflexivity.
Qed.

(** A greedy repetition in front of a run of characters of its class
    that ends where the class ends: when the rest of the pattern matches
    after the whole run, that is the match found. *)
Lemma rep_match_greedy_run {A : Type} (p : ascii -> bool) (run : string) :
  forall (lo : nat) (hi : option nat) (prev : option ascii) (rest : string)
         (cap : option string) (k : @Re.cont A) (x : A),
    Base64.all_chars p run = true ->
    (lo <= String.length run)%nat ->
    match hi with Some h => (String.length run <= h)%nat | None => True end ->
    match rest with String c _ => p c = false | EmptyString => True end ->
    k (Re.last_char prev run) rest cap = Some x ->
    Re.rep_match true p lo hi prev (run ++ rest) cap k = Some x.
Proof.
  induction run as [|c run IH]; intros lo hi prev rest cap k x Hall Hlo Hhi Hrest Hk.
  - cbn [String.length] in Hlo. assert (lo = O) by lia. subst lo.
    cbn [String.append]. change (Re.last_char prev "") with prev in Hk.
    destruct rest as [|d rest]; cbn [Re.rep_match].
    + exact Hk.
    + rewrite Hrest. exact Hk.
  - cbn [Base64.all_chars] in Hall. apply andb_prop in Hall as [Hc Hall].
    rewrite last_char_cons in Hk. cbn [String.length] in Hlo.
    cbn [String.append Re.rep_match]. rewrite Hc.
    destruct hi as [[|h]|]; cbn [String.length] in Hhi; [lia| |].
    + rewrite (IH (pred lo) (Some h) (Some c) rest cap k x Hall ltac:(lia)
                 ltac:(cbn; lia) Hrest Hk).
      destruct lo; reflexivity.
    + rewrite (IH (pred lo) None (Some c) rest cap k x Hall ltac:(lia) I Hrest Hk).
      destruct lo; reflexivity.
Qed.

(** ** The payload tests of the parser *)

Section PayloadFacts.
Import Base64 Parser.

Lemma padding_is_pad (n : nat) : all_chars is_pad (padding n) = true.
Proof. destruct (padding_cases n) as [-> | [-> | ->]]; reflexivity. Qed.

Lemma padding_length (n : nat) : (String.length (padding n) <= 2)%nat.
Proof. destruct (padding_cases n) as [-> | [-> | ->]]; cbn; lia. Qed.

Lemma padding_head (n : nat) :
  match padding n with String c _ => is_b64 c = false | EmptyString => True end.
Proof. destruct (padding_cases n) as [-> | [-> | ->]]; cbn; auto. Qed.

Lemma b64encode_length (data : string) :
  String.length (b64encode data) = (4 * ((String.length data + 2) / 3))%nat.
Proof.
  destruct (b64encode_shape data) as (digits & -> & _ & Hlen).
  rewrite length_append. exact Hlen.
Qed.

Lemma b64encode_ascii (data : string) : all_chars is_ascii (b64encode data) = true.
Proof.
  destruct (b64encode_shape data) as (digits & -> & Hall & _).
  rewrite all_chars_append. apply andb_true_intro. split.
  - revert Hall. apply all_chars_weaken. intros c Hc.
    pose proof (forall_ascii (fun c => implb (is_b64 c) (is_ascii c)) eq_refl c) as H.
    cbn beta in H. rewrite Hc in H. exact H.
  - destruct (padding_cases (String.length data)) as [-> | [-> | ->]]; reflexivity.
Qed.

Lemma b64encode_head (x : ascii) (data : string) :
  exists tail, b64encode (String x data) = String (b2a (sextet0 x)) tail.
Proof. destruct data as [|y [|z rest]]; cbn [b64encode]; eauto. Qed.

Lemma b64decode_b64encode (validate : bool) (data : string) :
  b64decode (b64encode data) validate = Ok data.
Proof.
  unfold b64decode. rewrite b64encode_ascii. unfold a2b_base64.
  destruct data as [|x data]; [reflexivity|].
  destruct (b64encode_head x data) as [tail Htail].
  rewrite <- (a2b_loop_b64encode validate (String x data) 0). rewrite Htail.
  destruct (sextet_facts x zero) as (_ & (P0 & _) & _). rewrite P0, andb_false_r.
  reflexivity.
Qed.

Lemma base64_shape_b64encode (data : string) :
  exists found, Re.re_match base64_shape (b64encode data) = Some found.
Proof.
  destruct (b64encode_shape data) as (digits & Henc & Hall & _).
  unfold Re.re_match, Re.match_here.
  set (k0 := fun (_ : option ascii) (s' : string) (cap : option string) =>
               Some (Re.Found (PyStr.consumed (b64encode data) s') cap s')).
  unfold base64_shape. cbn [Re.seqs Re.run Re.star]. rewrite Henc. eexists.
  apply rep_match_greedy_run; [exact Hall | lia | exact I | apply padding_head |].
  rewrite <- (append_empty_r (padding (String.length data))).
  apply rep_match_greedy_run;
    [apply padding_is_pad | lia | apply padding_length | exact I | reflexivity].
Qed.

(** The encoding of thirteen bytes or more passes [_is_base64]. *)
Lemma is_base64_b64encode (data : string) :
  (13 <= String.length data)%nat -> _is_base64 (b64encode data) = true.
Proof.
  intros Hlen. unfold _is_base64.
  assert (H20 : (20 <= String.length (b64encode data))%nat).
  { rewrite b64encode_length.
    assert (5 <= (String.length data + 2) / 3)%nat; [|lia].
    apply Nat.div_le_lower_bound; lia. }
  replace (String.eqb (b64encode data) "") with false.
  2: { symmetry. apply String.eqb_neq. intros E. rewrite E in H20. cbn in H20. lia. }
  replace (String.length (b64encode data) <? 20)%nat with false
    by (symmetry; apply Nat.ltb_ge; exact H20).
  cbn [orb]. destruct (base64_shape_b64encode data) as [found ->].
  rewrite b64decode_b64encode. apply Nat.ltb_lt. lia.
Qed.

(** Decoding the encoding of a UTF-8 text gives the text. *)
Lemma decode_base64_b64encode (text : string) :
  Utf8.valid text = true -> _decode_base64 (b64encode text) = Ok text.
Proof.
  intros Hvalid. unfold _decode_base64. rewrite b64decode_b64encode.
  unfold Utf8.decode. rewrite Hvalid. reflexivity.
Qed.

End PayloadFacts.

Section Discovery.
Import Base64 Parser.

Lemma b64encode_no_space (data : string) :
  all_chars (fun c => negb (PyStr.is_space c)) (b64encode data) = true.
Proof.
  destruct (b64encode_shape data) as (digits & -> & Hall & _).
  rewrite all_chars_append. apply andb_true_intro. split.
  - revert Hall. apply all_chars_weaken. intros c Hc.
    pose proof (forall_ascii (fun c => implb (is_b64 c) (negb (PyStr.is_space c)))
                  eq_refl c) as H.
    cbn beta in H. rewrite Hc in H. exact H.
  - destruct (padding_cases (String.length data)) as [-> | [-> | ->]]; reflexivity.
Qed.

Lemma strip_b64encode (data : string) : PyStr.strip (b64encode data) = b64encode data.
Proof. apply strip_by_none, b64encode_no_space. Qed.

(** The group of the two payload patterns, [[A-Za-z0-9+/]{lo,}={0,2}],
    in front of an encoding that is followed by a character that is
    neither of the alphabet nor the padding sign: the group takes the
    whole encoding. *)
Lemma run_payload_group {A : Type} (lo : nat) (data : string) (prev : option ascii)
    (rest : string) (cap : option string) (k : @Re.cont A) (x : A) :
  (lo + String.length (padding (String.length data))
   <= String.length (b64encode data))%nat ->
  match rest with
  | String c _ => is_b64 c = false /\ is_pad c = false
  | EmptyString => True
  end ->
  k (Re.last_char prev (b64encode data)) rest (Some (b64encode data)) = Some x ->
  Re.run (Re.Group (Re.Seq (Re.Rep true is_b64 lo None)
                           (Re.Rep true is_pad 0 (Some 2%nat))))
         prev (b64encode data ++ rest) cap k = Some x.
Proof.
  intros Hlo Hrest Hk. cbn [Re.run].
  destruct (b64encode_shape data) as (digits & Henc & Hall & Hlen).
  rewrite Henc in *. rewrite length_append in Hlo.
  set (pads := padding (String.length data)) in *.
  rewrite append_assoc.
  apply rep_match_greedy_run; [exact Hall | lia | exact I | |].
  - destruct (padding_cases (String.length data)) as [E | [E | E]]; fold pads in E;
      rewrite E; cbn; [destruct rest; tauto | reflexivity | reflexivity].
  - apply rep_match_greedy_run.
    + apply padding_is_pad.
    + lia.
    + apply padding_length.
    + destruct rest; tauto.
    + rewrite <- append_assoc, consumed_append.
      replace (Re.last_char (Re.last_char prev digits) pads)
        with (Re.last_char prev (digits ++ pads)); [exact Hk|].
      clear. revert prev. induction digits as [|c digits IH]; intros prev.
      * reflexivity.
      * cbn [String.append]. rewrite !last_char_cons. apply IH.
Qed.

Lemma decoded_in_tag_text (tag text : string) :
  In tag ["pre"; "code"; "div"; "span"] ->
  Utf8.valid text = true ->
  (13 <= String.length text)%nat ->
  decoded_instructions (in_tag_text tag (b64encode text)) = Ok text.
Proof.
  intros Htag Hvalid Hlen.
  assert (Hextract : _extract_base64_content (in_tag_text tag (b64encode text))
                     = Ok (b64encode text)).
  { unfold _extract_base64_content, in_tag_text, Html.page_of. cbn [Html.soup].
    cbn [In] in Htag.
    destruct Htag as [<- | [<- | [<- | [<- | []]]]];
      cbn [Html.find_all flat_map Html.elements_in Html.is_container existsb
           String.eqb Ascii.eqb Bool.eqb orb app filter snd fst in_names Html.tag_name
           first_base64 Html.get_text Html.strings_in map Html.option_string_eqb
           String.concat];
      rewrite strip_b64encode, (is_base64_b64encode text Hlen); reflexivity. }
  unfold decoded_instructions. rewrite Hextract.
  apply decode_base64_b64encode, Hvalid.
Qed.

Lemma decoded_in_data_attribute (text : string) :
  Utf8.valid text = true ->
  (13 <= String.length text)%nat ->
  decoded_instructions (in_data_attribute (b64encode text)) = Ok text.
Proof.
  intros Hvalid Hlen.
  assert (Hextract : _extract_base64_content (in_data_attribute (b64encode text))
                     = Ok (b64encode text)).
  { unfold _extract_base64_content, in_data_attribute, Html.page_of. cbn [Html.soup].
    cbn [Html.find_all flat_map Html.elements_in Html.is_container existsb
         String.eqb Ascii.eqb Bool.eqb orb app filter snd fst in_names Html.tag_name
         first_base64 has_attr Html.get_attr Html.lookup_attr].
    rewrite (is_base64_b64encode text Hlen). reflexivity. }
  unfold decoded_instructions. rewrite Hextract.
  apply decode_base64_b64encode, Hvalid.
Qed.

Lemma digits_bound (n lo : nat) :
  (lo + 2 <= 4 * ((n + 2) / 3))%nat \/ (n mod 3 = 0 /\ lo <= 4 * ((n + 2) / 3))%nat ->
  (lo + String.length (padding n) <= 4 * ((n + 2) / 3))%nat.
Proof.
  intros [H | [Hm H]].
  - pose proof (padding_length n) as Hp. revert Hp H. generalize (String.length (padding n)). generalize ((n+2)/3)%nat. intros. lia.
  - unfold padding. rewrite Hm. cbn [String.length]. lia.
Qed.

Lemma script_search (text : string) :
  (15 <= String.length text)%nat ->
  Re.re_search script_pattern
    ("var task = " ++ Html.dquote ++ b64encode text ++ Html.dquote ++ ";")
  = Some (Re.Found (Html.dquote ++ b64encode text ++ Html.dquote) (Some (b64encode text)) ";").
Proof.
  intros Hlen. unfold Re.re_search, script_pattern. cbn [Re.seqs].
  set (g := Re.Group _).
  cbn [String.append Html.dquote Re.search_from Re.match_here Re.run
       is_quote Ascii.eqb Bool.eqb orb andb].
  subst g.
  erewrite run_payload_group; [reflexivity | | cbn; auto |].
  - rewrite b64encode_length. apply digits_bound.
    destruct (Nat.eq_dec (String.length text) 15) as [E|E].
    + right. rewrite E. split; reflexivity.
    + left. assert (6 <= (String.length text + 2) / 3)%nat; [|lia].
      apply Nat.div_le_lower_bound; lia.
  - cbn [Re.run is_quote Ascii.eqb Bool.eqb orb andb]. f_equal. f_equal.
    replace (String "034" (b64encode text ++ String "034" ";"))
      with (String "034" (b64encode text ++ Html.dquote) ++ ";").
    + apply consumed_append.
    + cbn [String.append]. rewrite append_assoc. reflexivity.
Qed.


Lemma search_from_unfold (r : Re.regex) (prev : option ascii) (s : string) :
  Re.search_from r prev s =
    match Re.match_here r prev s with
    | Some f => Some f
    | None =>
        match s with
        | String c t => Re.search_from r (Some c) t
        | EmptyString => None
        end
    end.
Proof. destruct s; reflexivity. Qed.

Lemma utf8_first_byte (x : ascii) (t : string) :
  Utf8.valid (String x t) = true -> PyStr.is_word (b2a (sextet0 x)) = true.
Proof.
  intros Hvalid.
  assert (Hx : (N_of_ascii x <? 248)%N = true).
  { cbn [Utf8.valid] in Hvalid.
    assert (Hr : Utf8.in_range 0 127 x || Utf8.in_range 194 223 x
                 || Utf8.in_range 224 239 x || Utf8.in_range 240 244 x = true).
    { destruct (Utf8.in_range 0 127 x); [reflexivity|].
      destruct t as [|b t1]; [discriminate|].
      destruct (Utf8.in_range 194 223 x); [reflexivity|].
      destruct t1 as [|c t2]; [discriminate|].
      destruct (Utf8.in_range 224 239 x); [reflexivity|].
      destruct t2 as [|d t3]; [discriminate|].
      destruct (Utf8.in_range 240 244 x); [reflexivity|discriminate]. }
    pose proof (forall_ascii
      (fun x => implb (Utf8.in_range 0 127 x || Utf8.in_range 194 223 x
                       || Utf8.in_range 224 239 x || Utf8.in_range 240 244 x)
                      (N_of_ascii x <? 248)%N) eq_refl x) as H.
    cbn beta in H. rewrite Hr in H. exact H. }
  pose proof (forall_ascii
    (fun x => implb (N_of_ascii x <? 248)%N (PyStr.is_word (b2a (sextet0 x)))) eq_refl x) as H.
  cbn beta in H. rewrite Hx in H. exact H.
Qed.

Lemma last_char_prev (prev : option ascii) (x : ascii) (s : string) :
  Re.last_char prev (String x s) = Re.last_char None (String x s).
Proof. rewrite !last_char_cons. reflexivity. Qed.

Lemma match_here_running (text : string) :
  Utf8.valid text = true ->
  (30 <= String.length text)%nat ->
  (String.length text mod 3 = 0)%nat ->
  ends_in_word (b64encode text) = true ->
  Re.match_here base64_pattern (Some ">"%char) (b64encode text ++ "</p>")
  = Some (Re.Found (b64encode text) (Some (b64encode text)) "</p>").
Proof.
  intros Hvalid Hlen Hmod Hend.
  destruct text as [|x t]; [cbn in Hlen; lia|].
  destruct (b64encode_head x t) as [tail Htail].
  unfold Re.match_here, base64_pattern. cbn [Re.seqs].
  set (g := Re.Group _). cbn [Re.run].
  replace (Re.at_word_boundary (Some ">"%char) (b64encode (String x t) ++ "</p>")) with true.
  2: { rewrite Htail. cbn [String.append]. unfold Re.at_word_boundary.
       rewrite (utf8_first_byte x t Hvalid). reflexivity. }
  subst g. erewrite run_payload_group; [reflexivity | | cbn; auto |].
  - rewrite b64encode_length. unfold padding. rewrite Hmod.
    change (String.length "") with O.
    assert (10 <= (String.length (String x t) + 2) / 3)%nat
      by (apply Nat.div_le_lower_bound; lia).
    lia.
  - cbn [Re.run]. unfold ends_in_word in Hend.
    rewrite Htail in Hend |- *. rewrite last_char_prev.
    destruct (Re.last_char None (String (b2a (sextet0 x)) tail)) as [c|]; [|discriminate].
    unfold Re.at_word_boundary. rewrite Hend. cbn [xorb].
    rewrite <- Htail. rewrite consumed_append. reflexivity.
Qed.

Lemma search_after_payload (c : ascii) :
  PyStr.is_word c = true -> Re.search_from base64_pattern (Some c) "</p>" = None.
Proof.
  intros Hc. unfold base64_pattern. cbn [Re.seqs Re.search_from Re.match_here Re.run].
  unfold Re.at_word_boundary at 1. rewrite Hc. reflexivity.
Qed.

Lemma running_search (text : string) :
  Utf8.valid text = true ->
  (30 <= String.length text)%nat ->
  (String.length text mod 3 = 0)%nat ->
  ends_in_word (b64encode text) = true ->
  Re.re_findall base64_pattern ("<p>" ++ b64encode text ++ "</p>") = [b64encode text].
Proof.
  intros Hvalid Hlen Hmod Hend.
  unfold Re.re_findall.
  assert (Hfirst : Re.search_from base64_pattern None ("<p>" ++ b64encode text ++ "</p>")
                   = Some (Re.Found (b64encode text) (Some (b64encode text)) "</p>")).
  { replace (Re.search_from base64_pattern None ("<p>" ++ b64encode text ++ "</p>"))
      with (Re.search_from base64_pattern (Some ">"%char) (b64encode text ++ "</p>"))
      by reflexivity.
    rewrite search_from_unfold, (match_here_running text Hvalid Hlen Hmod Hend).
    reflexivity. }
  cbn [Re.findall_from]. rewrite Hfirst. cbn [Re.matched Re.rest].
  destruct text as [|x t]; [cbn in Hlen; lia|].
  destruct (b64encode_head x t) as [tail Htail].
  unfold ends_in_word in Hend. rewrite Htail in *.
  destruct (Re.last_char None (String (b2a (sextet0 x)) tail)) as [c|]; [|discriminate].
  cbn [String.length String.append Re.findall_from].
  rewrite (search_after_payload c Hend). reflexivity.
Qed.

Lemma decoded_in_script_literal (text : string) :
  Utf8.valid text = true ->
  (15 <= String.length text)%nat ->
  decoded_instructions (in_script_literal (b64encode text)) = Ok text.
Proof.
  intros Hvalid Hlen.
  assert (Hextract : _extract_base64_content (in_script_literal (b64encode text))
                     = Ok (b64encode text)).
  { unfold _extract_base64_content, in_script_literal, Html.page_of. cbn [Html.soup].
    cbn [Html.find_all flat_map Html.elements_in Html.is_container existsb
         String.eqb Ascii.eqb Bool.eqb orb app filter snd fst in_names Html.tag_name
         first_base64 has_attr Html.get_attr Html.lookup_attr Html.get_text
         Html.strings_in map Html.option_string_eqb String.concat].
    rewrite (script_search text Hlen). cbn [Re.group1].
    rewrite (is_base64_b64encode text ltac:(lia)). reflexivity. }
  unfold decoded_instructions. rewrite Hextract.
  apply decode_base64_b64encode, Hvalid.
Qed.

Lemma decoded_in_running_text (text : string) :
  Utf8.valid text = true ->
  (30 <= String.length text)%nat ->
  (String.length text mod 3 = 0)%nat ->
  ends_in_word (b64encode text) = true ->
  decoded_instructions (in_running_text (b64encode text)) = Ok text.
Proof.
  intros Hvalid Hlen Hmod Hend.
  assert (Hextract : _extract_base64_content (in_running_text (b64encode text))
                     = Ok (b64encode text)).
  { unfold _extract_base64_content, in_running_text, Html.page_of.
    cbn [Html.soup Html.html].
    cbn [Html.find_all flat_map Html.elements_in Html.is_container existsb
         String.eqb Ascii.eqb Bool.eqb orb app filter snd fst in_names Html.tag_name
         first_base64 has_attr Html.get_attr Html.lookup_attr
         map Html.render Html.render_attr String.concat].
    replace ("<" ++ "p" ++ "" ++ ">" ++ b64encode text ++ "</" ++ "p" ++ ">")
      with ("<p>" ++ b64encode text ++ "</p>") by reflexivity.
    rewrite (running_search text Hvalid Hlen Hmod Hend). cbn [first_base64].
    rewrite (is_base64_b64encode text ltac:(lia)). reflexivity. }
  unfold decoded_instructions. rewrite Hextract.
  apply decode_base64_b64encode, Hvalid.
Qed.

End Discovery.

(** ** The task parser *)

(** C6 (amended). For an instruction text that is UTF-8, with lengths
    counted in bytes: from 13 bytes on, the text is recovered from the text
    of a [pre], [code], [div] or [span] and from the [data-task] attribute;
    from 15 bytes on, from a quoted literal in a script; and from the
    running text when it has 30 bytes or more, a length divisible by three
    (no padding) and an encoding that ends in a letter or digit. *)
Theorem instructions_round_trip (text : string) :
  Utf8.valid text = true ->
  ((13 <= String.length text)%nat ->
     (forall tag, In tag ["pre"; "code"; "div"; "span"] ->
        Parser.decoded_instructions (Parser.in_tag_text tag (Base64.b64encode text))
        = Ok text)
     /\ Parser.decoded_instructions (Parser.in_data_attribute (Base64.b64encode text))
        = Ok text)
  /\ ((15 <= String.length text)%nat ->
      Parser.decoded_instructions (Parser.in_script_literal (Base64.b64encode text))
      = Ok text)
  /\ ((30 <= String.length text)%nat ->
      (String.length text mod 3 = 0)%nat ->
      Parser.ends_in_word (Base64.b64encode text) = true ->
      Parser.decoded_instructions (Parser.in_running_text (Base64.b64encode text))
      = Ok text).
Proof.
  intros Hvalid. split; [|split].
  - intros Hlen. split.
    + intros tag Htag. apply decoded_in_tag_text; assumption.
    + apply decoded_in_data_attribute; assumption.
  - intros Hlen. apply decoded_in_script_literal; assumption.
  - intros Hlen Hmod Hend. apply decoded_in_running_text; assumption.
Qed.

Lemma instructions_round_trip_witness :
  Utf8.valid "This text has exactly 30 bytes" = true
  /\ (30 <= String.length "This text has exactly 30 bytes")%nat
  /\ (String.length "This text has exactly 30 bytes" mod 3 = 0)%nat
  /\ Parser.ends_in_word (Base64.b64encode "This text has exactly 30 bytes") = true
  /\ Parser.decoded_instructions
       (Parser.in_tag_text "div" (Base64.b64encode "This text has exactly 30 bytes"))
     = Ok "This text has exactly 30 bytes"
  /\ Parser.decoded_instructions
       (Parser.in_script_literal (Base64.b64encode "This text has exactly 30 bytes"))
     = Ok "This text has exactly 30 bytes"
  /\ Parser.decoded_instructions
       (Parser.in_running_text (Base64.b64encode "This text has exactly 30 bytes"))
     = Ok "This text has exactly 30 bytes".
Proof.
  destruct (instructions_round_trip "This text has exactly 30 bytes" eq_refl)
    as (Htags & Hscript & Hrunning).
  split; [reflexivity|]. split; [cbn; lia|]. split; [reflexivity|].
  split; [reflexivity|]. split; [|split].
  - destruct (Htags ltac:(cbn; lia)) as [Htag _]. apply Htag. cbn. tauto.
  - apply Hscript. cbn. lia.
  - apply Hrunning; [cbn; lia | reflexivity | reflexivity].
Defined.

(** C6 as stated fails: a short text is not recovered from any position,
    and a text whose encoding is padded is not recovered from the running
    text. *)
Lemma instructions_round_trip_counterexample :
  Utf8.valid "hi" = true
  /\ Parser.decoded_instructions (Parser.in_tag_text "pre" (Base64.b64encode "hi"))
     = Raise (Parser.value_error "Could not find base64-encoded content in HTML")
  /\ Utf8.valid Parser.scenario_text = true
  /\ Parser.decoded_instructions
       (Parser.in_running_text (Base64.b64encode Parser.scenario_text))
     = Raise (Parser.value_error "Could not find base64-encoded content in HTML").
Proof. repeat split; vm_compute; reflexivity. Qed.

Section Scenario.
Import Parser.
Variable url_scheme : string -> outcome string.
Variable urljoin : string -> string -> string.
Variable HttpUrl : string -> outcome string.

Lemma scenario_urls :
  Re.re_findall url_pattern scenario_text = ["https://x/submit."; "https://x/data.csv"].
Proof. vm_compute. reflexivity. Qed.

Lemma scenario_submit_url (base_url : string) :
  _parse_submit_url url_scheme urljoin scenario_text base_url = Ok "https://x/submit".
Proof. unfold _parse_submit_url. rewrite scenario_urls. reflexivity. Qed.

Lemma scenario_answer_format : _detect_answer_format scenario_text = NUMBER.
Proof. vm_compute. reflexivity. Qed.

Lemma scenario_file_urls (base_url : string) :
  base_url = ""
  \/ (exists scheme, scheme <> "" /\ url_scheme "https://x/data.csv" = Ok scheme) ->
  _extract_file_urls url_scheme urljoin scenario_text base_url = Ok ["https://x/data.csv"].
Proof.
  intros Hbase. unfold _extract_file_urls. rewrite scenario_urls.
  assert (Hresolve : resolve url_scheme urljoin base_url "https://x/data.csv"
                     = Ok "https://x/data.csv").
  { unfold resolve. destruct Hbase as [-> | (scheme & Hne & Hscheme)]; [reflexivity|].
    destruct (String.eqb base_url ""); [reflexivity|].
    rewrite Hscheme. destruct scheme; [congruence | reflexivity]. }
  cbn [urls_with_extension].
  replace (Re.re_search file_extensions (_clean_url "https://x/submit.")) with (@None Re.found)
    by (vm_compute; reflexivity).
  replace (_clean_url "https://x/data.csv") with "https://x/data.csv"
    by (vm_compute; reflexivity).
  replace (Re.re_search file_extensions "https://x/data.csv")
    with (Some (Re.Found ".csv" (Some "csv") "")) by (vm_compute; reflexivity).
  rewrite Hresolve.
  replace (Re.re_findall download_pattern scenario_text) with ["https://x/data.csv"]
    by (vm_compute; reflexivity).
  reflexivity.
Qed.


End Scenario.


(** * Further properties *)

(** ** [with_retry]: recovery, budget and the empty range *)

Section RetryRuns.
Import ErrorHandling Recovery.
Context {T W : Type}.
Variable h : ErrorHandler.
Variable func : W -> outcome T * W.
Variable limit : Z.
Variable retry_on : option (list string).

Lemma loop_recovers (n : nat) :
  forall (left : nat) (attempt : Z) (last : option exn) (s : W) (v : T) (s_end : W),
    (n < left)%nat ->
    attempt + Z.of_nat n <= limit ->
    recovers_after func retry_on n s v s_end ->
    with_retry_loop h func limit retry_on left attempt last s
    = Run (Ok v) s_end (delays h attempt n) (S n).
Proof.
  induction n as [|n IH]; intros left attempt last s v s_end Hleft Hsum Hrec.
  - destruct left as [|left]; [lia|]. cbn in Hrec. cbn [with_retry_loop].
    rewrite Hrec. reflexivity.
  - destruct left as [|left]; [lia|].
    destruct Hrec as (e & s' & Hf & Hc & Hx & Hrec).
    rewrite (loop_retry h func limit retry_on left attempt last s s' e Hf Hx
               (is_retryable_retryable e _ Hc)) by lia.
    rewrite (IH left (attempt + 1) (Some e) s' v s_end) by (assumption || lia).
    rewrite delays_succ. reflexivity.
Qed.

(** Whatever the operation does, a loop whose last iteration is at the
    cap calls it at most once per iteration, sleeps once less than it
    calls, and never sleeps longer than the cap on the delay. *)
Lemma loop_budget (left : nat) :
  forall (attempt : Z) (last : option exn) (s : W),
    limit <= attempt + Z.of_nat left ->
    let r := with_retry_loop h func limit retry_on (S left) attempt last s in
    (1 <= calls r <= S left)%nat
    /\ S (List.length (sleeps r)) = calls r
    /\ Forall (fun d => (d <= max_delay h)%Q) (sleeps r).
Proof.
  induction left as [|left IH]; intros attempt last s Hsum r; subst r.
  - cbn [with_retry_loop]. destruct (func s) as [[v|e] s'].
    + cbn. repeat split; auto.
    + destruct (retry_on_excludes retry_on e); [cbn; repeat split; auto|].
      destruct (negb (is_retryable e (Some (classify_error e))));
        [cbn; repeat split; auto|].
      replace (attempt >=? limit) with true by (symmetry; apply Z.geb_le; lia).
      cbn. repeat split; auto.
  - change (with_retry_loop h func limit retry_on (S (S left)) attempt last s)
      with (called
              match func s with
              | (Ok v, s') => Run (Ok v) s' [] O
              | (Raise e, s') =>
                  if retry_on_excludes retry_on e then Run (Raise e) s' [] O
                  else if negb (is_retryable e (Some (classify_error e)))
                  then Run (Raise e) s' [] O
                  else if attempt >=? limit then Run (Raise e) s' [] O
                  else slept (calculate_delay h attempt)
                         (with_retry_loop h func limit retry_on (S left) (attempt + 1)
                            (Some e) s')
              end).
    destruct (func s) as [[v|e] s'].
    + cbn. repeat split; auto; lia.
    + destruct (retry_on_excludes retry_on e); [cbn; repeat split; auto; lia|].
      destruct (negb (is_retryable e (Some (classify_error e))));
        [cbn; repeat split; auto; lia|].
      destruct (attempt >=? limit); [cbn; repeat split; auto; lia|].
      destruct (IH (attempt + 1) (Some e) s' ltac:(lia)) as ([Hone Hmost] & Hlen & Hall).
      cbn [called slept calls sleeps List.length]. repeat split; try lia.
      constructor; [apply Q.le_min_r | exact Hall].
Qed.

End RetryRuns.

Lemma total_sleep_bound (cap : Q) (l : list Q) :
  Forall (fun d => (d <= cap)%Q) l ->
  (total_sleep l <= inject_Z (Z.of_nat (List.length l)) * cap)%Q.
Proof.
  induction 1 as [|d l Hd _ IH].
  - cbn. rewrite Qmult_0_l. apply Qle_refl.
  - cbn [total_sleep fold_right List.length]. fold (total_sleep l).
    rewrite Nat2Z.inj_succ. unfold Z.succ. rewrite inject_Z_plus.
    rewrite Qmult_plus_distr_l, Qmult_1_l, Qplus_comm.
    apply Qplus_le_compat; assumption.
Qed.



(** X2. Whatever the operation does, a call of [with_retry] with a
    non-negative attempt cap calls it at least once and at most
    [cap + 1] times, sleeps exactly once between two calls, never longer
    than [max_delay] at a time, and so at most [cap * max_delay] in all. *)
Theorem with_retry_budget {T W : Type} (h : ErrorHandling.ErrorHandler)
    (func : W -> outcome T * W) (max_retries_arg : option Z)
    (retry_on : option (list string)) (s : W) :
  let limit := ErrorHandling.effective_max_retries h max_retries_arg in
  let r := ErrorHandling.with_retry h func max_retries_arg retry_on s in
  0 <= limit ->
  (0 <= ErrorHandling.max_delay h)%Q ->
  (1 <= calls r <= Z.to_nat limit + 1)%nat
  /\ S (List.length (sleeps r)) = calls r
  /\ Forall (fun d => (d <= ErrorHandling.max_delay h)%Q) (sleeps r)
  /\ (total_sleep (sleeps r) <= inject_Z limit * ErrorHandling.max_delay h)%Q.
Proof.
  intros limit r Hlimit Hcap. subst r. unfold ErrorHandling.with_retry. fold limit.
  replace (Z.to_nat (limit + 1)) with (S (Z.to_nat limit)) by lia.
  destruct (loop_budget h func limit retry_on (Z.to_nat limit) 0 None s ltac:(lia))
    as ([Hone Hmost] & Hlen & Hall).
  split; [lia|]. split; [exact Hlen|]. split; [exact Hall|].
  eapply Qle_trans; [apply total_sleep_bound, Hall|].
  apply Qmult_le_compat_r; [|exact Hcap].
  rewrite <- Zle_Qle. lia.
Qed.

Lemma with_retry_budget_witness :
  0 <= ErrorHandling.effective_max_retries ErrorHandling.error_handler None
  /\ (0 <= ErrorHandling.max_delay ErrorHandling.error_handler)%Q
  /\ (total_sleep
        (sleeps (ErrorHandling.with_retry ErrorHandling.error_handler
                   (ErrorHandling.always_raise (NetworkError "Network error"))
                   None None tt))
      <= inject_Z 3 * 30)%Q.
Proof.
  split; [cbn; lia|]. split; [discriminate|].
  apply (with_retry_budget ErrorHandling.error_handler
           (ErrorHandling.always_raise (NetworkError "Network error")) None None tt);
    [cbn; lia | discriminate].
Defined.

(** X3. With a negative attempt cap the range of attempts is empty:
    [with_retry] never calls the operation and raises the [RuntimeError]
    of its last line. *)
Theorem with_retry_negative_cap {T W : Type} (h : ErrorHandling.ErrorHandler)
    (func : W -> outcome T * W) (max_retries_arg : option Z)
    (retry_on : option (list string)) (s : W) :
  ErrorHandling.effective_max_retries h max_retries_arg < 0 ->
  ErrorHandling.with_retry h func max_retries_arg retry_on s
  = Run (Raise (plain_error "RuntimeError" "Unexpected error in retry logic")) s [] 0.
Proof.
  intros Hneg. unfold ErrorHandling.with_retry.
  replace (Z.to_nat (ErrorHandling.effective_max_retries h max_retries_arg + 1))
    with O by lia.
  reflexivity.
Qed.

Lemma with_retry_negative_cap_witness :
  ErrorHandling.effective_max_retries ErrorHandling.error_handler (Some (-1)) < 0
  /\ ErrorHandling.with_retry ErrorHandling.error_handler (Recovery.flaky 0)
       (Some (-1)) None 0%nat
     = Run (Raise (plain_error "RuntimeError" "Unexpected error in retry logic")) 0%nat [] 0.
Proof.
  split; [cbn; lia|].
  apply (with_retry_negative_cap ErrorHandling.error_handler (Recovery.flaky 0)
           (Some (-1)) None 0%nat).
  cbn. lia.
Defined.



(** ** Answer submission: recovery, budget and the malformed payload *)

Section SubmissionRuns.
Import Submitter Resubmission.
Context {W : Type}.
Variable max_retries : Z.
Variable post : W -> post_result * W.

Lemma submit_recovers (n : nat) :
  forall (fuel : nat) (retry_count : Z) (w : W) (r : SubmitResponse) (w_end : W),
    (n < fuel)%nat ->
    retry_count + Z.of_nat n <= max_retries ->
    succeeds_after post n w r w_end ->
    submit_answer max_retries None post fuel retry_count w
    = Some (Run (Ok r) w_end (retry_delays retry_count n) (S n)).
Proof.
  induction n as [|n IH]; intros fuel retry_count w r w_end Hfuel Hsum Hrec.
  - destruct fuel as [|fuel]; [lia|]. destruct Hrec as (status & Hp & Hs).
    cbn [submit_answer]. rewrite Hp, Hs. reflexivity.
  - destruct fuel as [|fuel]; [lia|].
    destruct Hrec as (w' & Hfail & Hrec).
    assert (Hnext : then_retry max_retries post fuel retry_count w'
                    = Some (Run (Ok r) w_end (retry_delays retry_count (S n)) (S (S n)))).
    { unfold then_retry.
      rewrite (IH fuel (retry_count + 1) w' r w_end) by (assumption || lia).
      rewrite retry_delays_succ. reflexivity. }
    destruct Hfail as [(status & body & Hp & Hst) | (e & Hp & He)].
    + rewrite (submit_status_error _ _ _ _ _ _ _ _ Hp) by (apply is_success_error; lia).
      replace (status >=? 500) with true by (symmetry; apply Z.geb_le; lia).
      replace (retry_count <? max_retries) with true by (symmetry; apply Z.ltb_lt; lia).
      exact Hnext.
    + rewrite (submit_request_error _ _ _ _ _ _ _ Hp He).
      replace (retry_count <? max_retries) with true by (symmetry; apply Z.ltb_lt; lia).
      exact Hnext.
Qed.

Lemma retry_delay_range (retry_count : Z) :
  0 <= retry_count -> (2 <= retry_delay retry_count <= 10)%Q.
Proof.
  intros Hrc. unfold retry_delay. split; [|apply Q.le_min_r].
  apply Q.min_glb; [|discriminate].
  change 2%Q with (2 ^ 1)%Q at 1.
  apply Qpower_le_compat_l; [lia | discriminate].
Qed.

(** What a submission that returns has done, whatever the server did. *)
Lemma submit_budget (fuel : nat) :
  forall (retry_count : Z) (w : W) (r : run SubmitResponse W),
    0 <= retry_count <= max_retries ->
    submit_answer max_retries None post fuel retry_count w = Some r ->
    (1 <= calls r <= Z.to_nat (max_retries - retry_count) + 1)%nat
    /\ S (List.length (sleeps r)) = calls r
    /\ Forall (fun d => (2 <= d <= 10)%Q) (sleeps r).
Proof.
  induction fuel as [|fuel IH]; intros retry_count w r Hrc Hr; [discriminate|].
  assert (Hdone : forall (x : outcome SubmitResponse) (w' : W),
             Some (called (Run x w' [] O)) = Some r ->
             (1 <= calls r <= Z.to_nat (max_retries - retry_count) + 1)%nat
             /\ S (List.length (sleeps r)) = calls r
             /\ Forall (fun d => (2 <= d <= 10)%Q) (sleeps r)).
  { intros x w' [= <-]. cbn. repeat split; auto; lia. }
  assert (Hretry : forall w',
             retry_count < max_retries ->
             then_retry max_retries post fuel retry_count w' = Some r ->
             (1 <= calls r <= Z.to_nat (max_retries - retry_count) + 1)%nat
             /\ S (List.length (sleeps r)) = calls r
             /\ Forall (fun d => (2 <= d <= 10)%Q) (sleeps r)).
  { intros w' Hlt Hnext. unfold then_retry in Hnext.
    destruct (submit_answer max_retries None post fuel (retry_count + 1) w')
      as [r'|] eqn:Hr'; [|discriminate].
    destruct (IH (retry_count + 1) w' r' ltac:(lia) Hr') as ([Hone Hmost] & Hlen & Hall).
    injection Hnext as <-. cbn [called slept calls sleeps List.length].
    split; [lia|]. split; [lia|].
    constructor; [apply retry_delay_range; lia | exact Hall]. }
  cbn [submit_answer] in Hr.
  destruct (post w) as [[e|status body] w'].
  - destruct (isinstance e "httpx.RequestError").
    + destruct (retry_count <? max_retries) eqn:Hlt.
      * apply Z.ltb_lt in Hlt. apply (Hretry w' Hlt Hr).
      * apply (Hdone _ _ Hr).
    + destruct (isinstance e "pydantic.ValidationError"); apply (Hdone _ _ Hr).
  - destruct (is_success status).
    + destruct body as [resp|e]; [apply (Hdone _ _ Hr)|].
      destruct (isinstance e "httpx.RequestError").
      * destruct (retry_count <? max_retries) eqn:Hlt.
        -- apply Z.ltb_lt in Hlt. apply (Hretry w' Hlt Hr).
        -- apply (Hdone _ _ Hr).
      * destruct (isinstance e "pydantic.ValidationError"); apply (Hdone _ _ Hr).
    + destruct ((status >=? 500) && (retry_count <? max_retries)) eqn:Hc.
      * apply andb_prop in Hc as [_ Hlt]. apply Z.ltb_lt in Hlt.
        apply (Hretry w' Hlt Hr).
      * apply (Hdone _ _ Hr).
Qed.

End SubmissionRuns.



(** X6. Whatever the server does, a submission with a well-formed payload
    and a non-negative [max_retries] returns; it has sent at least one and
    at most [max_retries + 1] requests, slept exactly once between two
    requests, between 2 and 10 seconds each time, and so at most
    [10 * max_retries] seconds in all. *)
Theorem submit_answer_budget {W : Type} (max_retries : Z)
    (post : W -> Submitter.post_result * W) (w : W) :
  0 <= max_retries ->
  exists r,
    Submitter.submit_answer max_retries None post (S (Z.to_nat max_retries)) 0 w = Some r
    /\ (1 <= calls r <= Z.to_nat max_retries + 1)%nat
    /\ S (List.length (sleeps r)) = calls r
    /\ Forall (fun d => (2 <= d <= 10)%Q) (sleeps r)
    /\ (total_sleep (sleeps r) <= inject_Z max_retries * 10)%Q.
Proof.
  intros Hmax.
  destruct (submit_answer_returns max_retries post (S (Z.to_nat max_retries)) 0 w
              ltac:(lia) ltac:(lia)) as [r Hr].
  destruct (submit_budget max_retries post _ 0 w r ltac:(lia) Hr)
    as ([Hone Hmost] & Hlen & Hall).
  exists r. split; [exact Hr|]. rewrite Z.sub_0_r in Hmost.
  split; [lia|]. split; [exact Hlen|]. split; [exact Hall|].
  eapply Qle_trans.
  - apply total_sleep_bound. eapply Forall_impl; [|exact Hall].
    intros d [_ Hd]. exact Hd.
  - apply Qmult_le_compat_r; [|discriminate]. rewrite <- Zle_Qle. lia.
Qed.

Lemma submit_answer_budget_witness :
  0 <= 2
  /\ exists r,
       Submitter.submit_answer 2 None
         (Submitter.always_respond 502 (Raise Submitter.json_decode_error)) 3 0 tt = Some r
       /\ (total_sleep (sleeps r) <= inject_Z 2 * 10)%Q.
Proof.
  split; [lia|].
  destruct (submit_answer_budget 2
              (Submitter.always_respond 502 (Raise Submitter.json_decode_error)) tt
              ltac:(lia)) as (r & Hr & _ & _ & _ & Htotal).
  exists r. split; [exact Hr | exact Htotal].
Defined.



(** ** The completion call and the page rendering: what every run does *)

Lemma total_sleep_powers (a : Z) (n : nat) :
  0 <= a ->
  (total_sleep (map (fun k => LLMRetry.wait_time (a + Z.of_nat k)) (seq 0 n))
   == 2 ^ (a + Z.of_nat n) - 2 ^ a)%Q.
Proof.
  revert a. induction n as [|n IH]; intros a Ha.
  - cbn [seq map total_sleep fold_right]. rewrite Z.add_0_r. ring.
  - cbn [seq map total_sleep fold_right].
    rewrite <- seq_shift, map_map.
    rewrite (map_ext _ (fun k => LLMRetry.wait_time (a + 1 + Z.of_nat k)))
      by (intros k; f_equal; lia).
    fold (total_sleep (map (fun k => LLMRetry.wait_time (a + 1 + Z.of_nat k)) (seq 0 n))).
    rewrite (IH (a + 1)) by lia.
    unfold LLMRetry.wait_time. rewrite Z.add_0_r.
    replace (a + Z.of_nat (S n)) with (a + 1 + Z.of_nat n) by lia.
    rewrite (Qpower_plus' 2 a 1) by lia. rewrite Qpower_1_r. ring.
Qed.

Section ServiceRuns.
Import LLMRetry.
Context {Resp W : Type}.
Variable create : W -> outcome Resp * W.
Variable max_retries : Z.

Lemma call_llm_loop_budget (left : nat) :
  forall (attempt : Z) (w : W),
    attempt + Z.of_nat left = max_retries - 1 ->
    let r := call_llm_loop create max_retries (S left) attempt w in
    (1 <= calls r <= S left)%nat
    /\ sleeps r = map (fun k => wait_time (attempt + Z.of_nat k)) (seq 0 (pred (calls r)))
    /\ (result r = Ok None -> False).
Proof.
  induction left as [|left IH]; intros attempt w Hsum r; subst r.
  - cbn [call_llm_loop]. destruct (create w) as [[resp|e] w'].
    + cbn. repeat split; auto. discriminate.
    + replace (attempt <? max_retries - 1) with false
        by (symmetry; apply Z.ltb_ge; lia).
      destruct (isinstance e "openai.RateLimitError" || isinstance e "openai.APIError");
        cbn; repeat split; auto; discriminate.
  - change (call_llm_loop create max_retries (S (S left)) attempt w)
      with (called
              match create w with
              | (Ok response, w') => Run (Ok (Some response)) w' [] O
              | (Raise e, w') =>
                  if isinstance e "openai.RateLimitError" || isinstance e "openai.APIError"
                  then
                    if attempt <? max_retries - 1
                    then slept (wait_time attempt)
                           (call_llm_loop create max_retries (S left) (attempt + 1) w')
                    else Run (Raise e) w' [] O
                  else Run (Raise e) w' [] O
              end).
    destruct (create w) as [[resp|e] w'].
    + cbn. repeat split; auto; try lia. discriminate.
    + destruct (isinstance e "openai.RateLimitError" || isinstance e "openai.APIError");
        [|cbn; repeat split; auto; try lia; discriminate].
      destruct (attempt <? max_retries - 1);
        [|cbn; repeat split; auto; try lia; discriminate].
      destruct (IH (attempt + 1) w' ltac:(lia)) as ([Hone Hmost] & Hsleeps & Hres).
      cbn [called slept calls sleeps result pred]. split; [lia|]. split; [|exact Hres].
      rewrite Hsleeps.
      destruct (calls (call_llm_loop create max_retries (S left) (attempt + 1) w'))
        as [|c]; [lia|].
      cbn [pred seq map]. rewrite Z.add_0_r. f_equal.
      rewrite <- seq_shift, map_map. apply map_ext. intros k. f_equal. lia.
Qed.

End ServiceRuns.

(** X8. Whatever the completion service does, [_call_llm_with_retry]
    with [max_retries >= 1] calls it between 1 and [max_retries] times,
    returns a response or raises, and has slept [2^k] seconds after the
    failed call [k], which adds up to [2^(calls - 1) - 1] seconds.  With
    [max_retries <= 0] it returns [None] without calling the service. *)
Theorem call_llm_with_retry_runs {Resp W : Type} (create : W -> outcome Resp * W)
    (max_retries : Z) (w : W) :
  let r := LLMRetry._call_llm_with_retry create max_retries w in
  (1 <= max_retries ->
     (1 <= calls r <= Z.to_nat max_retries)%nat
     /\ result r <> Ok None
     /\ sleeps r = LLMRetry.wait_times (pred (calls r))
     /\ (total_sleep (sleeps r) == 2 ^ Z.of_nat (pred (calls r)) - 1)%Q)
  /\ (max_retries <= 0 -> r = Run (Ok None) w [] 0).
Proof.
  intros r. subst r. unfold LLMRetry._call_llm_with_retry. split.
  - intros Hmax.
    replace (Z.to_nat max_retries) with (S (Z.to_nat (max_retries - 1))) by lia.
    destruct (call_llm_loop_budget create max_retries (Z.to_nat (max_retries - 1)) 0 w
                ltac:(lia)) as (Hcalls & Hsleeps & Hres).
    split; [exact Hcalls|]. split; [exact Hres|].
    assert (Hw : sleeps (LLMRetry.call_llm_loop create max_retries
                           (S (Z.to_nat (max_retries - 1))) 0 w)
                 = map (fun k => LLMRetry.wait_time (0 + Z.of_nat k))
                       (seq 0 (pred (calls (LLMRetry.call_llm_loop create max_retries
                                              (S (Z.to_nat (max_retries - 1))) 0 w)))))
      by exact Hsleeps.
    split.
    + rewrite Hw. apply map_ext. intros k. reflexivity.
    + rewrite Hw, total_sleep_powers by lia. rewrite Z.add_0_l. reflexivity.
  - intros Hmax. replace (Z.to_nat max_retries) with O by lia. reflexivity.
Qed.

Lemma call_llm_with_retry_runs_witness :
  1 <= 3
  /\ LLMRetry._call_llm_with_retry (Outages.throttled 2) 3 0%nat
     = Run (Ok (Some "42")) 3%nat [LLMRetry.wait_time 0; LLMRetry.wait_time 1] 3
  /\ (total_sleep (sleeps (LLMRetry._call_llm_with_retry (Outages.throttled 2) 3 0%nat))
      == 2 ^ Z.of_nat 2 - 1)%Q
  /\ LLMRetry._call_llm_with_retry (Outages.throttled 2) 0 0%nat
     = Run (Ok None) 0%nat [] 0.
Proof.
  destruct (call_llm_with_retry_runs (Outages.throttled 2) 3 0%nat) as [Hruns _].
  destruct (call_llm_with_retry_runs (Outages.throttled 2) 0 0%nat) as [_ Hnone].
  destruct (Hruns ltac:(lia)) as (_ & _ & _ & Htotal).
  split; [lia|]. split; [reflexivity|]. split; [exact Htotal|].
  apply Hnone. lia.
Defined.

Section RenderingRuns.
Import Browser.
Context {W : Type}.
Variable render : string -> W -> outcome string * W.
Variable cleanup : W -> W.
Variable max_retries : Z.
Variable url : string.

Lemma fetch_loop_budget (left : nat) :
  forall (attempt : Z) (w : W),
    attempt + Z.of_nat left = max_retries - 1 ->
    let r := fetch_loop render cleanup max_retries url (S left) attempt w in
    (1 <= calls r <= S left)%nat
    /\ sleeps r = repeat 1%Q (pred (calls r))
    /\ (forall e, result r = Raise e ->
          e = TimeoutError ("Page load timeout for " ++ url)
          \/ exists cause,
               e = BrowserError ("Browser error while fetching " ++ url ++ ": " ++ cause)).
Proof.
  induction left as [|left IH]; intros attempt w Hsum r; subst r.
  - cbn [fetch_loop]. destruct (render url w) as [[html|e] w'].
    + cbn. repeat split; auto. discriminate.
    + replace (attempt =? max_retries - 1) with true by (symmetry; apply Z.eqb_eq; lia).
      destruct (isinstance e "playwright.async_api.TimeoutError"); cbn;
        repeat split; auto; intros e' [= <-]; eauto.
  - destruct (render url w) as [[html|e] w'] eqn:Hr.
    + cbn [fetch_loop]. rewrite Hr. cbn. repeat split; auto; try lia. discriminate.
    + rewrite (fetch_loop_failure _ _ _ _ _ _ _ _ _ Hr) by lia.
      destruct (IH (attempt + 1)
                  (if isinstance e "playwright.async_api.TimeoutError"
                   then w' else cleanup w') ltac:(lia))
        as ([Hone Hmost] & Hsleeps & Hres).
      cbn [called slept calls sleeps result pred]. split; [lia|]. split; [|exact Hres].
      rewrite Hsleeps.
      destruct (calls (fetch_loop render cleanup max_retries url (S left) (attempt + 1)
                         (if isinstance e "playwright.async_api.TimeoutError"
                          then w' else cleanup w'))) as [|c]; [lia|].
      reflexivity.
Qed.

End RenderingRuns.

(** X9. Whatever the browser does, [fetch_and_render] with
    [max_retries >= 1] makes between 1 and [max_retries] attempts, sleeps
    one second after every failed attempt but the last, and raises nothing
    but the timeout error for the page or a browser error that quotes the
    cause.  With [max_retries <= 0] it makes no attempt and raises a plain
    exception. *)
Theorem fetch_and_render_runs {W : Type} (render : string -> W -> outcome string * W)
    (cleanup : W -> W) (max_retries : Z) (url : string) (w : W) :
  let r := Browser.fetch_and_render render cleanup max_retries url w in
  (1 <= max_retries ->
     (1 <= calls r <= Z.to_nat max_retries)%nat
     /\ sleeps r = repeat 1%Q (pred (calls r))
     /\ (forall e, result r = Raise e ->
           (category e = Some TIMEOUT \/ category e = Some BROWSER)
           /\ isinstance e "src.error_handler.QuizSystemError" = true))
  /\ (max_retries <= 0 ->
      r = Run (Raise (plain_error "Exception" ("Failed to fetch page: " ++ url))) w [] 0).
Proof.
  intros r. subst r. unfold Browser.fetch_and_render. split.
  - intros Hmax.
    replace (Z.to_nat max_retries) with (S (Z.to_nat (max_retries - 1))) by lia.
    destruct (fetch_loop_budget render cleanup max_retries url
                (Z.to_nat (max_retries - 1)) 0 w ltac:(lia)) as (Hcalls & Hsleeps & Hres).
    split; [exact Hcalls|]. split; [exact Hsleeps|].
    intros e He. destruct (Hres e He) as [-> | [cause ->]]; cbn; auto.
  - intros Hmax. replace (Z.to_nat max_retries) with O by lia. reflexivity.
Qed.

Lemma fetch_and_render_runs_witness :
  1 <= 2
  /\ Browser.fetch_and_render Outages.never_loads (fun w => w) 2
       "https://example.com/quiz" 0%nat
     = Run (Raise (TimeoutError "Page load timeout for https://example.com/quiz"))
           2%nat [1%Q] 2
  /\ Browser.fetch_and_render Outages.never_loads (fun w => w) 0
       "https://example.com/quiz" 0%nat
     = Run (Raise (plain_error "Exception"
                     "Failed to fetch page: https://example.com/quiz")) 0%nat [] 0.
Proof.
  destruct (fetch_and_render_runs Outages.never_loads (fun w => w) 0
              "https://example.com/quiz" 0%nat) as [_ Hnone].
  destruct (fetch_and_render_runs Outages.never_loads (fun w => w) 2
              "https://example.com/quiz" 0%nat) as [Hruns _].
  destruct (Hruns ltac:(lia)) as (_ & _ & _).
  split; [lia|]. split; [reflexivity|].
  apply Hnone. lia.
Defined.

(** ** The quiz orchestrator: termination, results and errors *)

Lemma NoDup_snoc {A : Type} (l : list A) (x : A) :
  NoDup l -> ~ In x l -> NoDup (l ++ [x]).
Proof.
  induction 1 as [|y l Hy Hl IH]; intros Hx; cbn.
  - constructor; [intros []|constructor].
  - constructor.
    + rewrite in_app_iff. intros [Hin|[<-|[]]]; [exact (Hy Hin)|].
      apply Hx. left. reflexivity.
    + apply IH. intros Hin. apply Hx. right. exact Hin.
Qed.

Lemma QuizResult_new_inv (ok : bool) (time : Q) (solved : Z) (status : string)
    (err : option string) (r : QuizResult) :
  QuizResult_new ok time solved status err = Ok r ->
  r = {| success := ok; total_time := time; quizzes_solved := solved;
         final_status := status; error := err |}
  /\ (0 <= time)%Q /\ 0 <= solved.
Proof.
  unfold QuizResult_new. destruct (Qle_bool 0 time) eqn:Ht; [|discriminate].
  destruct (0 <=? solved) eqn:Hs; [|discriminate].
  intros [= <-]. split; [reflexivity|]. split.
  - apply Qle_bool_iff, Ht.
  - apply Z.leb_le, Hs.
Qed.

Section OrchestrationRuns.
Import Orchestrator Sequences.
Context {W : Type}.
Variable default_timeout : Z.
Variable max_retries_per_quiz : Z.
Variable clock : W -> Q.
Variable fetch_and_render : string -> W -> reply string * W.
Variable parse_quiz_page : string -> string -> outcome TaskDefinition.
Variable solve_task : TaskDefinition -> W -> reply value * W.
Variable submit_answer :
  string -> string -> string -> string -> value -> W -> reply SubmitResponse * W.
Variable sleep : Q -> W -> reply unit * W.
Variable cleanup : W -> W.
Variables email secret : string.

Local Abbreviation attempt :=
  (quiz_attempt max_retries_per_quiz solve_task submit_answer sleep email secret).
Local Abbreviation loop :=
  (quiz_loop max_retries_per_quiz solve_task submit_answer sleep email secret).
Local Abbreviation solve_single :=
  (_solve_single_quiz max_retries_per_quiz fetch_and_render parse_quiz_page solve_task
     submit_answer sleep email secret).
Local Abbreviation seq_loop :=
  (sequence_loop max_retries_per_quiz clock fetch_and_render parse_quiz_page solve_task
     submit_answer sleep email secret).
Local Abbreviation solve_sequence :=
  (solve_quiz_sequence default_timeout max_retries_per_quiz clock fetch_and_render
     parse_quiz_page solve_task submit_answer sleep cleanup email secret).

(** *** Termination over a finite set of addresses *)

Section FiniteAddresses.
Variable urls : list string.
Hypothesis next_in_urls :
  forall u remaining w next w',
    solve_single u remaining w = Some (Done (Some next), w') ->
    next = "" \/ In next urls.

Lemma sequence_loop_terminates (fuel : nat) :
  forall timeout start solved current visited w,
    NoDup visited ->
    incl visited urls ->
    (forall u, current = Some u -> u = "" \/ In u urls) ->
    (List.length urls - List.length visited < fuel)%nat ->
    exists ended w',
      seq_loop fuel timeout start solved current visited w = Some (ended, w')
      /\ solved <= solved_count ended
         <= solved + Z.of_nat (List.length urls - List.length visited).
Proof.
  induction fuel as [|fuel IH];
    intros timeout start solved current visited w Hnodup Hincl Hcur Hfuel; [lia|].
  cbn [sequence_loop].
  destruct current as [[|c u]|]; [| |]; try (eexists _, _; split; [reflexivity|cbn; lia]).
  destruct (existsb (String.eqb (String c u)) visited) eqn:Hseen;
    [eexists _, _; split; [reflexivity|cbn; lia]|].
  assert (Hnew : ~ In (String c u) visited).
  { intros Hin. assert (existsb (String.eqb (String c u)) visited = true); [|congruence].
    apply existsb_exists. exists (String c u). split; [exact Hin|apply String.eqb_refl]. }
  assert (Hnodup' : NoDup (visited ++ [String c u])%list)
    by (apply NoDup_snoc; assumption).
  assert (Hincl' : incl (visited ++ [String c u])%list urls).
  { apply incl_app; [exact Hincl|]. intros x [<-|[]].
    destruct (Hcur _ eq_refl) as [?|?]; [discriminate|assumption]. }
  pose proof (NoDup_incl_length Hnodup' Hincl') as Hlen.
  rewrite length_app in Hlen. cbn [List.length] in Hlen.
  destruct (solve_single_quiz_returns max_retries_per_quiz fetch_and_render
              parse_quiz_page solve_task submit_answer sleep email secret (String c u)
              (inject_Z timeout - (clock w - start))%Q w) as [[r w'] Hr].
  rewrite Hr. destruct r as [next|e|].
  - destruct (IH timeout start (solved + 1) next (visited ++ [String c u])%list w'
                Hnodup' Hincl') as (ended & w'' & Hrun & Hcount).
    + intros n ->. exact (next_in_urls _ _ _ _ _ Hr).
    + rewrite length_app. cbn [List.length]. lia.
    + exists ended, w''. split; [exact Hrun|].
      rewrite length_app in Hcount. cbn [List.length] in Hcount. lia.
  - destruct (isinstance e "TimeoutError"); eexists _, _; split; try reflexivity; cbn; lia.
  - eexists _, _. split; [reflexivity|cbn; lia].
Qed.

End FiniteAddresses.

(** How [solve_quiz_sequence] turns the end of its loop into a result. *)
Lemma solve_sequence_result fuel initial_url timeout w res w' :
  solve_sequence fuel initial_url timeout w = Some (res, w') ->
  exists ended w'',
    seq_loop fuel (effective_timeout default_timeout timeout) (clock w) 0
      (Some initial_url) [] w = Some (ended, w'')
    /\ w' = cleanup w''
    /\ forall r, res = Ok r ->
         quizzes_solved r = solved_count ended
         /\ 0 <= quizzes_solved r
         /\ (0 <= total_time r)%Q
         /\ ((success r = true /\ final_status r = "completed" /\ error r = None
              /\ exists n, ended = Finished n)
             \/ (success r = false /\ final_status r = "timeout"
                 /\ error r = Some ("Exceeded "
                                    ++ PyStr.str_of_int
                                         (effective_timeout default_timeout timeout)
                                    ++ " second time limit")
                 /\ exists n, ended = TimedOut n)
             \/ (success r = false /\ final_status r = "error"
                 /\ exists msg, error r = Some msg)).
Proof.
  unfold solve_quiz_sequence.
  destruct (seq_loop fuel (effective_timeout default_timeout timeout) (clock w) 0
              (Some initial_url) [] w) as [[ended w'']|]; [|discriminate].
  intros [= <- <-]. exists ended, w''. split; [reflexivity|]. split; [reflexivity|].
  intros r Hr. destruct ended as [n|n|n e]; cbn [solved_count].
  - destruct (QuizResult_new true (clock w'' - clock w) n "completed" None)
      as [r'|e'] eqn:Hnew.
    + injection Hr as ->. apply QuizResult_new_inv in Hnew as (-> & Ht & Hn).
      cbn. repeat split; auto. left. repeat split; eauto.
    + apply QuizResult_new_inv in Hr as (-> & Ht & Hn).
      cbn. repeat split; auto. right. right. repeat split; eauto.
  - apply QuizResult_new_inv in Hr as (-> & Ht & Hn).
    cbn. repeat split; auto. right. left. repeat split; eauto.
  - apply QuizResult_new_inv in Hr as (-> & Ht & Hn).
    cbn. repeat split; auto. right. right. repeat split; eauto.
Qed.

(** X10. When every next address that a quiz hands out belongs to a
    finite list of addresses, and so does the first one, the sequence
    ends: [solve_quiz_sequence] returns, and the count of quizzes solved
    in its result is at most the length of that list, since no address is
    visited twice. *)
Theorem quiz_sequence_terminates (urls : list string) (initial_url : string)
    (timeout : option Z) (w : W) :
  In initial_url urls ->
  (forall u remaining w0 next w1,
      solve_single u remaining w0 = Some (Done (Some next), w1) ->
      next = "" \/ In next urls) ->
  exists res w',
    solve_quiz_sequence default_timeout max_retries_per_quiz clock fetch_and_render
      parse_quiz_page solve_task submit_answer sleep cleanup email secret
      (S (List.length urls)) initial_url timeout w = Some (res, w')
    /\ forall r, res = Ok r -> 0 <= quizzes_solved r <= Z.of_nat (List.length urls).
Proof.
  intros Hfirst Hnext.
  destruct (sequence_loop_terminates urls Hnext (S (List.length urls))
              (effective_timeout default_timeout timeout) (clock w) 0
              (Some initial_url) [] w) as (ended & w'' & Hloop & Hcount).
  - constructor.
  - intros x [].
  - intros u [= <-]. right. exact Hfirst.
  - cbn [List.length]. lia.
  - destruct (solve_sequence (S (List.length urls)) initial_url timeout w)
      as [[res w']|] eqn:Hrun.
    + exists res, w'. split; [reflexivity|]. intros r Hr.
      destruct (solve_sequence_result _ _ _ _ _ _ Hrun)
        as (ended' & w3 & Hloop' & _ & Hres).
      rewrite Hloop in Hloop'. injection Hloop' as <- <-.
      destruct (Hres r Hr) as (Hsolved & Hpos & _).
      rewrite Hsolved. cbn [List.length] in Hcount. lia.
    + unfold solve_quiz_sequence in Hrun. rewrite Hloop in Hrun. discriminate.
Qed.

(** X11. An empty first address ends the sequence before any page is
    fetched: the result is a success with no quiz solved and the status
    "completed", and the only thing done to the world is the cleanup. *)
Theorem quiz_sequence_empty_url (timeout : option Z) (w : W) (fuel : nat) :
  solve_sequence (S fuel) "" timeout w
  = Some (Ok {| success := true; total_time := (clock w - clock w)%Q;
                quizzes_solved := 0; final_status := "completed"; error := None |},
          cleanup w).
Proof.
  unfold solve_quiz_sequence. cbn [sequence_loop]. unfold QuizResult_new.
  replace (Qle_bool 0 (clock w - clock w)) with true; [reflexivity|].
  symmetry. apply Qle_bool_iff. unfold Qminus. rewrite Qplus_opp_r. apply Qle_refl.
Qed.

(** X12. Every result that [solve_quiz_sequence] returns has one of the
    three statuses: "completed" exactly when it is a success, and then
    without an error text; "timeout" or "error" otherwise, and then with
    one.  Its count of quizzes and its time are not negative, and the
    browser has been cleaned up. *)
Theorem quiz_result_shape (fuel : nat) (initial_url : string) (timeout : option Z)
    (w w' : W) (r : QuizResult) :
  solve_sequence fuel initial_url timeout w = Some (Ok r, w') ->
  In (final_status r) ["completed"; "timeout"; "error"]
  /\ (success r = true <-> final_status r = "completed")
  /\ (success r = true <-> error r = None)
  /\ 0 <= quizzes_solved r
  /\ (0 <= total_time r)%Q
  /\ exists w'', w' = cleanup w''.
Proof.
  intros Hrun.
  destruct (solve_sequence_result _ _ _ _ _ _ Hrun) as (ended & w'' & _ & Hw & Hres).
  destruct (Hres r eq_refl) as (_ & Hsolved & Htime & Hshape).
  assert (Hrest : 0 <= quizzes_solved r /\ (0 <= total_time r)%Q
                  /\ exists w3, w' = cleanup w3) by eauto.
  destruct Hshape as [(Hs & Hf & He & _) | [(Hs & Hf & He & _) | (Hs & Hf & msg & He)]];
    rewrite Hs, Hf, He; cbn [In]; repeat split; eauto; try discriminate;
    try congruence.
Qed.

End OrchestrationRuns.

Lemma quiz_sequence_terminates_witness :
  In "https://example.com/quiz1" ["https://example.com/quiz1"; "https://example.com/quiz2"]
  /\ exists res w',
       Orchestrator.solve_quiz_sequence 180 2 Orchestrator.scripted_clock
         Orchestrator.scripted_fetch Orchestrator.scripted_parse
         Orchestrator.scripted_solve
         (Orchestrator.scripted_submit Orchestrator.looping_verdict)
         Orchestrator.scripted_sleep (fun w => w) "test@example.com" "secret123"
         3 "https://example.com/quiz1" None 0%nat = Some (res, w')
       /\ forall r, res = Ok r -> 0 <= quizzes_solved r <= Z.of_nat 2.
Proof.
  assert (Hfirst : In "https://example.com/quiz1"
                     ["https://example.com/quiz1"; "https://example.com/quiz2"])
    by (left; reflexivity).
  split; [exact Hfirst|].
  apply (quiz_sequence_terminates 180 2 Orchestrator.scripted_clock
           Orchestrator.scripted_fetch Orchestrator.scripted_parse
           Orchestrator.scripted_solve
           (Orchestrator.scripted_submit Orchestrator.looping_verdict)
           Orchestrator.scripted_sleep (fun w => w) "test@example.com" "secret123"
           ["https://example.com/quiz1"; "https://example.com/quiz2"]
           "https://example.com/quiz1" None 0%nat Hfirst).
  intros u remaining w0 next w1 Hsolve. right.
  unfold Orchestrator._solve_single_quiz, Orchestrator.scripted_fetch,
    Orchestrator.scripted_parse in Hsolve.
  cbn [Orchestrator.quiz_loop Z.to_nat Z.add Pos.to_nat Pos.iter_op Nat.add Z.leb
       Z.compare Pos.add Pos.succ] in Hsolve.
  unfold Orchestrator.quiz_attempt, Orchestrator.solve_step,
    Orchestrator.scripted_solve, Orchestrator.scripted_submit,
    Orchestrator.looping_verdict in Hsolve.
  destruct (decide (additional_context Orchestrator.example_task !! "is_demo" = Some true));
    destruct (String.eqb u "https://example.com/quiz1");
    cbn in Hsolve; injection Hsolve as <- _; cbn; auto.
Defined.

Lemma quiz_result_shape_witness :
  Orchestrator.solve_quiz_sequence 180 2 Orchestrator.scripted_clock
    Orchestrator.scripted_fetch Orchestrator.scripted_parse Orchestrator.scripted_solve
    (Orchestrator.scripted_submit Sequences.hopeless_verdict)
    Orchestrator.scripted_sleep (fun w => w) "test@example.com" "secret123"
    3 "https://example.com/quiz1" None 0%nat
  = Some (Ok {| success := false;
                total_time := (Orchestrator.scripted_clock 3 - Orchestrator.scripted_clock 0)%Q;
                quizzes_solved := 0;
                final_status := "error";
                error := Some ("Failed to solve quiz after 2 retries: "
                               ++ "Failed to solve quiz after 2 retries: Wrong answer") |},
          3%nat)
  /\ (false = true <-> "error" = "completed").
Proof.
  assert (Hrun :
    Orchestrator.solve_quiz_sequence 180 2 Orchestrator.scripted_clock
      Orchestrator.scripted_fetch Orchestrator.scripted_parse Orchestrator.scripted_solve
      (Orchestrator.scripted_submit Sequences.hopeless_verdict)
      Orchestrator.scripted_sleep (fun w => w) "test@example.com" "secret123"
      3 "https://example.com/quiz1" None 0%nat
    = Some (Ok {| success := false;
                  total_time :=
                    (Orchestrator.scripted_clock 3 - Orchestrator.scripted_clock 0)%Q;
                  quizzes_solved := 0;
                  final_status := "error";
                  error := Some ("Failed to solve quiz after 2 retries: "
                                 ++ "Failed to solve quiz after 2 retries: Wrong answer") |},
            3%nat)) by reflexivity.
  split; [exact Hrun|].
  apply (quiz_result_shape _ _ _ _ _ _ _ _ _ _ _ _ _ _ _ _ _ Hrun).
Defined.

(** *** What a single quiz can raise *)

Section QuizErrors.
Import Orchestrator.
Context {W : Type}.
Variable max_retries_per_quiz : Z.
Variable fetch_and_render : string -> W -> reply string * W.
Variable parse_quiz_page : string -> string -> outcome TaskDefinition.
Variable solve_task : TaskDefinition -> W -> reply value * W.
Variable submit_answer :
  string -> string -> string -> string -> value -> W -> reply SubmitResponse * W.
Variable sleep : Q -> W -> reply unit * W.
Variables email secret : string.

Local Abbreviation attempt :=
  (quiz_attempt max_retries_per_quiz solve_task submit_answer sleep email secret).
Local Abbreviation loop :=
  (quiz_loop max_retries_per_quiz solve_task submit_answer sleep email secret).
Local Abbreviation solve_single :=
  (_solve_single_quiz max_retries_per_quiz fetch_and_render parse_quiz_page solve_task
     submit_answer sleep email secret).
Local Abbreviation gave_up cause :=
  ("Failed to solve quiz after " ++ PyStr.str_of_int max_retries_per_quiz
   ++ " retries: " ++ cause).

(** [asyncio.sleep] returns or is cancelled; it does not raise. *)
Hypothesis sleep_never_raises : forall d w e w', sleep d w <> (Failed e, w').

Lemma on_error_throw quiz_url retry_count e w e' w' :
  on_error max_retries_per_quiz sleep quiz_url retry_count e w = (Throw e', w') ->
  e' = TaskExecutionError (gave_up (message e)).
Proof.
  unfold on_error. destruct (retry_count + 1 >? max_retries_per_quiz).
  - intros [= <- _]. reflexivity.
  - destruct (sleep 1 w) as [[[]|e''|] w''] eqn:Hs; try discriminate.
    exfalso. exact (sleep_never_raises _ _ _ _ Hs).
Qed.

Lemma quiz_attempt_throw task quiz_url remaining retry_count w e w' :
  attempt task quiz_url remaining retry_count w = (Throw e, w') ->
  exists msg, e = TaskExecutionError (gave_up msg).
Proof.
  unfold quiz_attempt. intros H.
  destruct (solve_step solve_task task w) as [[answer|e0|] w1];
    [|apply on_error_throw in H; eauto|discriminate].
  destruct (submit_answer _ _ _ _ _ w1) as [[resp|e0|] w2];
    [|apply on_error_throw in H; eauto|discriminate].
  destruct (correct resp); [discriminate|].
  assert (Hretry :
    (let retry_count0 := retry_count + 1 in
     if retry_count0 <=? max_retries_per_quiz
     then (Again retry_count0 (reason resp), w2)
     else on_error max_retries_per_quiz sleep quiz_url retry_count0
            (plain_error "Exception" (gave_up (str_of_optional (reason resp)))) w2)
    = (Throw e, w') -> exists msg, e = TaskExecutionError (gave_up msg)).
  { cbv zeta. destruct (retry_count + 1 <=? max_retries_per_quiz); [discriminate|].
    intros H'. apply on_error_throw in H'. eauto. }
  destruct (url resp) as [next|]; [|exact (Hretry H)].
  destruct (retry_count >=? max_retries_per_quiz); [discriminate|].
  destruct (_should_skip_to_next retry_count remaining); [discriminate|].
  exact (Hretry H).
Qed.

Lemma quiz_loop_failed (fuel : nat) :
  forall task quiz_url remaining retry_count last w e w',
    retry_count <= max_retries_per_quiz ->
    loop fuel task quiz_url remaining retry_count last w = Some (Failed e, w') ->
    exists msg, e = TaskExecutionError (gave_up msg).
Proof.
  induction fuel as [|fuel IH]; intros task quiz_url remaining retry_count last w e w' Hrc H;
    [discriminate|].
  cbn [quiz_loop] in H.
  replace (retry_count <=? max_retries_per_quiz) with true in H
    by (symmetry; apply Z.leb_le; exact Hrc).
  destruct (attempt task quiz_url remaining retry_count w) as [[next|e0| |rc' last'] w0]
    eqn:Ha; try discriminate.
  - injection H as <- <-. exact (quiz_attempt_throw _ _ _ _ _ _ _ Ha).
  - apply quiz_attempt_again in Ha as [-> Hle]; [|exact Hrc].
    exact (IH _ _ _ _ _ _ _ _ Hle H).
Qed.

(** X13. With a retry cap that is not negative, whatever
    [_solve_single_quiz] raises is a [BrowserError] about the page fetch or
    a [TaskExecutionError] about the parsing or about the retries that ran
    out, each quoting its cause; it is never an instance of the built-in
    [TimeoutError], so that the sequence reports it as an error and not as
    a timeout. *)
Theorem solve_single_quiz_raises (quiz_url : string) (remaining : Q) (w w' : W) (e : exn) :
  0 <= max_retries_per_quiz ->
  solve_single quiz_url remaining w = Some (Failed e, w') ->
  ((exists cause, e = BrowserError ("Failed to fetch quiz page: " ++ cause))
   \/ (exists cause, e = TaskExecutionError ("Failed to parse quiz page: " ++ cause))
   \/ (exists cause, e = TaskExecutionError (gave_up cause)))
  /\ (category e = Some BROWSER \/ category e = Some TASK_EXECUTION)
  /\ isinstance e "TimeoutError" = false.
Proof.
  intros Hmax H.
  assert (Hkind :
    (exists cause, e = BrowserError ("Failed to fetch quiz page: " ++ cause))
    \/ (exists cause, e = TaskExecutionError ("Failed to parse quiz page: " ++ cause))
    \/ (exists cause, e = TaskExecutionError (gave_up cause))).
  { unfold _solve_single_quiz in H.
    destruct (fetch_and_render quiz_url w) as [[html|e0|] w1]; [| |discriminate].
    - destruct (parse_quiz_page html quiz_url) as [task|e0].
      + right. right. apply (quiz_loop_failed _ _ _ _ _ _ _ _ _ Hmax H).
      + injection H as <- <-. right. left. eauto.
    - injection H as <- <-. left. eauto. }
  split; [exact Hkind|].
  destruct Hkind as [[cause ->] | [[cause ->] | [cause ->]]]; cbn; auto.
Qed.

End QuizErrors.

Lemma solve_single_quiz_raises_witness :
  0 <= 2
  /\ (forall d w e w', Orchestrator.scripted_sleep d w <> (Orchestrator.Failed e, w'))
  /\ Orchestrator._solve_single_quiz 2 Orchestrator.scripted_fetch
       Orchestrator.scripted_parse Orchestrator.scripted_solve
       (Orchestrator.scripted_submit Sequences.hopeless_verdict)
       Orchestrator.scripted_sleep "test@example.com" "secret123"
       "https://example.com/quiz1" 180 0%nat
     = Some (Orchestrator.Failed
               (TaskExecutionError
                  ("Failed to solve quiz after 2 retries: "
                   ++ "Failed to solve quiz after 2 retries: Wrong answer")), 3%nat)
  /\ isinstance
       (TaskExecutionError
          ("Failed to solve quiz after 2 retries: "
           ++ "Failed to solve quiz after 2 retries: Wrong answer")) "TimeoutError" = false.
Proof.
  assert (Hsleep : forall d w e w',
             Orchestrator.scripted_sleep d w <> (Orchestrator.Failed e, w'))
    by (intros d w e w'; discriminate).
  assert (Hrun :
    Orchestrator._solve_single_quiz 2 Orchestrator.scripted_fetch
      Orchestrator.scripted_parse Orchestrator.scripted_solve
      (Orchestrator.scripted_submit Sequences.hopeless_verdict)
      Orchestrator.scripted_sleep "test@example.com" "secret123"
      "https://example.com/quiz1" 180 0%nat
    = Some (Orchestrator.Failed
              (TaskExecutionError
                 ("Failed to solve quiz after 2 retries: "
                  ++ "Failed to solve quiz after 2 retries: Wrong answer")), 3%nat))
    by reflexivity.
  split; [lia|]. split; [exact Hsleep|]. split; [exact Hrun|].
  apply (solve_single_quiz_raises 2 Orchestrator.scripted_fetch
           Orchestrator.scripted_parse Orchestrator.scripted_solve
           (Orchestrator.scripted_submit Sequences.hopeless_verdict)
           Orchestrator.scripted_sleep "test@example.com" "secret123" Hsleep
           "https://example.com/quiz1" 180 0%nat 3%nat _ ltac:(lia) Hrun).
Defined.

(** *** Verdicts that stay wrong *)

Section StaysWrong.
Import Orchestrator.
Context {W : Type}.
Variable max_retries_per_quiz : Z.
Variable fetch_and_render : string -> W -> reply string * W.
Variable parse_quiz_page : string -> string -> outcome TaskDefinition.
Variable solve_task : TaskDefinition -> W -> reply value * W.
Variable submit_answer :
  string -> string -> string -> string -> value -> W -> reply SubmitResponse * W.
Variable sleep : Q -> W -> reply unit * W.
Variables email secret : string.
Variable task : TaskDefinition.
Variable quiz_url : string.
(** What solving and what submitting do to the world, and the verdict. *)
Variables solved submitted : W -> W.
Variable verdict : SubmitResponse.

Local Abbreviation loop :=
  (quiz_loop max_retries_per_quiz solve_task submit_answer sleep email secret).
Local Abbreviation gave_up cause :=
  ("Failed to solve quiz after " ++ PyStr.str_of_int max_retries_per_quiz
   ++ " retries: " ++ cause).

Hypothesis solves : forall w, exists answer, solve_step solve_task task w = (Done answer, solved w).
Hypothesis submits :
  forall answer w,
    submit_answer (submit_url task) email secret quiz_url answer w
    = (Done verdict, submitted w).
Hypothesis wrong : correct verdict = false.
Hypothesis no_next : url verdict = None.

Lemma quiz_loop_stays_wrong (left : nat) :
  forall (extra : nat) (remaining : Q) (retry_count : Z) (last : option string) (w : W),
    retry_count + Z.of_nat left = max_retries_per_quiz ->
    loop (S left + extra) task quiz_url remaining retry_count last w
    = Some (Failed (TaskExecutionError
                      (gave_up (gave_up (str_of_optional (reason verdict))))),
            Nat.iter (S left) (fun w0 => submitted (solved w0)) w).
Proof.
  induction left as [|left IH]; intros extra remaining retry_count last w Hsum.
  - cbn [Nat.add quiz_loop].
    replace (retry_count <=? max_retries_per_quiz) with true
      by (symmetry; apply Z.leb_le; lia).
    unfold quiz_attempt. destruct (solves w) as [answer ->].
    rewrite submits, wrong, no_next. cbv zeta.
    replace (retry_count + 1 <=? max_retries_per_quiz) with false
      by (symmetry; apply Z.leb_gt; lia).
    unfold on_error.
    replace (retry_count + 1 + 1 >? max_retries_per_quiz) with true
      by (symmetry; apply Z.gtb_lt; lia).
    reflexivity.
  - change (S (S left) + extra)%nat with (S (S left + extra)).
    cbn [quiz_loop].
    replace (retry_count <=? max_retries_per_quiz) with true
      by (symmetry; apply Z.leb_le; lia).
    unfold quiz_attempt. destruct (solves w) as [answer ->].
    rewrite submits, wrong, no_next. cbv zeta.
    replace (retry_count + 1 <=? max_retries_per_quiz) with true
      by (symmetry; apply Z.leb_le; lia).
    rewrite (IH extra remaining (retry_count + 1) (reason verdict)
               (submitted (solved w))) by lia.
    rewrite (Nat.iter_succ_r (S left)). reflexivity.
Qed.

(** X14. When the page is fetched and parsed and every answer is judged
    wrong without a next URL, [_solve_single_quiz] solves and submits
    exactly [max_retries_per_quiz + 1] times, never sleeps in between, and
    raises a [TaskExecutionError] whose message carries the phrase about
    the retries twice, followed by the reason of the last verdict. *)
Theorem wrong_without_next_gives_up (remaining : Q) (w w1 : W) (html : string) :
  0 <= max_retries_per_quiz ->
  fetch_and_render quiz_url w = (Done html, w1) ->
  parse_quiz_page html quiz_url = Ok task ->
  _solve_single_quiz max_retries_per_quiz fetch_and_render parse_quiz_page solve_task
    submit_answer sleep email secret quiz_url remaining w
  = Some (Failed (TaskExecutionError
                    (gave_up (gave_up (str_of_optional (reason verdict))))),
          Nat.iter (Z.to_nat (max_retries_per_quiz + 1))
                   (fun w0 => submitted (solved w0)) w1).
Proof.
  intros Hmax Hfetch Hparse. unfold _solve_single_quiz. rewrite Hfetch, Hparse.
  replace (S (Z.to_nat (max_retries_per_quiz + 1)))
    with (S (Z.to_nat max_retries_per_quiz) + 1)%nat by lia.
  rewrite quiz_loop_stays_wrong by lia.
  replace (Z.to_nat (max_retries_per_quiz + 1)) with (S (Z.to_nat max_retries_per_quiz))
    by lia.
  reflexivity.
Qed.

End StaysWrong.

Lemma wrong_without_next_gives_up_witness :
  0 <= 2
  /\ Orchestrator._solve_single_quiz 2 Orchestrator.scripted_fetch
       Orchestrator.scripted_parse Orchestrator.scripted_solve
       (Orchestrator.scripted_submit Sequences.hopeless_verdict)
       Orchestrator.scripted_sleep "test@example.com" "secret123"
       "https://example.com/quiz1" 180 0%nat
     = Some (Orchestrator.Failed
               (TaskExecutionError
                  ("Failed to solve quiz after " ++ PyStr.str_of_int 2 ++ " retries: "
                   ++ "Failed to solve quiz after " ++ PyStr.str_of_int 2 ++ " retries: "
                   ++ "Wrong answer")),
             Nat.iter (Z.to_nat (2 + 1)) (fun w0 => S w0) 0%nat).
Proof.
  split; [lia|].
  apply (wrong_without_next_gives_up 2 Orchestrator.scripted_fetch
           Orchestrator.scripted_parse Orchestrator.scripted_solve
           (Orchestrator.scripted_submit Sequences.hopeless_verdict)
           Orchestrator.scripted_sleep "test@example.com" "secret123"
           Orchestrator.example_task "https://example.com/quiz1"
           (fun w0 => w0) S (Sequences.hopeless_verdict "https://example.com/quiz1")
           ltac:(intros w0; exists (VInt 42); reflexivity)
           ltac:(intros answer w0; reflexivity)
           eq_refl eq_refl 180 0%nat 0%nat "<html><body>Quiz content</body></html>"
           ltac:(lia) eq_refl eq_refl).
Defined.

(** X15. The decision to skip is monotone: when [_should_skip_to_next]
    says skip, it still says skip with more retries made or with less time
    remaining. *)
Theorem should_skip_monotone (retry_count retry_count' : Z) (remaining remaining' : Q) :
  Orchestrator._should_skip_to_next retry_count remaining = true ->
  retry_count <= retry_count' ->
  (remaining' <= remaining)%Q ->
  Orchestrator._should_skip_to_next retry_count' remaining' = true.
Proof.
  intros Hskip Hrc Hrem. apply should_skip_iff. apply should_skip_iff in Hskip.
  destruct Hskip as [[Ht Hr]|[Ht Hr]]; [left|right]; split; try lia;
    eapply Qle_lt_trans; eassumption.
Qed.

Lemma should_skip_monotone_witness :
  Orchestrator._should_skip_to_next 1 25 = true
  /\ 1 <= 2 /\ (10 <= 25)%Q
  /\ Orchestrator._should_skip_to_next 2 10 = true.
Proof.
  split; [reflexivity|]. split; [lia|]. split; [discriminate|].
  apply (should_skip_monotone 1 2 25 10); [reflexivity | lia | discriminate].
Defined.

(** ** The task parser: the demo page, decoding, discovery and URLs *)

(** X16. A page fetched from an address that contains [/demo] and whose
    markup contains the phrase [POST this JSON] parses to the demo task
    whatever else it holds, with no payload looked for; for that task the
    orchestrator does not call the solver and answers with a fixed text. *)
Theorem demo_page_skips_solver {W : Type} (url_scheme : string -> outcome string)
    (urljoin : string -> string -> string) (HttpUrl : string -> outcome string)
    (page : Html.page) (base_url : string)
    (solve_task : TaskDefinition -> W -> Orchestrator.reply value * W) (w : W) :
  PyStr.contains "/demo" base_url = true ->
  PyStr.contains "POST this JSON" (Html.html page) = true ->
  HttpUrl "https://tds-llm-analysis.s-anand.net/submit"
    = Ok "https://tds-llm-analysis.s-anand.net/submit" ->
  exists task,
    Parser.parse_quiz_page url_scheme urljoin HttpUrl page base_url = Ok task
    /\ instructions task = "Demo page: Submit any answer to proceed to the actual quiz."
    /\ submit_url task = "https://tds-llm-analysis.s-anand.net/submit"
    /\ answer_format task = STRING
    /\ file_urls task = []
    /\ Orchestrator.solve_step solve_task task w
       = (Orchestrator.Done (VStr "Demo submission to proceed to actual quiz"), w).
Proof.
  intros Hdemo Hphrase Hurl. unfold Parser.parse_quiz_page.
  rewrite Hdemo, Hphrase. cbn [andb]. unfold Parser.TaskDefinition_new.
  rewrite Hurl. cbn [Parser.validate_urls]. eexists. split; [reflexivity|].
  repeat split.
Qed.

Lemma demo_page_skips_solver_witness :
  PyStr.contains "/demo" "https://tds-llm-analysis.s-anand.net/demo" = true
  /\ PyStr.contains "POST this JSON"
       (Html.html (Parser.in_running_text "POST this JSON to /submit")) = true
  /\ exists task,
       Parser.parse_quiz_page Parser.example_url_scheme Parser.example_urljoin
         Parser.example_HttpUrl (Parser.in_running_text "POST this JSON to /submit")
         "https://tds-llm-analysis.s-anand.net/demo" = Ok task
       /\ Orchestrator.solve_step Orchestrator.scripted_solve task 0%nat
          = (Orchestrator.Done (VStr "Demo submission to proceed to actual quiz"), 0%nat).
Proof.
  split; [reflexivity|]. split; [reflexivity|].
  destruct (demo_page_skips_solver Parser.example_url_scheme Parser.example_urljoin
              Parser.example_HttpUrl (Parser.in_running_text "POST this JSON to /submit")
              "https://tds-llm-analysis.s-anand.net/demo" Orchestrator.scripted_solve
              0%nat eq_refl eq_refl eq_refl) as (task & Hparse & _ & _ & _ & _ & Hstep).
  exists task. split; assumption.
Defined.

(** X17. [_decode_base64] inverts the encoding of every UTF-8 text, the
    empty one included; [_is_base64] accepts the encoding exactly when the
    text has 13 bytes or more. *)
Theorem decode_base64_inverts_encoding (text : string) :
  Utf8.valid text = true ->
  Parser._decode_base64 (Base64.b64encode text) = Ok text
  /\ (Parser._is_base64 (Base64.b64encode text) = true <-> (13 <= String.length text)%nat).
Proof.
  intros Hvalid. split; [apply decode_base64_b64encode, Hvalid|]. split.
  - intros Hb. destruct (le_lt_dec 13 (String.length text)) as [Hle|Hlt]; [exact Hle|].
    exfalso. unfold Parser._is_base64 in Hb.
    assert (Hshort : (String.length (Base64.b64encode text) <? 20)%nat = true).
    { apply Nat.ltb_lt. rewrite b64encode_length.
      assert ((String.length text + 2) / 3 < 5)%nat; [|lia].
      apply Nat.Div0.div_lt_upper_bound. lia. }
    rewrite Hshort, orb_true_r in Hb. discriminate.
  - apply is_base64_b64encode.
Qed.

Lemma decode_base64_inverts_encoding_witness :
  Utf8.valid "hi" = true
  /\ Parser._decode_base64 (Base64.b64encode "hi") = Ok "hi"
  /\ Parser._is_base64 (Base64.b64encode "hi") = false.
Proof.
  destruct (decode_base64_inverts_encoding "hi" eq_refl) as [Hdecode _].
  split; [reflexivity|]. split; [exact Hdecode | reflexivity].
Defined.

Lemma first_base64_passes {A : Type} (candidate : A -> option string) (l : list A)
    (s : string) :
  Parser.first_base64 candidate l = Some s -> Parser._is_base64 s = true.
Proof.
  induction l as [|x l IH]; cbn [Parser.first_base64]; [discriminate|].
  destruct (candidate x) as [c|]; [|exact IH].
  destruct (Parser._is_base64 c) eqn:Hc; [|exact IH].
  intros [= <-]. exact Hc.
Qed.

(** X18. Whatever the page, the content that [_extract_base64_content]
    returns has passed [_is_base64]: it has 20 characters or more and
    decodes, under validation, to at least one byte.  When no candidate
    passes, the one exception raised is the [ValueError] about content
    not found. *)
Theorem extracted_content_is_base64 (page : Html.page) :
  match Parser._extract_base64_content page with
  | Ok s =>
      Parser._is_base64 s = true
      /\ (20 <= String.length s)%nat
      /\ exists decoded,
           Base64.b64decode s true = Ok decoded /\ (0 < String.length decoded)%nat
  | Raise e => e = Parser.value_error "Could not find base64-encoded content in HTML"
  end.
Proof.
  assert (Hpass : forall s, Parser._is_base64 s = true ->
            Parser._is_base64 s = true
            /\ (20 <= String.length s)%nat
            /\ exists decoded,
                 Base64.b64decode s true = Ok decoded /\ (0 < String.length decoded)%nat).
  { intros s Hs. split; [exact Hs|]. unfold Parser._is_base64 in Hs.
    destruct (String.eqb s "" || (String.length s <? 20)%nat) eqn:Hshort; [discriminate|].
    apply orb_false_elim in Hshort as [_ Hlen]. apply Nat.ltb_ge in Hlen.
    split; [exact Hlen|].
    destruct (Re.re_match Parser.base64_shape s); [|discriminate].
    destruct (Base64.b64decode s true) as [decoded|e]; [|discriminate].
    exists decoded. split; [reflexivity|]. apply Nat.ltb_lt, Hs. }
  unfold Parser._extract_base64_content.
  repeat match goal with
         | |- context [Parser.first_base64 ?f ?l] =>
             let H := fresh "Hfirst" in
             destruct (Parser.first_base64 f l) as [?s|] eqn:H;
             [apply Hpass, (first_base64_passes _ _ _ H)|]
         end.
  reflexivity.
Qed.

Lemma unique_spec (urls : list string) :
  forall seen,
    NoDup (Parser.unique seen urls)
    /\ forall u, In u (Parser.unique seen urls) <-> In u urls /\ ~ In u seen.
Proof.
  induction urls as [|url rest IH]; intros seen; cbn [Parser.unique].
  - split; [constructor|]. intros u. cbn. tauto.
  - destruct (existsb (String.eqb url) seen) eqn:Hseen.
    + destruct (IH seen) as [Hnodup Hin]. split; [exact Hnodup|].
      intros u. rewrite Hin. cbn [In]. split; [tauto|].
      intros [[<-|Hrest] Hnot]; [|tauto]. exfalso. apply Hnot.
      apply existsb_exists in Hseen as (x & Hx & Heq).
      apply String.eqb_eq in Heq. subst x. exact Hx.
    + assert (Hnew : ~ In url seen).
      { intros Hin. assert (existsb (String.eqb url) seen = true); [|congruence].
        apply existsb_exists. exists url. split; [exact Hin|apply String.eqb_refl]. }
      destruct (IH (url :: seen)) as [Hnodup Hin]. split.
      * constructor; [|exact Hnodup]. rewrite Hin. cbn [In]. tauto.
      * intros u. cbn [In]. rewrite Hin. cbn [In].
        destruct (String.eqb_spec url u) as [->|Hne]; tauto.
Qed.

(** X19. The list that [_extract_file_urls] returns has no duplicates,
    and holds exactly the URLs with a file extension found by the first
    scan together with the cleaned targets of a download phrase that
    start with [http]. *)
Theorem extract_file_urls_unique (url_scheme : string -> outcome string)
    (urljoin : string -> string -> string) (instructions base_url : string)
    (urls : list string) :
  Parser._extract_file_urls url_scheme urljoin instructions base_url = Ok urls ->
  NoDup urls
  /\ exists with_extension,
       Parser.urls_with_extension url_scheme urljoin base_url
         (Re.re_findall Parser.url_pattern instructions) = Ok with_extension
       /\ forall u,
            In u urls <->
            In u with_extension
            \/ (In u (map Parser._clean_url
                        (Re.re_findall Parser.download_pattern instructions))
                /\ PyStr.startswith "http" u = true).
Proof.
  unfold Parser._extract_file_urls.
  destruct (Parser.urls_with_extension url_scheme urljoin base_url
              (Re.re_findall Parser.url_pattern instructions)) as [found|e];
    [|discriminate].
  intros [= <-].
  destruct (unique_spec
              (found ++ filter (PyStr.startswith "http")
                          (map Parser._clean_url
                             (Re.re_findall Parser.download_pattern instructions)))%list
              []) as [Hnodup Hin].
  split; [exact Hnodup|]. exists found. split; [reflexivity|].
  intros u. rewrite Hin, in_app_iff, filter_In. cbn [In]. tauto.
Qed.

Lemma extract_file_urls_unique_witness :
  Parser._extract_file_urls Parser.example_url_scheme Parser.example_urljoin
    "Download https://x/data.csv and again https://x/data.csv." ""
  = Ok ["https://x/data.csv"]
  /\ NoDup ["https://x/data.csv"].
Proof.
  assert (H : Parser._extract_file_urls Parser.example_url_scheme Parser.example_urljoin
                "Download https://x/data.csv and again https://x/data.csv." ""
              = Ok ["https://x/data.csv"]) by (vm_compute; reflexivity).
  split; [exact H|].
  apply (extract_file_urls_unique _ _ _ _ _ H).
Defined.

Lemma lstrip_by_split (drop : ascii -> bool) (s : string) :
  exists pre, s = pre ++ PyStr.lstrip_by drop s /\ Base64.all_chars drop pre = true.
Proof.
  induction s as [|c s IH]; cbn [PyStr.lstrip_by].
  - exists "". split; reflexivity.
  - destruct (drop c) eqn:Hc.
    + destruct IH as (pre & Hs & Hpre). exists (String c pre). split.
      * cbn. rewrite <- Hs. reflexivity.
      * cbn. rewrite Hc, Hpre. reflexivity.
    + exists "". split; reflexivity.
Qed.

Lemma rstrip_by_split (drop : ascii -> bool) (s : string) :
  exists post, s = PyStr.rstrip_by drop s ++ post /\ Base64.all_chars drop post = true.
Proof.
  induction s as [|c s IH]; cbn [PyStr.rstrip_by].
  - exists "". split; reflexivity.
  - destruct IH as (post & Hs & Hpost).
    destruct (PyStr.rstrip_by drop s) as [|c' t] eqn:Hr.
    + cbn in Hs. subst s. destruct (drop c) eqn:Hc.
      * exists (String c post). split; [reflexivity|]. cbn. rewrite Hc, Hpost. reflexivity.
      * exists post. split; [reflexivity | exact Hpost].
    + exists post. split; [|exact Hpost]. cbn. cbn in Hs. rewrite <- Hs. reflexivity.
Qed.

Lemma lstrip_by_first (drop : ascii -> bool) (s : string) (c : ascii) :
  Trimming.first_char (PyStr.lstrip_by drop s) = Some c -> drop c = false.
Proof.
  induction s as [|d s IH]; cbn [PyStr.lstrip_by]; [discriminate|].
  destruct (drop d) eqn:Hd; [exact IH|]. cbn. intros [= <-]. exact Hd.
Qed.

Lemma rstrip_by_first (drop : ascii -> bool) (s : string) (c : ascii) :
  Trimming.first_char (PyStr.rstrip_by drop s) = Some c ->
  Trimming.first_char s = Some c.
Proof.
  destruct s as [|d s]; cbn [PyStr.rstrip_by]; [discriminate|].
  destruct (PyStr.rstrip_by drop s); [destruct (drop d)|]; cbn; auto; discriminate.
Qed.

Lemma rstrip_by_last (drop : ascii -> bool) (s : string) (c : ascii) :
  Re.last_char None (PyStr.rstrip_by drop s) = Some c -> drop c = false.
Proof.
  induction s as [|d s IH]; cbn [PyStr.rstrip_by]; [discriminate|].
  destruct (PyStr.rstrip_by drop s) as [|c' t] eqn:Hr.
  - destruct (drop d) eqn:Hd; [discriminate|]. cbn. intros [= <-]. exact Hd.
  - intros H. apply IH. rewrite last_char_cons.
    rewrite (last_char_cons None d), (last_char_cons (Some d) c') in H. exact H.
Qed.

(** X20. [_clean_url] only trims: the URL is the result with quotes put
    back in front of it and quotes and the punctuation [.,;:!?)] put back
    behind it, and the result neither begins nor ends with a quote. *)
Theorem clean_url_trims (url : string) :
  (exists pre post,
     url = pre ++ Parser._clean_url url ++ post
     /\ Base64.all_chars Parser.is_quote pre = true
     /\ Base64.all_chars Trimming.is_trailing post = true)
  /\ (forall c, Trimming.first_char (Parser._clean_url url) = Some c ->
                Parser.is_quote c = false)
  /\ (forall c, Re.last_char None (Parser._clean_url url) = Some c ->
                Parser.is_quote c = false).
Proof.
  unfold Parser._clean_url, PyStr.strip_by.
  set (punctuation := fun c => PyStr.char_in c ".,;:!?)").
  split; [|split].
  - destruct (rstrip_by_split punctuation url) as (post1 & Hurl & Hpost1).
    destruct (lstrip_by_split Parser.is_quote (PyStr.rstrip_by punctuation url))
      as (pre & Hr1 & Hpre).
    destruct (rstrip_by_split Parser.is_quote
                (PyStr.lstrip_by Parser.is_quote (PyStr.rstrip_by punctuation url)))
      as (post2 & Hl & Hpost2).
    exists pre, (post2 ++ post1). split; [|split].
    + rewrite <- (append_assoc _ post2 post1), <- Hl.
      rewrite <- (append_assoc pre _ post1), <- Hr1. exact Hurl.
    + exact Hpre.
    + rewrite all_chars_append. apply andb_true_intro. split.
      * apply (all_chars_weaken Parser.is_quote); [|exact Hpost2].
        intros c Hc. unfold Trimming.is_trailing. rewrite Hc. apply orb_true_r.
      * apply (all_chars_weaken punctuation); [|exact Hpost1].
        intros c Hc. unfold Trimming.is_trailing. fold (punctuation c). rewrite Hc.
        reflexivity.
  - intros c Hc. apply rstrip_by_first in Hc. exact (lstrip_by_first _ _ _ Hc).
  - intros c Hc. exact (rstrip_by_last _ _ _ Hc).
Qed.

(** ** The coercion of the final answer: printed integers *)


Lemma digit_facts (c : ascii) :
  PyStr.is_digit c = true ->
  Ascii.eqb c "-" = false /\ Ascii.eqb c "." = false /\ PyStr.is_space c = false
  /\ 0 <= Json.digit_value c <= 9.
Proof.
  intros Hc.
  assert (H : implb (PyStr.is_digit c)
                (negb (Ascii.eqb c "-") && negb (Ascii.eqb c ".")
                 && negb (PyStr.is_space c)
                 && (0 <=? Json.digit_value c) && (Json.digit_value c <=? 9)) = true).
  { revert c Hc. intros c _. revert c. apply forall_ascii. vm_compute. reflexivity. }
  rewrite Hc in H. cbn [implb] in H.
  repeat (apply andb_prop in H as [H ?]).
  repeat match goal with
         | H : negb _ = true |- _ => apply negb_true_iff in H
         end.
  repeat split; auto; lia.
Qed.

Lemma string_of_uint_digits (d : Decimal.uint) :
  Base64.all_chars PyStr.is_digit (NilEmpty.string_of_uint d) = true.
Proof. induction d; cbn; auto. Qed.

Lemma digits_value_acc (d : Decimal.uint) :
  forall p : positive,
    Json.digits_value (Z.pos p) (NilEmpty.string_of_uint d) = Z.pos (Pos.of_uint_acc d p).
Proof.
  induction d; intros p; cbn [NilEmpty.string_of_uint Json.digits_value Pos.of_uint_acc];
    [reflexivity | ..];
    match goal with
    | |- Json.digits_value (_ + Json.digit_value ?c) _ = Z.pos (Pos.of_uint_acc _ ?q) =>
        let v := eval vm_compute in (Json.digit_value c) in
        change (Json.digit_value c) with v;
        replace (10 * Z.pos p + v) with (Z.pos q) by lia
    end; apply IHd.
Qed.

Lemma digits_value_uint (d : Decimal.uint) :
  Json.digits_value 0 (NilEmpty.string_of_uint d) = Z.of_N (Pos.of_uint d).
Proof.
  induction d; cbn [NilEmpty.string_of_uint Json.digits_value Pos.of_uint];
    [reflexivity | exact IHd | ..];
    match goal with
    | |- Json.digits_value ?a _ = Z.of_N (N.pos (Pos.of_uint_acc _ ?q)) =>
        change a with (Z.pos q)
    end; apply digits_value_acc.
Qed.

Lemma str_of_int_shape (n : Z) :
  exists digits,
    PyStr.str_of_int n = (if n <? 0 then "-" else "") ++ digits
    /\ digits <> ""
    /\ Base64.all_chars PyStr.is_digit digits = true
    /\ Json.digits_value 0 digits = Z.abs n
    /\ PyStr.str_of_int (Z.abs n) = digits.
Proof.
  assert (Hpos : forall p,
            NilZero.string_of_uint (Pos.to_uint p) = NilEmpty.string_of_uint (Pos.to_uint p)
            /\ NilEmpty.string_of_uint (Pos.to_uint p) <> ""
            /\ Json.digits_value 0 (NilEmpty.string_of_uint (Pos.to_uint p)) = Z.pos p).
  { intros p. pose proof (DecimalPos.Unsigned.to_uint_nonnil p) as Hnil.
    split; [|split].
    - destruct (Pos.to_uint p); [congruence|..]; reflexivity.
    - destruct (Pos.to_uint p); [congruence|..]; discriminate.
    - rewrite digits_value_uint, DecimalPos.Unsigned.of_to. reflexivity. }
  destruct n as [|p|p]; unfold PyStr.str_of_int; cbn [Z.to_int NilZero.string_of_int Z.ltb Z.compare Z.abs].
  - exists "0". repeat split. discriminate.
  - destruct (Hpos p) as (Heq & Hne & Hval). rewrite Heq.
    exists (NilEmpty.string_of_uint (Pos.to_uint p)).
    repeat split; auto using string_of_uint_digits.
  - destruct (Hpos p) as (Heq & Hne & Hval). rewrite Heq.
    exists (NilEmpty.string_of_uint (Pos.to_uint p)).
    repeat split; auto using string_of_uint_digits.
Qed.

Lemma lstrip_by_dropped (drop : ascii -> bool) (ws s : string) :
  Base64.all_chars drop ws = true ->
  PyStr.lstrip_by drop (ws ++ s) = PyStr.lstrip_by drop s.
Proof.
  induction ws as [|c ws IH]; cbn; [reflexivity|].
  intros H. apply andb_prop in H as [Hc Hws]. rewrite Hc. exact (IH Hws).
Qed.

Lemma rstrip_by_all_dropped (drop : ascii -> bool) (ws : string) :
  Base64.all_chars drop ws = true -> PyStr.rstrip_by drop ws = "".
Proof.
  induction ws as [|c ws IH]; cbn; [reflexivity|].
  intros H. apply andb_prop in H as [Hc Hws]. rewrite (IH Hws), Hc. reflexivity.
Qed.

Lemma rstrip_by_dropped (drop : ascii -> bool) (s ws : string) :
  Base64.all_chars drop ws = true ->
  PyStr.rstrip_by drop (s ++ ws) = PyStr.rstrip_by drop s.
Proof.
  intros Hws. induction s as [|c s IH]; cbn [String.append PyStr.rstrip_by].
  - apply rstrip_by_all_dropped, Hws.
  - rewrite IH. reflexivity.
Qed.

Lemma consumed_all (s : string) : PyStr.consumed s "" = s.
Proof. rewrite <- (append_empty_r s) at 1. apply consumed_append. Qed.

Lemma number_pattern_tail {A : Type} (prev : option ascii) (digits : string)
    (k : @Re.cont A) (x : A) :
  Base64.all_chars PyStr.is_digit digits = true ->
  digits <> "" ->
  k (Re.last_char prev digits) "" None = Some x ->
  Re.run (Re.Seq (Re.plus PyStr.is_digit)
            (Re.Seq (Re.opt (Re.chr ".")) (Re.star PyStr.is_digit)))
    prev digits None k = Some x.
Proof.
  intros Hdigits Hne Hk. cbn [Re.run Re.plus].
  rewrite <- (append_empty_r digits).
  apply rep_match_greedy_run; auto.
  all: try (destruct digits; [congruence|]; cbn; lia).
  all: try (cbn; exact Hk).
Qed.

Lemma run_opt_chr_hit {A : Type} (ch : ascii) (prev : option ascii) (t : string)
    (cap : option string) (k : @Re.cont A) :
  Re.run (Re.opt (Re.chr ch)) prev (String ch t) cap k
  = match k (Some ch) t cap with
    | Some x => Some x
    | None => k prev (String ch t) cap
    end.
Proof. cbn. rewrite Ascii.eqb_refl. reflexivity. Qed.

Lemma run_opt_chr_miss {A : Type} (ch d : ascii) (prev : option ascii) (t : string)
    (cap : option string) (k : @Re.cont A) :
  Ascii.eqb d ch = false ->
  Re.run (Re.opt (Re.chr ch)) prev (String d t) cap k = k prev (String d t) cap.
Proof. intros H. cbn. rewrite Ascii.eqb_sym, H. reflexivity. Qed.

Lemma number_pattern_whole (sign digits : string) :
  sign = "" \/ sign = "-" ->
  Base64.all_chars PyStr.is_digit digits = true ->
  digits <> "" ->
  Re.re_findall Coercion.number_pattern (sign ++ digits) = [sign ++ digits].
Proof.
  intros Hsign Hdigits Hne.
  assert (Hmatch : Re.match_here Coercion.number_pattern None (sign ++ digits)
                   = Some (Re.Found (sign ++ digits) None "")).
  { unfold Re.match_here, Coercion.number_pattern. cbn [Re.seqs].
    change (Re.run (Re.Seq ?a ?b) ?p ?s ?c ?k)
      with (Re.run a p s c (fun p' s' c' => Re.run b p' s' c' k)).
    destruct Hsign as [-> | ->].
    - cbn [String.append]. destruct digits as [|c t]; [congruence|].
      apply andb_prop in Hdigits as Hc. destruct Hc as [Hc _].
      destruct (digit_facts c Hc) as (Hminus & _).
      rewrite (run_opt_chr_miss _ _ _ _ _ _ Hminus).
      apply number_pattern_tail; auto. rewrite consumed_all. reflexivity.
    - cbn [String.append]. rewrite run_opt_chr_hit.
      rewrite (number_pattern_tail (Some "-"%char) digits _
                 (Re.Found (String "-" digits) None "")); auto.
      rewrite consumed_all. reflexivity. }
  assert (Hhead : exists c t, sign ++ digits = String c t).
  { destruct Hsign as [-> | ->]; [|cbn; eauto].
    destruct digits; [congruence|]. cbn. eauto. }
  destruct Hhead as (c & t & Hs). rewrite Hs in *.
  unfold Re.re_findall. cbn [String.length Re.findall_from Re.search_from].
  rewrite Hmatch. cbn [Re.matched Re.rest Re.group1 map]. reflexivity.
Qed.

Lemma contains_dot_none (s : string) :
  Base64.all_chars (fun c => negb (Ascii.eqb c ".")) s = true ->
  PyStr.contains "." s = false.
Proof.
  induction s as [|c s IH]; cbn [Base64.all_chars PyStr.contains String.prefix].
  - reflexivity.
  - intros H. apply andb_prop in H as [Hc Hs]. rewrite (IH Hs), orb_false_r.
    destruct (ascii_dec "." c) as [<-|_]; [discriminate|reflexivity].
Qed.

Lemma int_of_str_digits (negative : bool) (digits : string) :
  Base64.all_chars PyStr.is_digit digits = true ->
  digits <> "" ->
  (String.length digits <= 4300)%nat ->
  Coercion.int_of_str ((if negative then "-" else "") ++ digits)
  = Ok (VInt (if negative then - Json.digits_value 0 digits
              else Json.digits_value 0 digits)).
Proof.
  intros Hdigits Hne Hlen.
  assert (Hfits : (4300 <? String.length digits)%nat = false) by (apply Nat.ltb_ge; lia).
  destruct negative.
  - cbn [String.append]. unfold Coercion.int_of_str. rewrite Hfits. reflexivity.
  - cbn [String.append]. destruct digits as [|c t]; [congruence|].
    apply andb_prop in Hdigits as Hc. destruct Hc as [Hc _].
    assert (Hsame : Coercion.int_of_str (String c t)
                    = if (4300 <? String.length (String c t))%nat
                      then Raise (plain_error "ValueError"
                                    "Exceeds the limit (4300 digits) for integer string conversion")
                      else Ok (VInt (Json.digits_value 0 (String c t)))).
    { destruct c as [b0 b1 b2 b3 b4 b5 b6 b7].
      destruct b0, b1, b2, b3, b4, b5, b6, b7; try discriminate Hc; reflexivity. }
    rewrite Hsame, Hfits. reflexivity.
Qed.

(** X21. Coercion to a number reads back an integer printed in decimal,
    with any white space around it: [_parse_answer] on the text of
    [str(n)] returns the integer [n], for every [n] of at most 4300
    digits. *)
Theorem parse_answer_reads_printed_int (json_loads : string -> outcome value)
    (results : gmap string value) (n : Z) (before after : string) :
  Base64.all_chars PyStr.is_space before = true ->
  Base64.all_chars PyStr.is_space after = true ->
  (String.length (PyStr.str_of_int (Z.abs n)) <= 4300)%nat ->
  Coercion._parse_answer json_loads results (before ++ PyStr.str_of_int n ++ after) NUMBER
  = Ok (VInt n).
Proof.
  intros Hbefore Hafter Hlen.
  destruct (str_of_int_shape n) as (digits & Hs & Hne & Hdigits & Hvalue & Habs).
  rewrite Habs in Hlen.
  set (sign := if n <? 0 then "-" else "") in Hs.
  assert (Hsign : sign = "" \/ sign = "-") by (subst sign; destruct (n <? 0); auto).
  assert (Hplain : Base64.all_chars
                     (fun c => negb (PyStr.is_space c) && negb (Ascii.eqb c "."))
                     (sign ++ digits) = true).
  { rewrite all_chars_append. apply andb_true_intro. split.
    - destruct Hsign as [-> | ->]; reflexivity.
    - apply (all_chars_weaken PyStr.is_digit); [|exact Hdigits].
      intros c Hc. destruct (digit_facts c Hc) as (_ & Hdot & Hspace & _).
      rewrite Hdot, Hspace. reflexivity. }
  assert (Hstrip : PyStr.strip (before ++ PyStr.str_of_int n ++ after)
                   = PyStr.str_of_int n).
  { rewrite Hs. unfold PyStr.strip, PyStr.strip_by.
    rewrite lstrip_by_dropped by exact Hbefore.
    assert (Hhead : exists c t, sign ++ digits = String c t /\ PyStr.is_space c = false).
    { destruct (sign ++ digits) as [|c t] eqn:E.
      - destruct Hsign as [-> | ->]; [|discriminate]. cbn in E. congruence.
      - exists c, t. split; [reflexivity|]. cbn in Hplain.
        apply andb_prop in Hplain as [Hc _]. apply andb_prop in Hc as [Hc _].
        apply negb_true_iff, Hc. }
    destruct Hhead as (c & t & Hct & Hc).
    replace ((sign ++ digits) ++ after) with (String c (t ++ after))
      by (rewrite Hct; reflexivity).
    rewrite lstrip_by_head by exact Hc.
    replace (String c (t ++ after)) with ((sign ++ digits) ++ after)
      by (rewrite Hct; reflexivity).
    rewrite rstrip_by_dropped by exact Hafter.
    apply rstrip_by_none.
    apply (all_chars_weaken
             (fun c => negb (PyStr.is_space c) && negb (Ascii.eqb c "."))); [|exact Hplain].
    intros d Hd. apply andb_prop in Hd as [Hd _]. exact Hd. }
  unfold Coercion._parse_answer. rewrite Hstrip, Hs. cbn [Coercion.coerce].
  rewrite number_pattern_whole by assumption.
  rewrite contains_dot_none.
  - subst sign. rewrite int_of_str_digits by assumption. rewrite Hvalue.
    destruct (n <? 0) eqn:Hn; f_equal; f_equal; [apply Z.ltb_lt in Hn|apply Z.ltb_ge in Hn]; lia.
  - apply (all_chars_weaken
             (fun c => negb (PyStr.is_space c) && negb (Ascii.eqb c "."))); [|exact Hplain].
    intros d Hd. apply andb_prop in Hd as [_ Hd]. exact Hd.
Qed.

Lemma parse_answer_reads_printed_int_witness :
  Base64.all_chars PyStr.is_space " " = true
  /\ (String.length (PyStr.str_of_int (Z.abs (-17))) <= 4300)%nat
  /\ Coercion._parse_answer Json.loads ∅ (" " ++ PyStr.str_of_int (-17) ++ " ") NUMBER
     = Ok (VInt (-17)).
Proof.
  split; [reflexivity|]. split; [vm_compute; lia|].
  apply (parse_answer_reads_printed_int Json.loads ∅ (-17) " " " ");
    [reflexivity | reflexivity | vm_compute; lia].
Defined.

(** ** The conversation with the tools *)

Lemma total_sleep_app (a b : list Q) :
  (total_sleep (a ++ b) == total_sleep a + total_sleep b)%Q.
Proof.
  unfold total_sleep. induction a as [|x a IH]; cbn [app fold_right].
  - rewrite Qplus_0_l. reflexivity.
  - rewrite IH. apply Qplus_assoc.
Qed.

Lemma call_llm_three {Resp W : Type} (create : W -> outcome Resp * W) (w : W) :
  let r := LLMRetry._call_llm_with_retry create Conversation.llm_max_retries w in
  (1 <= calls r <= 3)%nat
  /\ (total_sleep (sleeps r) <= 3)%Q
  /\ result r <> Ok None.
Proof.
  intros r. subst r. unfold LLMRetry._call_llm_with_retry, Conversation.llm_max_retries.
  change (Z.to_nat 3) with 3%nat.
  destruct (call_llm_loop_budget create 3 2 0 w ltac:(lia)) as (Hcalls & Hsleeps & Hres).
  split; [exact Hcalls|]. split; [|exact Hres].
  rewrite Hsleeps, total_sleep_powers by lia.
  destruct Hcalls as [Hone Hmost].
  destruct (calls (LLMRetry.call_llm_loop create 3 3 0 w)) as [|[|[|[|c]]]];
    try lia; cbn; discriminate.
Qed.

Section ConversationRuns.
Import Conversation.
Context {W : Type}.
Variable create : list chat_message -> W -> outcome reply_message * W.
Variable json_loads : string -> outcome value.
Variable json_dumps : value -> outcome string.
Variable execute_tool : string -> value -> W -> value * W.
Variable results : W -> gmap string value.

Local Abbreviation tools := (run_tool_calls json_loads json_dumps execute_tool).
Local Abbreviation loop := (llm_loop create json_loads json_dumps execute_tool results).

Lemma llm_loop_budget (iterations : nat) :
  forall answer_format messages w,
    let r := loop iterations answer_format messages w in
    (calls r <= 3 * iterations)%nat
    /\ (total_sleep (sleeps r) <= inject_Z (Z.of_nat (3 * iterations)))%Q.
Proof.
  induction iterations as [|n IH]; intros answer_format messages w r; subst r.
  - cbn. split; [lia | discriminate].
  - cbn [llm_loop].
    destruct (call_llm_three (create messages) w) as ([Hone Hmost] & Hslept & Hnone).
    set (response := LLMRetry._call_llm_with_retry (create messages) llm_max_retries w) in *.
    assert (Hend : forall (x : outcome value) (state : list chat_message * W),
               (calls (following response (Run x state [] O)) <= 3 * S n)%nat
               /\ (total_sleep (sleeps (following response (Run x state [] O)))
                   <= inject_Z (Z.of_nat (3 * S n)))%Q).
    { intros x state. cbn [following calls sleeps]. rewrite app_nil_r. split; [lia|].
      eapply Qle_trans; [exact Hslept|]. change 3%Q with (inject_Z 3).
      rewrite <- Zle_Qle. lia. }
    destruct (result response) as [[message|]|e]; [|apply Hend|apply Hend].
    destruct (tool_calls message) as [|tc rest]; [apply Hend|].
    destruct (tools (tc :: rest) (messages ++ [Assistant (content message) (tc :: rest)])%list
                (final response)) as [[[]|e] [messages' w2]]; [|apply Hend].
    destruct (IH answer_format messages' w2) as [Hcalls Hsleeps].
    cbn [following calls sleeps]. split; [lia|].
    rewrite total_sleep_app.
    replace (Z.of_nat (3 * S n)) with (3 + Z.of_nat (3 * n)) by lia.
    rewrite inject_Z_plus. apply Qplus_le_compat; assumption.
Qed.

Lemma run_tool_calls_all_ok (calls : list tool_call) :
  (forall arguments, exists args, json_loads arguments = Ok args) ->
  (forall result, exists text, json_dumps result = Ok text) ->
  forall messages w, exists messages' w', tools calls messages w = (Ok tt, (messages', w')).
Proof.
  intros Hloads Hdumps. induction calls as [|tc rest IH]; intros messages w.
  - cbn. eauto.
  - cbn [run_tool_calls]. destruct (Hloads (arguments tc)) as [args ->].
    destruct (execute_tool (function_name tc) args w) as [result w'].
    destruct (Hdumps result) as [text ->]. apply IH.
Qed.

Lemma llm_loop_exhausts (iterations : nat) :
  keeps_calling_tools create json_loads json_dumps ->
  forall answer_format messages w,
    let r := loop iterations answer_format messages w in
    result r = Raise (plain_error "RuntimeError"
                        "LLM did not provide final answer within iteration limit")
    /\ calls r = iterations
    /\ sleeps r = [].
Proof.
  intros (Hcreate & Hloads & Hdumps).
  induction iterations as [|n IH]; intros answer_format messages w r; subst r;
    [repeat split|].
  cbn [llm_loop]. destruct (Hcreate messages w) as (message & w' & Hc & Hcalls).
  assert (Hresp : LLMRetry._call_llm_with_retry (create messages) llm_max_retries w
                  = Run (Ok (Some message)) w' [] 1).
  { unfold LLMRetry._call_llm_with_retry, llm_max_retries.
    change (Z.to_nat 3) with 3%nat. cbn [LLMRetry.call_llm_loop]. rewrite Hc.
    reflexivity. }
  rewrite Hresp. cbn [result final].
  destruct (tool_calls message) as [|tc rest] eqn:Htools; [congruence|].
  destruct (run_tool_calls_all_ok (tc :: rest) Hloads Hdumps
              (messages ++ [Assistant (content message) (tc :: rest)])%list w')
    as (messages' & w2 & ->).
  destruct (IH answer_format messages' w2) as (Hres & Hcount & Hsleeps).
  cbn [following result calls sleeps]. rewrite Hres, Hcount, Hsleeps. repeat split.
Qed.

Lemma run_tool_calls_appends (calls : list tool_call) :
  forall messages w res messages' w',
    tools calls messages w = (res, (messages', w')) ->
    exists outputs,
      messages' = (messages ++ map (fun io => Tool (call_id (fst io)) (snd io))
                                   (combine calls outputs))%list
      /\ (res = Ok tt -> List.length outputs = List.length calls).
Proof.
  induction calls as [|tc rest IH]; intros messages w res messages' w' H.
  - cbn in H. injection H as <- <- <-. exists []. cbn. rewrite app_nil_r. auto.
  - cbn [run_tool_calls] in H.
    destruct (json_loads (arguments tc)) as [args|e].
    + destruct (execute_tool (function_name tc) args w) as [result w1].
      destruct (match json_dumps result with
                | Ok s => Ok s
                | Raise e => json_dumps (VDict [("error", VStr (message e))])
                end) as [text|e].
      * destruct (IH _ _ _ _ _ H) as (outputs & -> & Hlen).
        exists (text :: outputs). cbn [combine map fst snd List.length].
        rewrite <- app_assoc. cbn [app]. split; [reflexivity|]. intros Hok.
        rewrite (Hlen Hok). reflexivity.
      * injection H as <- <- <-. exists []. cbn. rewrite app_nil_r.
        split; [reflexivity | discriminate].
    + injection H as <- <- <-. exists []. cbn. rewrite app_nil_r.
      split; [reflexivity | discriminate].
Qed.

Lemma llm_loop_transcript (iterations : nat) :
  forall answer_format messages w,
    let r := loop iterations answer_format messages w in
    exists rounds : list round,
      fst (final r) = (messages ++ rounds_messages rounds)%list
      /\ (List.length rounds <= iterations)%nat
      /\ (forall v, result r = Ok v -> Forall complete rounds).
Proof.
  induction iterations as [|n IH]; intros answer_format messages w r; subst r.
  - exists []. cbn. rewrite app_nil_r. repeat split; auto; discriminate.
  - cbn [llm_loop].
    set (response := LLMRetry._call_llm_with_retry (create messages) llm_max_retries w).
    assert (Hend : forall (x : outcome value) (w1 : W),
               exists rounds : list round,
                 fst (final (following response (Run x (messages, w1) [] O)))
                 = (messages ++ rounds_messages rounds)%list
                 /\ (List.length rounds <= S n)%nat
                 /\ (forall v, result (following response (Run x (messages, w1) [] O)) = Ok v ->
                               Forall complete rounds)).
    { intros x w1. exists []. cbn [following final fst rounds_messages flat_map List.length].
      rewrite app_nil_r. split; [reflexivity|]. split; [lia|]. intros v _. constructor. }
    destruct (result response) as [[message|]|e]; [|apply Hend|apply Hend].
    destruct (tool_calls message) as [|tc rest] eqn:Hcalls; [apply Hend|].
    destruct (tools (tc :: rest) (messages ++ [Assistant (content message) (tc :: rest)])%list
                (final response)) as [res [messages' w2]] eqn:Htools.
    destruct (run_tool_calls_appends _ _ _ _ _ _ Htools) as (outputs & Hmsgs & Hlen).
    assert (Hround : messages'
                     = (messages ++ round_messages (content message) (tc :: rest) outputs)%list).
    { rewrite Hmsgs, <- app_assoc. reflexivity. }
    destruct res as [[]|e].
    + destruct (IH answer_format messages' w2) as (rounds & Hfinal & Hcount & Hcomplete).
      exists ((content message, tc :: rest, outputs) :: rounds).
      cbn [following final result]. split; [|split].
      * rewrite Hfinal, Hround, <- app_assoc. reflexivity.
      * cbn [List.length]. lia.
      * intros v Hv. constructor; [|exact (Hcomplete v Hv)].
        split; [discriminate|]. cbn [fst snd]. exact (Hlen eq_refl).
    + exists [(content message, tc :: rest, outputs)].
      cbn [following final result fst]. split; [|split].
      * rewrite Hround. unfold rounds_messages. cbn [flat_map fst snd].
        rewrite app_nil_r. reflexivity.
      * cbn [List.length]. lia.
      * discriminate.
Qed.

End ConversationRuns.



(** X23. [_execute_llm_loop] only ever appends to the conversation:
    what it adds is a sequence of at most ten rounds, each the
    assistant's message with its tool calls followed by one tool message
    per call, in the order of the calls and carrying their ids.  When the
    loop returns an answer, every round holds at least one call and has
    answered all of its calls. *)
Theorem execute_llm_loop_transcript {W : Type}
    (create : list Conversation.chat_message -> W -> outcome Conversation.reply_message * W)
    (json_loads : string -> outcome value) (json_dumps : value -> outcome string)
    (execute_tool : string -> value -> W -> value * W)
    (results : W -> gmap string value)
    (messages : list Conversation.chat_message) (answer_format : AnswerFormat) (w : W) :
  let r := Conversation._execute_llm_loop create json_loads json_dumps execute_tool
             results messages answer_format w in
  exists rounds : list Conversation.round,
    fst (final r) = (messages ++ Conversation.rounds_messages rounds)%list
    /\ (List.length rounds <= 10)%nat
    /\ (forall v, result r = Ok v -> Forall Conversation.complete rounds).
Proof.
  intros r. subst r. apply llm_loop_transcript.
Qed.

Lemma execute_llm_loop_transcript_witness :
  Conversation._execute_llm_loop (Conversation.asks_then_answers 1) Json.loads
    Conversation.dumps_stub Conversation.echo_tool (fun _ => ∅)
    [Conversation.System "prompt"; Conversation.User "task"] NUMBER 0%nat
  = Run (Ok (VInt 42))
        ([Conversation.System "prompt"; Conversation.User "task";
          Conversation.Assistant None
            [{| Conversation.call_id := "call_1"; Conversation.call_type := "function";
                Conversation.function_name := "get_value";
                Conversation.arguments := "{}" |}];
          Conversation.Tool "call_1" "{}"], 2%nat) [] 2
  /\ exists rounds : list Conversation.round,
       [Conversation.System "prompt"; Conversation.User "task";
        Conversation.Assistant None
          [{| Conversation.call_id := "call_1"; Conversation.call_type := "function";
              Conversation.function_name := "get_value";
              Conversation.arguments := "{}" |}];
        Conversation.Tool "call_1" "{}"]
       = ([Conversation.System "prompt"; Conversation.User "task"]
          ++ Conversation.rounds_messages rounds)%list
       /\ Forall Conversation.complete rounds.
Proof.
  assert (Hrun :
    Conversation._execute_llm_loop (Conversation.asks_then_answers 1) Json.loads
      Conversation.dumps_stub Conversation.echo_tool (fun _ => ∅)
      [Conversation.System "prompt"; Conversation.User "task"] NUMBER 0%nat
    = Run (Ok (VInt 42))
          ([Conversation.System "prompt"; Conversation.User "task";
            Conversation.Assistant None
              [{| Conversation.call_id := "call_1"; Conversation.call_type := "function";
                  Conversation.function_name := "get_value";
                  Conversation.arguments := "{}" |}];
            Conversation.Tool "call_1" "{}"], 2%nat) [] 2) by (vm_compute; reflexivity).
  split; [exact Hrun|].
  destruct (execute_llm_loop_transcript (Conversation.asks_then_answers 1) Json.loads
              Conversation.dumps_stub Conversation.echo_tool (fun _ => ∅)
              [Conversation.System "prompt"; Conversation.User "task"] NUMBER 0%nat)
    as (rounds & Hfinal & _ & Hcomplete).
  rewrite Hrun in Hfinal, Hcomplete. cbn [final fst result] in Hfinal, Hcomplete.
  exists rounds. split; [exact Hfinal | exact (Hcomplete (VInt 42) eq_refl)].
Defined.


(** ** The validator of the secret *)

Lemma rstrip_by_fixed (drop : ascii -> bool) (s : string) :
  (forall c, Re.last_char None s = Some c -> drop c = false) ->
  PyStr.rstrip_by drop s = s.
Proof.
  induction s as [|c s IH]; intros Hlast; cbn [PyStr.rstrip_by]; [reflexivity|].
  destruct s as [|d s].
  - cbn. rewrite (Hlast c eq_refl). reflexivity.
  - rewrite IH.
    + reflexivity.
    + intros x Hx. apply Hlast.
      rewrite (last_char_cons None c), (last_char_cons (Some c) d).
      rewrite (last_char_cons None d) in Hx. exact Hx.
Qed.

Lemma lstrip_by_fixed (drop : ascii -> bool) (s : string) :
  (forall c, Trimming.first_char s = Some c -> drop c = false) ->
  PyStr.lstrip_by drop s = s.
Proof.
  destruct s as [|c s]; intros Hfirst; [reflexivity|].
  apply lstrip_by_head, Hfirst. reflexivity.
Qed.

Lemma strip_by_idempotent (drop : ascii -> bool) (s : string) :
  PyStr.strip_by drop (PyStr.strip_by drop s) = PyStr.strip_by drop s.
Proof.
  unfold PyStr.strip_by.
  rewrite (lstrip_by_fixed drop (PyStr.rstrip_by drop (PyStr.lstrip_by drop s))).
  - apply rstrip_by_fixed. intros c Hc. exact (rstrip_by_last _ _ _ Hc).
  - intros c Hc. apply rstrip_by_first in Hc. exact (lstrip_by_first _ _ _ Hc).
Qed.

Lemma strip_by_split (drop : ascii -> bool) (s : string) :
  exists pre post,
    s = pre ++ PyStr.strip_by drop s ++ post
    /\ Base64.all_chars drop pre = true /\ Base64.all_chars drop post = true.
Proof.
  unfold PyStr.strip_by.
  destruct (lstrip_by_split drop s) as (pre & Hs & Hpre).
  destruct (rstrip_by_split drop (PyStr.lstrip_by drop s)) as (post & Hl & Hpost).
  exists pre, post. split; [|split; assumption].
  rewrite <- Hl. exact Hs.
Qed.



(** ** The choice of the model *)

(** X25. A task whose instructions mention an image or a chart, in any
    case of letters, gets the answer format base64 from the parser and
    the vision model from the agent: [gpt-4o] when the configured model is
    a [gpt-4] one, the configured model otherwise.  A task that needs no
    vision keeps the configured model, whether it needs audio or not. *)
Theorem image_tasks_select_vision (task : TaskDefinition) (self_model : string)
    (requires_audio : bool) :
  (PyStr.contains "image" (PyStr.lower (instructions task))
   || PyStr.contains "chart" (PyStr.lower (instructions task)) = true ->
   Parser._detect_answer_format (instructions task) = BASE64
   /\ Vision._requires_vision task = true
   /\ Vision._select_model self_model (Vision._requires_vision task) requires_audio
      = if PyStr.contains "gpt-4" self_model then "gpt-4o" else self_model)
  /\ Vision._select_model self_model false requires_audio = self_model.
Proof.
  split.
  - intros Hmentions.
    assert (Hformat : Parser._detect_answer_format (instructions task) = BASE64).
    { unfold Parser._detect_answer_format.
      destruct (PyStr.contains "image" (PyStr.lower (instructions task)));
        [rewrite !orb_true_r; reflexivity|].
      cbn [orb] in Hmentions. rewrite Hmentions, !orb_true_r. reflexivity. }
    assert (Hvision : Vision._requires_vision task = true).
    { unfold Vision._requires_vision, Vision.vision_keywords.
      cbn [PyStr.contains_any existsb].
      destruct (PyStr.contains "image" (PyStr.lower (instructions task)));
        [apply orb_true_r|].
      cbn [orb] in Hmentions. rewrite Hmentions, !orb_true_r. reflexivity. }
    split; [exact Hformat|]. split; [exact Hvision|]. rewrite Hvision. reflexivity.
  - destruct requires_audio; reflexivity.
Qed.

Lemma image_tasks_select_vision_witness :
  PyStr.contains "image" (PyStr.lower "Describe the IMAGE")
  || PyStr.contains "chart" (PyStr.lower "Describe the IMAGE") = true
  /\ Vision._select_model "gpt-4"
       (Vision._requires_vision
          {| instructions := "Describe the IMAGE"; submit_url := "https://x/submit";
             answer_format := BASE64; file_urls := []; additional_context := ∅ |})
       false
     = "gpt-4o".
Proof.
  split; [reflexivity|].
  destruct (image_tasks_select_vision
              {| instructions := "Describe the IMAGE"; submit_url := "https://x/submit";
                 answer_format := BASE64; file_urls := []; additional_context := ∅ |}
              "gpt-4" false) as [Hvision _].
  destruct (Hvision eq_refl) as (_ & _ & Hmodel). exact Hmodel.
Defined.

(** ** The file downloader *)

Lemma char_in_before (c d : ascii) (s : string) :
  PyStr.char_in c (WebScraper.before d s) = true -> PyStr.char_in c s = true.
Proof.
  induction s as [|x s IH]; cbn [WebScraper.before PyStr.char_in]; [auto|].
  destruct (Ascii.eqb x d); [discriminate|]. cbn [PyStr.char_in].
  intros H. apply orb_prop in H as [H|H]; [rewrite H; reflexivity|].
  rewrite (IH H). apply orb_true_r.
Qed.

Lemma before_excludes (c : ascii) (s : string) :
  PyStr.char_in c (WebScraper.before c s) = false.
Proof.
  induction s as [|x s IH]; cbn [WebScraper.before PyStr.char_in]; [reflexivity|].
  destruct (Ascii.eqb x c) eqn:E; [reflexivity|]. cbn [PyStr.char_in].
  rewrite Ascii.eqb_sym, E, IH. reflexivity.
Qed.

Lemma char_in_after_last (c d : ascii) (s : string) :
  PyStr.char_in c (WebScraper.after_last d s) = true -> PyStr.char_in c s = true.
Proof.
  induction s as [|x s IH]; cbn [WebScraper.after_last PyStr.char_in]; [auto|].
  destruct (PyStr.char_in d s).
  - intros H. rewrite (IH H). apply orb_true_r.
  - destruct (Ascii.eqb x d).
    + intros H. rewrite H. apply orb_true_r.
    + cbn [PyStr.char_in]. auto.
Qed.

Lemma after_last_excludes (c : ascii) (s : string) :
  PyStr.char_in c (WebScraper.after_last c s) = false.
Proof.
  induction s as [|x s IH]; cbn [WebScraper.after_last]; [reflexivity|].
  destruct (PyStr.char_in c s) eqn:Hs; [exact IH|].
  destruct (Ascii.eqb x c) eqn:Hx; [exact Hs|].
  cbn [PyStr.char_in]. rewrite Ascii.eqb_sym, Hx, Hs. reflexivity.
Qed.

Lemma lower_char_fixed (c : ascii) : PyStr.lower_char (PyStr.lower_char c) = PyStr.lower_char c.
Proof.
  assert (H : Ascii.eqb (PyStr.lower_char (PyStr.lower_char c)) (PyStr.lower_char c) = true)
    by (revert c; apply forall_ascii; vm_compute; reflexivity).
  apply Ascii.eqb_eq, H.
Qed.

Lemma lower_idempotent (s : string) : PyStr.lower (PyStr.lower s) = PyStr.lower s.
Proof.
  induction s as [|c s IH]; cbn [PyStr.lower]; [reflexivity|].
  rewrite lower_char_fixed, IH. reflexivity.
Qed.

(** Lower-casing puts no punctuation into a text. *)
Lemma char_in_lower (c : ascii) (s : string) :
  PyStr.is_alpha c = false ->
  PyStr.char_in c (PyStr.lower s) = PyStr.char_in c s.
Proof.
  intros Hc. induction s as [|x s IH]; cbn [PyStr.lower PyStr.char_in]; [reflexivity|].
  rewrite IH. f_equal.
  assert (H : forall a b, implb (negb (PyStr.is_alpha a))
                            (Bool.eqb (Ascii.eqb a (PyStr.lower_char b)) (Ascii.eqb a b))
                          = true)
    by (apply forall_ascii2; vm_compute; reflexivity).
  specialize (H c x). rewrite Hc in H. cbn [negb implb] in H.
  apply Bool.eqb_prop in H. exact H.
Qed.

Lemma length_lower (s : string) : String.length (PyStr.lower s) = String.length s.
Proof. induction s as [|c s IH]; cbn; [reflexivity | rewrite IH; reflexivity]. Qed.

Lemma before_append (c : ascii) (s t : string) :
  PyStr.char_in c s = false ->
  WebScraper.before c (s ++ String c t) = s.
Proof.
  induction s as [|x s IH]; cbn [String.append WebScraper.before PyStr.char_in].
  - intros _. rewrite Ascii.eqb_refl. reflexivity.
  - intros H. apply orb_false_elim in H as [Hx Hs].
    rewrite Ascii.eqb_sym, Hx, (IH Hs). reflexivity.
Qed.

Lemma before_absent (c : ascii) (s : string) :
  PyStr.char_in c s = false -> WebScraper.before c s = s.
Proof.
  induction s as [|x s IH]; cbn [WebScraper.before PyStr.char_in]; [reflexivity|].
  intros H. apply orb_false_elim in H as [Hx Hs].
  rewrite Ascii.eqb_sym, Hx, (IH Hs). reflexivity.
Qed.

(** X26. An extension that [_extract_extension] returns for an ASCII URL
    has at most ten characters, is in lower case and holds no dot, slash,
    question mark or hash; and the query of a URL has no influence on the
    extension found. *)
Theorem extract_extension_sound (url : string) :
  (forall extension,
      Base64.all_chars Base64.is_ascii url = true ->
      WebScraper._extract_extension url = Some extension ->
      (String.length extension <= 10)%nat
      /\ PyStr.lower extension = extension
      /\ PyStr.char_in "." extension = false
      /\ PyStr.char_in "/" extension = false
      /\ PyStr.char_in "?" extension = false
      /\ PyStr.char_in "#" extension = false)
  /\ (forall query,
        PyStr.char_in "?" url = false ->
        WebScraper._extract_extension (url ++ String "?" query)
        = WebScraper._extract_extension url).
Proof.
  split.
  - intros extension _. unfold WebScraper._extract_extension.
    set (url_path := WebScraper.before "#" (WebScraper.before "?" url)).
    set (filename := if PyStr.char_in "/" url_path
                     then WebScraper.after_last "/" url_path else url_path).
    destruct (PyStr.char_in "." filename); [|discriminate].
    destruct (negb (PyStr.char_in "/" (PyStr.lower (WebScraper.after_last "." filename)))
              && (String.length (PyStr.lower (WebScraper.after_last "." filename)) <=? 10)%nat)
      eqn:Hok; [|discriminate].
    intros [= <-]. apply andb_prop in Hok as [Hslash Hlen].
    apply negb_true_iff in Hslash. apply Nat.leb_le in Hlen.
    assert (Hin : forall c, PyStr.char_in c (WebScraper.after_last "." filename) = true ->
                            PyStr.char_in c url_path = true).
    { intros c Hc. apply char_in_after_last in Hc. subst filename.
      destruct (PyStr.char_in "/" url_path); [apply char_in_after_last in Hc|]; exact Hc. }
    split; [exact Hlen|]. split; [apply lower_idempotent|].
    split; [rewrite char_in_lower by reflexivity; apply after_last_excludes|].
    split; [exact Hslash|]. split.
    + rewrite char_in_lower by reflexivity.
      destruct (PyStr.char_in "?" (WebScraper.after_last "." filename)) eqn:E;
        [|reflexivity].
      apply Hin in E. subst url_path. apply char_in_before in E.
      rewrite before_excludes in E. discriminate.
    + rewrite char_in_lower by reflexivity.
      destruct (PyStr.char_in "#" (WebScraper.after_last "." filename)) eqn:E;
        [|reflexivity].
      apply Hin in E. subst url_path. rewrite before_excludes in E. discriminate.
  - intros query Hq. unfold WebScraper._extract_extension.
    rewrite (before_append "?" url query Hq), (before_absent "?" url Hq). reflexivity.
Qed.

Lemma extract_extension_sound_witness :
  Base64.all_chars Base64.is_ascii "https://x/files/Data.CSV" = true
  /\ WebScraper._extract_extension "https://x/files/Data.CSV" = Some "csv"
  /\ (String.length "csv" <= 10)%nat
  /\ PyStr.char_in "?" "https://x/files/Data.CSV" = false
  /\ WebScraper._extract_extension ("https://x/files/Data.CSV" ++ String "?" "token=a.b/c")
     = WebScraper._extract_extension "https://x/files/Data.CSV".
Proof.
  destruct (extract_extension_sound "https://x/files/Data.CSV") as [Hsound Hquery].
  destruct (Hsound "csv" eq_refl eq_refl) as (Hlen & _).
  split; [reflexivity|]. split; [reflexivity|]. split; [exact Hlen|].
  split; [reflexivity|]. apply Hquery. reflexivity.
Defined.

Lemma read_chunks_result (max_file_size : nat) (chunks : list string) :
  forall content result,
    (String.length content <= max_file_size)%nat ->
    WebScraper.read_chunks max_file_size content chunks = Ok result ->
    result = content ++ WebScraper.concat_chunks chunks
    /\ (String.length result <= max_file_size)%nat.
Proof.
  induction chunks as [|chunk rest IH]; intros content result Hfits H.
  - cbn in H. injection H as <-. cbn. rewrite append_empty_r. auto.
  - cbn [WebScraper.read_chunks] in H.
    destruct (max_file_size <? String.length (content ++ chunk))%nat eqn:Hover;
      [discriminate|].
    apply Nat.ltb_ge in Hover. destruct (IH _ _ Hover H) as [-> Hlen].
    split; [|exact Hlen]. cbn [WebScraper.concat_chunks fold_right].
    apply append_assoc.
Qed.

(** X27. What [download_file] returns is the body of a response with a
    status below 400 to a URL that starts with [http://] or [https://]:
    all the chunks received, in their order, and never more than
    [max_file_size] bytes. *)
Theorem download_file_returns (max_file_size : nat)
    (get : string -> outcome WebScraper.response) (int_of_text : string -> outcome Z)
    (url content : string) :
  WebScraper.download_file max_file_size get int_of_text url = Ok content ->
  (PyStr.startswith "http://" url || PyStr.startswith "https://" url = true)
  /\ (String.length content <= max_file_size)%nat
  /\ exists r,
       get url = Ok r
       /\ WebScraper.status r < 400
       /\ content = WebScraper.concat_chunks (WebScraper.chunks r).
Proof.
  unfold WebScraper.download_file.
  destruct (String.eqb url "") ; [discriminate|]. cbn [orb].
  destruct (PyStr.startswith "http://" url || PyStr.startswith "https://" url);
    [|discriminate].
  cbn [negb]. destruct (get url) as [r|e]; [|discriminate].
  destruct (400 <=? WebScraper.status r) eqn:Hstatus; [discriminate|].
  apply Z.leb_gt in Hstatus.
  assert (Hread : WebScraper.read_chunks max_file_size "" (WebScraper.chunks r) = Ok content ->
                  true = true
                  /\ (String.length content <= max_file_size)%nat
                  /\ exists r0, Ok r = Ok r0 /\ WebScraper.status r0 < 400
                                /\ content = WebScraper.concat_chunks (WebScraper.chunks r0)).
  { intros H. apply read_chunks_result in H as [-> Hlen]; [|cbn; lia].
    split; [reflexivity|]. split; [exact Hlen|]. exists r. auto. }
  destruct (WebScraper.content_length r) as [[|c text]|]; [exact Hread| |exact Hread].
  destruct (int_of_text (String c text)) as [size|e]; [|discriminate].
  destruct (Z.of_nat max_file_size <? size); [discriminate | exact Hread].
Qed.

Lemma download_file_returns_witness :
  WebScraper.download_file 10 (WebScraper.serves ["abc"; "def"]) WebScraper.int_stub
    "https://x/data.csv" = Ok "abcdef"
  /\ (String.length "abcdef" <= 10)%nat
  /\ WebScraper.download_file 5 (WebScraper.serves ["abc"; "def"]) WebScraper.int_stub
       "https://x/data.csv"
     = Raise (Parser.value_error
                "Downloaded content exceeds maximum allowed size (5 bytes)").
Proof.
  assert (H : WebScraper.download_file 10 (WebScraper.serves ["abc"; "def"])
                WebScraper.int_stub "https://x/data.csv" = Ok "abcdef") by reflexivity.
  split; [exact H|].
  destruct (download_file_returns _ _ _ _ _ H) as (_ & Hlen & _).
  split; [exact Hlen | reflexivity].
Defined.

(** ** The metrics *)

Lemma record_invariant (events : list (Monitoring.QuizMetrics * Q)) :
  forall s0,
    let s := fold_left (fun s e => Monitoring.add_quiz_metrics s (fst e) (snd e)) events s0 in
    Monitoring.total_requests s
      = Monitoring.total_requests s0 + Z.of_nat (List.length events)
    /\ Monitoring.successful_requests s
       = Monitoring.successful_requests s0
         + Z.of_nat (List.length (filter (fun e => Monitoring.success (fst e)) events))
    /\ Monitoring.failed_requests s
       = Monitoring.failed_requests s0
         + Z.of_nat (List.length
                       (filter (fun e => negb (Monitoring.success (fst e))) events))
    /\ Monitoring.quiz_metrics s = (Monitoring.quiz_metrics s0 ++ map fst events)%list.
Proof.
  induction events as [|[m now] events IH]; intros s0 s; subst s.
  - cbn. rewrite app_nil_r. repeat split; lia.
  - cbn [fold_left fst snd].
    destruct (IH (Monitoring.add_quiz_metrics s0 m now)) as (H1 & H2 & H3 & H4).
    rewrite H1, H2, H3, H4. cbn [Monitoring.add_quiz_metrics Monitoring.total_requests
      Monitoring.successful_requests Monitoring.failed_requests Monitoring.quiz_metrics
      filter map fst List.length].
    rewrite <- app_assoc. cbn [app].
    destruct (Monitoring.success m); cbn [negb List.length]; repeat split; lia.
Qed.

Lemma filter_partition_length {A : Type} (p : A -> bool) (l : list A) :
  (List.length (filter p l) + List.length (filter (fun x => negb (p x)) l))%nat
  = List.length l.
Proof.
  induction l as [|x l IH]; cbn; [reflexivity|].
  destruct (p x); cbn; lia.
Qed.

(** X28. After any series of recorded quizzes the counters of
    [SystemMetrics] agree: the requests counted are the quizzes recorded,
    each of them counted as a success or as a failure and never as both;
    the success rate lies between 0 and 1, and is 0 when nothing was
    recorded; and the report shows the last ten quizzes at most. *)
Theorem metrics_counters_agree (events : list (Monitoring.QuizMetrics * Q)) :
  let s := Monitoring.record_all events in
  Monitoring.total_requests s = Z.of_nat (List.length events)
  /\ Monitoring.successful_requests s
     = Z.of_nat (List.length (filter (fun e => Monitoring.success (fst e)) events))
  /\ Monitoring.successful_requests s + Monitoring.failed_requests s
     = Monitoring.total_requests s
  /\ (0 <= Monitoring.get_success_rate s <= 1)%Q
  /\ (events = [] -> Monitoring.get_success_rate s = 0%Q)
  /\ List.length (Monitoring.recent_quizzes s) = Nat.min 10 (List.length events).
Proof.
  intros s. subst s. unfold Monitoring.record_all.
  destruct (record_invariant events Monitoring.empty) as (Htotal & Hok & Hfailed & Hlist).
  set (s := fold_left (fun s e => Monitoring.add_quiz_metrics s (fst e) (snd e)) events
              Monitoring.empty) in *.
  cbn [Monitoring.empty Monitoring.total_requests Monitoring.successful_requests
       Monitoring.failed_requests Monitoring.quiz_metrics app] in *.
  rewrite Z.add_0_l in Htotal, Hok, Hfailed.
  pose proof (filter_partition_length (fun e => Monitoring.success (fst e)) events) as Hpart.
  cbv beta in Hpart.
  split; [exact Htotal|]. split; [exact Hok|]. split; [lia|]. split; [|split].
  - unfold Monitoring.get_success_rate.
    destruct (Monitoring.total_requests s =? 0) eqn:Hzero; [split; discriminate|].
    apply Z.eqb_neq in Hzero.
    assert (Hpos : (0 < inject_Z (Monitoring.total_requests s))%Q).
    { change 0%Q with (inject_Z 0). rewrite <- Zlt_Qlt. lia. }
    split.
    + apply Qle_shift_div_l; [exact Hpos|]. rewrite Qmult_0_l.
      change 0%Q with (inject_Z 0). rewrite <- Zle_Qle. lia.
    + apply Qle_shift_div_r; [exact Hpos|]. rewrite Qmult_1_l.
      rewrite <- Zle_Qle. rewrite Hok, Htotal. apply Nat2Z.inj_le. lia.
  - intros ->. reflexivity.
  - unfold Monitoring.recent_quizzes. rewrite Hlist, length_skipn, length_map. lia.
Qed.

Example metrics_counters_example :
  Monitoring.get_success_rate
    (Monitoring.record_all [(Monitoring.finished true, 5%Q);
                            (Monitoring.finished false, 9%Q)])
  = (inject_Z 1 / inject_Z 2)%Q.
Proof. reflexivity. Qed.

(** ** The endpoint that accepts a quiz *)


Example handle_quiz_examples :
  Api.handle_quiz Api.example_EmailStr Parser.example_HttpUrl "s3cret"
    (Ok (VDict [("email", VStr "a@b.c"); ("secret", VStr " s3cret ");
                ("url", VStr "https://x/q")]))
  = (Ok {| Api.status := "accepted";
           Api.message := Some "Quiz request received and is being processed" |},
     [("a@b.c", "s3cret", "https://x/q")])
  /\ Api.handle_quiz Api.example_EmailStr Parser.example_HttpUrl "s3cret"
       (Ok (VList [VInt 1]))
     = (Raise (Api.not_a_mapping (VList [VInt 1])), [])
  /\ Api.handle_quiz Api.example_EmailStr Parser.example_HttpUrl "s3cret"
       (Ok (VDict [("email", VStr "a@b.c"); ("secret", VStr "guess");
                   ("url", VStr "https://x/q")]))
     = (Raise (Api.HTTPException 403 "Invalid secret"), []).
Proof. repeat split. Qed.
